(** * Notebook output synchronisation and translation validation

    A shallow embedding of [sync_outputs.py] and [validate_translation.py],
    and the properties of the two scripts.

    Both scripts work on notebooks as [json.load] returns them: trees of
    Python values.  The definitions come first:
    - [Py]: those values and the Python primitives the scripts apply to
      them, with the exceptions they raise;
    - [Notebook]: how a notebook and a cell are read in the statements;
    - [Sync]: [sync_notebook_outputs], made of its loop [sync_cells] and
      the write, and [SyncLoop], the state of the loop;
    - [Validate]: the methods of [NotebookValidator] and the status line
      computed by [main], and [Checks], what the checks look at;
    - [Examples]: sample notebooks;
    - [Batch]: the two [main] functions over a directory, with
      [BatchReadings], [Readings] and [BatchExamples].
    The proofs follow: [PyFacts], [SyncFacts] and [SyncProperties] for the
    synchroniser, [ValidateFacts] and [ValidateProperties] for the
    validator, [Scenarios], then [SyncMore], [ValidateMore],
    [SyncThenValidate] for the two scripts run one after the other, and
    [BatchFacts] for the drivers.

    Conventions.
    - A Python [str] is a [str]: the list of its code points, one element
      per character, so that [len], slices and [strip] count and classify
      characters as Python does.  A literal in double quotes is the ASCII
      string with those characters.
    - A Python [dict] is an association list in insertion order, as Python
      dicts are; a key occurs at most once in a dict built by [json.load],
      and [dict_set] keeps that.
    - A JSON number is an [int] or a [float]; a float is kept as the
      [spec_float] it denotes, so that [==] and truth values are exact.
    - Items of a list and values of a dict are compared by identity before
      [==]; [json.load] hands out one object for every [NaN] it reads, so
      inside a container [NaN] equals [NaN], and on its own it does not.
    - A function takes the loaded notebooks and returns what it hands to
      its caller together with the notebook it writes.  Writing is
      [json.dump(..., ensure_ascii=False)] into a file opened for writing in
      UTF-8: it raises [UnicodeEncodeError] when a string of the document
      holds a surrogate code point, and the file, truncated when it was
      opened, is then left with the beginning of the document only, which
      [json.load] refuses.  A notebook written in full is read back by
      [json.load] as the same value.
    - Failures of the machine (a disk that cannot be written, the recursion
      limit on a very deep document) are outside the model, and [print] is
      taken to succeed: the lines the drivers print are kept as data. *)

From Stdlib Require Import ZArith NArith List Bool Lia.
From Stdlib.Strings Require Import Byte.
From Stdlib.Floats Require Import SpecFloat.
From stdpp Require Import base list.

Open Scope list_scope.

(* ===================================================================== *)
(** * Python values and primitives *)
(* ===================================================================== *)

Module Py.

(** ** Strings *)

(** A Python [str]: its code points, in order. *)
Inductive str := Str (codes : list N).

Definition codes (s : str) : list N :=
  match s with Str l => l end.

(** Literals: ["abc"] is the string of the three ASCII characters. *)
Definition str_of_bytes (bs : list Byte.byte) : option str :=
  if forallb (fun b => (Byte.to_N b <? 128)%N) bs
  then Some (Str (map Byte.to_N bs))
  else None.

Fixpoint bytes_of_codes (l : list N) : option (list Byte.byte) :=
  match l with
  | [] => Some []
  | c :: r =>
      if (c <? 128)%N then
        match Byte.of_N c, bytes_of_codes r with
        | Some b, Some bs => Some (b :: bs)
        | _, _ => None
        end
      else None
  end.

Definition bytes_of_str (s : str) : option (list Byte.byte) :=
  bytes_of_codes (codes s).

Declare Scope str_scope.
Delimit Scope str_scope with str.
Bind Scope str_scope with str.
String Notation str str_of_bytes bytes_of_str : str_scope.
Open Scope str_scope.

Fixpoint codes_eqb (a b : list N) : bool :=
  match a, b with
  | [], [] => true
  | x :: a', y :: b' => N.eqb x y && codes_eqb a' b'
  | _, _ => false
  end.

(** [a == b] for strings. *)
Definition str_eqb (a b : str) : bool := codes_eqb (codes a) (codes b).

(** [len(s)] *)
Definition str_len (s : str) : nat := length (codes s).

(** [a + b] *)
Definition str_app (a b : str) : str := Str (codes a ++ codes b).

(** [''.join(l)] for a list of strings. *)
Definition str_concat (l : list str) : str := foldr str_app "" l.

(** The characters [str.strip()] removes: those for which [str.isspace()]
    holds. *)
Definition is_space (c : N) : bool :=
  ((9 <=? c) && (c <=? 13) || (28 <=? c) && (c <=? 32)
   || (c =? 133) || (c =? 160) || (c =? 5760)
   || (8192 <=? c) && (c <=? 8202)
   || (c =? 8232) || (c =? 8233) || (c =? 8239) || (c =? 8287)
   || (c =? 12288))%N.

Fixpoint lstrip (l : list N) : list N :=
  match l with
  | [] => []
  | c :: r => if is_space c then lstrip r else l
  end.

Fixpoint rstrip (l : list N) : list N :=
  match l with
  | [] => []
  | c :: r =>
      match rstrip r with
      | [] => if is_space c then [] else [c]
      | r' => c :: r'
      end
  end.

(** [s.strip()] *)
Definition strip (s : str) : str := Str (rstrip (lstrip (codes s))).

(** [s[:n]] *)
Definition slice_to (n : nat) (s : str) : str := Str (take n (codes s)).

Fixpoint starts_with (p l : list N) : bool :=
  match p, l with
  | [], _ => true
  | x :: p', y :: l' => N.eqb x y && starts_with p' l'
  | _ :: _, [] => false
  end.

Fixpoint occurs_in (p l : list N) : bool :=
  starts_with p l
  || match l with
     | [] => false
     | _ :: l' => occurs_in p l'
     end.

(** [needle in s] for strings. *)
Definition is_substring (needle s : str) : bool :=
  occurs_in (codes needle) (codes s).

(** A surrogate code point has no UTF-8 encoding. *)
Definition is_surrogate (c : N) : bool :=
  ((55296 <=? c) && (c <=? 57343))%N.

(** [s.encode('utf-8')] succeeds. *)
Definition encodable (s : str) : bool :=
  forallb (fun c => negb (is_surrogate c)) (codes s).

(** ** Values *)

(** Values produced by [json.load]. *)
#[local] Set Warnings "-register-all".
Inductive json :=
| JNull
| JBool (b : bool)
| JInt (z : Z)
| JFloat (f : spec_float)
| JStr (s : str)
| JArr (items : list json)
| JObj (fields : list (str * json)).

Definition dict := list (str * json).

(** Exceptions the scripts can meet on loaded notebooks.  The payload names
    the failing operation and the Python type of the offending value. *)
Inductive exn :=
| KeyError (key : json)
| IndexError
| AttributeError (type_name attr : str)
| TypeError (operation type_name : str)
| UnicodeEncodeError.

Inductive result (A : Type) :=
| Ok (a : A)
| Raise (e : exn).
Arguments Ok {A} a.
Arguments Raise {A} e.

Definition bind {A B} (r : result A) (k : A -> result B) : result B :=
  match r with
  | Ok a => k a
  | Raise e => Raise e
  end.

Declare Scope py_scope.
Delimit Scope py_scope with py.
Notation "x <- e ;; k" := (bind e (fun x => k))
  (at level 100, e at next level, right associativity) : py_scope.
Open Scope py_scope.

Definition type_name (v : json) : str :=
  match v with
  | JNull => "NoneType"
  | JBool _ => "bool"
  | JInt _ => "int"
  | JFloat _ => "float"
  | JStr _ => "str"
  | JArr _ => "list"
  | JObj _ => "dict"
  end.

(** ** Dicts *)

Fixpoint dict_get (k : str) (d : dict) : option json :=
  match d with
  | [] => None
  | (k', v) :: d' => if str_eqb k k' then Some v else dict_get k d'
  end.

(** [d[k] = v]: an existing key keeps its place, a new key goes last. *)
Fixpoint dict_set (k : str) (v : json) (d : dict) : dict :=
  match d with
  | [] => [(k, v)]
  | (k', v') :: d' =>
      if str_eqb k k' then (k, v) :: d' else (k', v') :: dict_set k v d'
  end.

Definition dict_keys (d : dict) : list str := map fst d.
Definition dict_values (d : dict) : list json := map snd d.

(** The characters of a string, as iteration yields them. *)
Definition chars (s : str) : list json :=
  map (fun c => JStr (Str [c])) (codes s).

(** ** Comparison and truth value *)

(** An integer against a float, compared exactly as Python does. *)
Definition int_eq_float (z : Z) (f : spec_float) : bool :=
  match f with
  | S754_zero _ => Z.eqb z 0
  | S754_finite s m e =>
      let mag := if s then Z.opp (Z.pos m) else Z.pos m in
      if Z.leb 0 e then Z.eqb z (mag * 2 ^ e)
      else Z.eqb (z * 2 ^ (Z.opp e)) mag
  | S754_infinity _ | S754_nan => false
  end.

(** [x is y] for two values read from two different files: [json.load]
    returns the one [NaN] object of the [json] module for every [NaN]
    literal.  The other objects the two documents can share are equal to
    themselves under [==] as well. *)
Definition same_nan (x y : json) : bool :=
  match x, y with
  | JFloat S754_nan, JFloat S754_nan => true
  | _, _ => false
  end.

(** [a == b].  [bool] is a subclass of [int]: [True == 1] and [True == 1.0].
    Lists and dicts compare their items with [x is y or x == y]. *)
Fixpoint py_eq (a b : json) : bool :=
  match a, b with
  | JNull, JNull => true
  | JBool x, JBool y => Bool.eqb x y
  | JBool x, JInt z | JInt z, JBool x => Z.eqb (Z.b2z x) z
  | JBool x, JFloat f | JFloat f, JBool x => int_eq_float (Z.b2z x) f
  | JInt x, JInt y => Z.eqb x y
  | JInt z, JFloat f | JFloat f, JInt z => int_eq_float z f
  | JFloat f, JFloat g => SFeqb f g
  | JStr s, JStr s' => str_eqb s s'
  | JArr l, JArr l' =>
      (fix all2 (l l' : list json) : bool :=
         match l, l' with
         | [], [] => true
         | x :: xs, y :: ys => (same_nan x y || py_eq x y) && all2 xs ys
         | _, _ => false
         end) l l'
  | JObj d, JObj d' =>
      Nat.eqb (length d) (length d')
      && (fix sub (d : dict) : bool :=
            match d with
            | [] => true
            | (k, v) :: r =>
                match dict_get k d' with
                | Some v' => same_nan v v' || py_eq v v'
                | None => false
                end && sub r
            end) d
  | _, _ => false
  end.

(** [bool(v)] *)
Definition py_truthy (v : json) : bool :=
  match v with
  | JNull => false
  | JBool b => b
  | JInt z => negb (Z.eqb z 0)
  | JFloat (S754_zero _) => false
  | JFloat _ => true
  | JStr s => negb (str_eqb s "")
  | JArr l => match l with [] => false | _ => true end
  | JObj d => match d with [] => false | _ => true end
  end.

(** ** Container primitives *)

(** [len(v)] *)
Definition py_len (v : json) : result nat :=
  match v with
  | JStr s => Ok (str_len s)
  | JArr l => Ok (length l)
  | JObj d => Ok (length d)
  | _ => Raise (TypeError "len" (type_name v))
  end.

(** [iter(v)], run to the end. *)
Definition py_iter (v : json) : result (list json) :=
  match v with
  | JStr s => Ok (chars s)
  | JArr l => Ok l
  | JObj d => Ok (map JStr (dict_keys d))
  | _ => Raise (TypeError "iter" (type_name v))
  end.

(** [v[k]] with a string key. *)
Definition py_getitem (v : json) (k : str) : result json :=
  match v with
  | JObj d =>
      match dict_get k d with
      | Some x => Ok x
      | None => Raise (KeyError (JStr k))
      end
  | _ => Raise (TypeError "subscript" (type_name v))
  end.

(** [v[i]] with a non-negative integer index. *)
Definition py_index (v : json) (i : nat) : result json :=
  match v with
  | JArr l =>
      match l !! i with
      | Some x => Ok x
      | None => Raise IndexError
      end
  | JStr s =>
      match codes s !! i with
      | Some c => Ok (JStr (Str [c]))
      | None => Raise IndexError
      end
  | JObj _ => Raise (KeyError (JInt (Z.of_nat i)))
  | _ => Raise (TypeError "subscript" (type_name v))
  end.

(** [v.get(k, default)]; only dicts have the method. *)
Definition py_get (v : json) (k : str) (dflt : json) : result json :=
  match v with
  | JObj d =>
      match dict_get k d with
      | Some x => Ok x
      | None => Ok dflt
      end
  | _ => Raise (AttributeError (type_name v) "get")
  end.

(** [k in v] with a string on the left. *)
Definition py_in (k : str) (v : json) : result bool :=
  match v with
  | JObj d => Ok (match dict_get k d with Some _ => true | None => false end)
  | JArr l => Ok (existsb (py_eq (JStr k)) l)
  | JStr s => Ok (is_substring k s)
  | _ => Raise (TypeError "in" (type_name v))
  end.

(** [v[k] = x] with a string key, returning the mutated object. *)
Definition py_setitem (v : json) (k : str) (x : json) : result json :=
  match v with
  | JObj d => Ok (JObj (dict_set k x d))
  | _ => Raise (TypeError "setitem" (type_name v))
  end.

(** [''.join(v)] *)
Fixpoint join_items (l : list json) : result str :=
  match l with
  | [] => Ok ""
  | JStr s :: r => rest <- join_items r ;; Ok (str_app s rest)
  | x :: _ => Raise (TypeError "join" (type_name x))
  end.

Definition py_join (v : json) : result str :=
  match v with
  | JStr s => Ok s
  | JArr l => join_items l
  | JObj d => Ok (str_concat (dict_keys d))
  | _ => Raise (TypeError "join" (type_name v))
  end.

(** [zip(a, b)]: both arguments are turned into iterators first, then pairs
    are drawn until the shorter one ends. *)
Definition py_zip (a b : json) : result (list (json * json)) :=
  la <- py_iter a ;;
  lb <- py_iter b ;;
  Ok (zip la lb).

(** ** Writing a document *)

(** Every string of the document, key or value, can be encoded. *)
Fixpoint writable (v : json) : bool :=
  match v with
  | JStr s => encodable s
  | JArr l =>
      (fix every (l : list json) : bool :=
         match l with
         | [] => true
         | x :: r => writable x && every r
         end) l
  | JObj d =>
      (fix every (d : dict) : bool :=
         match d with
         | [] => true
         | (k, x) :: r => encodable k && writable x && every r
         end) d
  | _ => true
  end.

(** [json.dump(v, f, ensure_ascii=False, indent=1)] into a file opened with
    [encoding='utf-8']. *)
Definition py_dump (v : json) : result unit :=
  if writable v then Ok tt else Raise UnicodeEncodeError.

(** ** Loops *)

(** [for i, p in enumerate(ps, start): s = body(i, p, s)], stopping at the
    first exception. *)
Fixpoint py_for {S P : Type} (body : nat -> P -> S -> result S)
    (start : nat) (ps : list P) (s : S) : result S :=
  match ps with
  | [] => Ok s
  | p :: ps' => s' <- body start p s ;; py_for body (Datatypes.S start) ps' s'
  end.

(** [for i in range(n): s = body(i, s)] *)
Definition py_range {S : Type} (body : nat -> S -> result S) (n : nat) (s : S)
  : result S :=
  py_for (fun _ i s => body i s) 0 (seq 0 n) s.

End Py.

(* ===================================================================== *)
(** * Reading a notebook *)
(* ===================================================================== *)

(** Observations on notebooks and cells in which the properties below are
    stated.  They read a notebook the way the scripts do: the cells are
    [nb['cells']], cell [i] is [nb['cells'][i]], a field of a cell is a key
    of the dict. *)
Module Notebook.
Import Py.

(** The value under key [k] of a cell, if the cell is a dict that has it. *)
Definition field (k : str) (cell : json) : option json :=
  match cell with
  | JObj d => dict_get k d
  | _ => None
  end.

(** [cell.get('cell_type') == kind] *)
Definition has_kind (kind : str) (cell : json) : bool :=
  match cell with
  | JObj d => py_eq (default JNull (dict_get "cell_type" d)) (JStr kind)
  | _ => false
  end.

Definition is_code : json -> bool := has_kind "code".
Definition is_markdown : json -> bool := has_kind "markdown".

(** [len(nb['cells'])] *)
Definition cells_len (nb : json) : result nat :=
  cells <- py_getitem nb "cells" ;;
  py_len cells.

Definition cell_count (nb : json) : nat :=
  match cells_len nb with
  | Ok n => n
  | Raise _ => 0
  end.

(** [nb['cells'][i]], when that evaluates. *)
Definition cell_at (nb : json) (i : nat) : option json :=
  match (cells <- py_getitem nb "cells" ;; py_index cells i) with
  | Ok cell => Some cell
  | Raise _ => None
  end.

(** The cells of a notebook whose ['cells'] is a list. *)
Definition notebook_cells (nb : json) : option (list json) :=
  match nb with
  | JObj d =>
      match dict_get "cells" d with
      | Some (JArr l) => Some l
      | _ => None
      end
  | _ => None
  end.

(** The cell has an ['outputs'] field of positive length. *)
Definition has_results (cell : json) : bool :=
  match field "outputs" cell with
  | Some v =>
      match py_len v with
      | Ok n => (0 <? n)%nat
      | Raise _ => false
      end
  | None => false
  end.

(** A cell as [sync_notebook_outputs] can handle it: a dict whose
    ['outputs'], when present, has a length. *)
Definition sized_cell (cell : json) : Prop :=
  exists d, cell = JObj d
            /\ forall v, dict_get "outputs" d = Some v -> exists n, py_len v = Ok n.

Definition dict_cell (cell : json) : Prop := exists d, cell = JObj d.

(** Field [k] of [from], when present, written over that of [to]. *)
Definition copy_field (k : str) (from to : dict) : dict :=
  match dict_get k from with
  | Some v => dict_set k v to
  | None => to
  end.

(** What synchronising does to a translated code cell [to] facing the
    original code cell [from]. *)
Definition synced_fields (from to : dict) : dict :=
  copy_field "execution_count" from
    (if has_results (JObj from) then copy_field "outputs" from to else to).

(** Index [i] is one where both cells are code cells and the original has
    results to copy. *)
Definition copies_at (original translated : json) (i : nat) : bool :=
  match cell_at original i, cell_at translated i with
  | Some orig_cell, Some trans_cell =>
      is_code orig_cell && is_code trans_cell && has_results orig_cell
  | _, _ => false
  end.


End Notebook.
(* ===================================================================== *)
(** * sync_outputs.py *)
(* ===================================================================== *)

Module Sync.
Import Py.

(** The body of the loop of [sync_notebook_outputs] on the two cell objects.
    It returns [trans_cell] as the body leaves it and the amount added to
    [outputs_copied]. *)
Definition sync_cell (orig_cell trans_cell : json) : result (json * nat) :=
  orig_type <- py_get orig_cell "cell_type" JNull ;;
  if py_eq orig_type (JStr "code") then
    trans_type <- py_get trans_cell "cell_type" JNull ;;
    if py_eq trans_type (JStr "code") then
      has_outputs <- py_in "outputs" orig_cell ;;
      r <- (if has_outputs then
              outputs <- py_getitem orig_cell "outputs" ;;
              n <- py_len outputs ;;
              if (0 <? n)%nat then
                trans_cell' <- py_setitem trans_cell "outputs" outputs ;;
                Ok (trans_cell', 1)
              else Ok (trans_cell, 0)
            else Ok (trans_cell, 0)) ;;
      let trans_cell := fst r in
      let copied := snd r in
      has_count <- py_in "execution_count" orig_cell ;;
      if has_count then
        count <- py_getitem orig_cell "execution_count" ;;
        trans_cell' <- py_setitem trans_cell "execution_count" count ;;
        Ok (trans_cell', copied)
      else Ok (trans_cell, copied)
    else Ok (trans_cell, 0)
  else Ok (trans_cell, 0).

(** [trans_cell] is the very object stored at [translated_nb['cells'][i]]:
    what the body assigns into it is seen through the notebook.  The
    functional update along that path stands for the aliasing.  Only a cell
    that is a dict inside a list of cells can be assigned into; in every
    other shape the body has changed nothing and the notebook stays as it
    is. *)
Definition store_cell (nb : json) (i : nat) (cell : json) : json :=
  match nb with
  | JObj d =>
      match dict_get "cells" d with
      | Some (JArr l) => JObj (dict_set "cells" (JArr (<[i:=cell]> l)) d)
      | _ => nb
      end
  | _ => nb
  end.

(** One turn of [for i in range(min_cells)]. *)
Definition sync_iteration (original_nb : json) (i : nat) (st : json * nat)
  : result (json * nat) :=
  let translated_nb := fst st in
  let outputs_copied := snd st in
  ocells <- py_getitem original_nb "cells" ;;
  orig_cell <- py_index ocells i ;;
  tcells <- py_getitem translated_nb "cells" ;;
  trans_cell <- py_index tcells i ;;
  r <- sync_cell orig_cell trans_cell ;;
  Ok (store_cell translated_nb i (fst r), outputs_copied + snd r).

Definition min_cells (original_nb translated_nb : json) : result nat :=
  ocells <- py_getitem original_nb "cells" ;;
  orig_len <- py_len ocells ;;
  tcells <- py_getitem translated_nb "cells" ;;
  trans_len <- py_len tcells ;;
  if negb (orig_len =? trans_len)%nat then Ok (orig_len `min` trans_len)
  else Ok orig_len.

(** The statements of [sync_notebook_outputs] between the two loads and
    the write: the translated notebook as the loop leaves it, and
    [outputs_copied]. *)
Definition sync_cells (original_nb translated_nb : json)
  : result (json * nat) :=
  n <- min_cells original_nb translated_nb ;;
  py_range (sync_iteration original_nb) n (translated_nb, 0).

(** [sync_notebook_outputs] on the loaded notebooks: the translated notebook
    it dumps back to [translated_path] and the count it returns.  It
    returns only once [json.dump] has written the whole notebook. *)
Definition sync_notebook_outputs (original_nb translated_nb : json)
  : result (json * nat) :=
  r <- sync_cells original_nb translated_nb ;;
  _ <- py_dump (fst r) ;;
  Ok r.

End Sync.


(** The state of the loop of [sync_notebook_outputs] after [k] turns, for
    the notebooks [original] and [translated] it started from: the count so
    far, and where each cell of the translated notebook stands. *)
Module SyncLoop.
Import Py Notebook Sync.

Definition after_turns (original translated : json) (k : nat)
    (st : json * nat) : Prop :=
  snd st = length (List.filter (copies_at original translated) (seq 0 k))
  /\ cells_len (fst st) = cells_len translated
  /\ (forall i, k <= i -> cell_at (fst st) i = cell_at translated i)
  /\ (forall i, i < k ->
        exists orig_cell trans_cell r,
          cell_at original i = Some orig_cell /\
          cell_at translated i = Some trans_cell /\
          sync_cell orig_cell trans_cell = Ok r /\
          cell_at (fst st) i = Some (fst r)).

End SyncLoop.
(* ===================================================================== *)
(** * validate_translation.py *)
(* ===================================================================== *)

Module Validate.
Import Py.

(** ** Issues

    [self.issues] is a list of formatted strings.  An issue is kept here as
    the kind of message with the values its f-string interpolates. *)

(** Lines collected by [validate_code_cells]. *)
Inductive code_line :=
| CodeDiffers (i : nat)
| OriginalExcerpt (text : str)
| TranslatedExcerpt (text : str).

Inductive issue :=
| CellCountMismatch (orig_count trans_count : nat)
| CellTypeMismatches (mismatches : list (nat * json * json))
| CodeCellMismatches (mismatches : list code_line)
| AllMarkdownIdentical (total_markdown : nat)
| MissingOutputs (missing_outputs : list (nat * nat))
| KernelMismatch (orig_kernel trans_kernel : json)
| ValidationError (name : str) (e : exn).

(** ** Methods: computations over [self.issues]

    A method reads and extends [self.issues] and either returns a value or
    raises; what it appended before raising stays in the list. *)
Definition M (A : Type) : Type := list issue -> result A * list issue.

Definition ret {A} (a : A) : M A := fun issues => (Ok a, issues).

Definition lift {A} (r : result A) : M A := fun issues => (r, issues).

(** [self.issues.append(x)] *)
Definition append_issue (x : issue) : M unit :=
  fun issues => (Ok tt, issues ++ [x]).

Definition mbind {A B} (m : M A) (k : A -> M B) : M B :=
  fun issues =>
    match m issues with
    | (Ok a, issues') => k a issues'
    | (Raise e, issues') => (Raise e, issues')
    end.

Notation "x <~ e ;; k" := (mbind e (fun x => k))
  (at level 100, e at next level, right associativity) : py_scope.

Definition True_ : json := JBool true.
Definition False_ : json := JBool false.

Section NotebookValidator.

(** [self.original] and [self.translated]. *)
Variables original translated : json.

(** [zip(self.original['cells'], self.translated['cells'])] *)
Definition zipped_cells : result (list (json * json)) :=
  ocells <- py_getitem original "cells" ;;
  tcells <- py_getitem translated "cells" ;;
  py_zip ocells tcells.

Definition validate_cell_count : M json :=
  orig_count <~ lift (c <- py_getitem original "cells" ;; py_len c) ;;
  trans_count <~ lift (c <- py_getitem translated "cells" ;; py_len c) ;;
  if negb (orig_count =? trans_count)%nat then
    _ <~ append_issue (CellCountMismatch orig_count trans_count) ;;
    ret False_
  else ret True_.

Definition cell_types_body (i : nat) (p : json * json)
    (mismatches : list (nat * json * json))
  : result (list (nat * json * json)) :=
  let orig_cell := fst p in
  let trans_cell := snd p in
  orig_type <- py_get orig_cell "cell_type" JNull ;;
  trans_type <- py_get trans_cell "cell_type" JNull ;;
  if negb (py_eq orig_type trans_type) then
    Ok (mismatches ++ [(i, orig_type, trans_type)])
  else Ok mismatches.

Definition validate_cell_types : M json :=
  mismatches <~ lift (ps <- zipped_cells ;; py_for cell_types_body 0 ps []) ;;
  match mismatches with
  | _ :: _ =>
      _ <~ append_issue (CellTypeMismatches mismatches) ;;
      ret False_
  | [] => ret True_
  end.

(** [''.join(cell.get('source', []))] *)
Definition cell_source (cell : json) : result str :=
  source <- py_get cell "source" (JArr []) ;;
  py_join source.

Definition code_cells_body (i : nat) (p : json * json)
    (mismatches : list code_line) : result (list code_line) :=
  let orig_cell := fst p in
  let trans_cell := snd p in
  orig_type <- py_get orig_cell "cell_type" JNull ;;
  if negb (py_eq orig_type (JStr "code")) then Ok mismatches
  else
    orig_source <- cell_source orig_cell ;;
    trans_source <- cell_source trans_cell ;;
    if negb (str_eqb orig_source trans_source) then
      let mismatches := mismatches ++ [CodeDiffers i] in
      if (str_len orig_source <? 100)%nat then
        Ok (mismatches ++ [OriginalExcerpt (slice_to 100 orig_source);
                           TranslatedExcerpt (slice_to 100 trans_source)])
      else Ok mismatches
    else Ok mismatches.

Definition validate_code_cells : M json :=
  mismatches <~ lift (ps <- zipped_cells ;; py_for code_cells_body 0 ps []) ;;
  match mismatches with
  | _ :: _ =>
      _ <~ append_issue (CodeCellMismatches mismatches) ;;
      ret False_
  | [] => ret True_
  end.

(** The loop state is [(identical_count, total_markdown)]. *)
Definition markdown_body (i : nat) (p : json * json) (st : nat * nat)
  : result (nat * nat) :=
  let orig_cell := fst p in
  let trans_cell := snd p in
  let identical_count := fst st in
  let total_markdown := snd st in
  orig_type <- py_get orig_cell "cell_type" JNull ;;
  if negb (py_eq orig_type (JStr "markdown")) then Ok st
  else
    let total_markdown := total_markdown + 1 in
    orig_source <- cell_source orig_cell ;;
    trans_source <- cell_source trans_cell ;;
    if negb (py_truthy (JStr (strip orig_source))) then
      Ok (identical_count, total_markdown)
    else if str_eqb orig_source trans_source then
      Ok (identical_count + 1, total_markdown)
    else Ok (identical_count, total_markdown).

Definition validate_markdown_translated : M json :=
  st <~ lift (ps <- zipped_cells ;; py_for markdown_body 0 ps (0, 0)) ;;
  let identical_count := fst st in
  let total_markdown := snd st in
  if (0 <? total_markdown)%nat && (identical_count =? total_markdown)%nat then
    _ <~ append_issue (AllMarkdownIdentical total_markdown) ;;
    ret False_
  else ret True_.

Definition outputs_body (i : nat) (p : json * json)
    (missing_outputs : list (nat * nat)) : result (list (nat * nat)) :=
  let orig_cell := fst p in
  let trans_cell := snd p in
  orig_type <- py_get orig_cell "cell_type" JNull ;;
  if negb (py_eq orig_type (JStr "code")) then Ok missing_outputs
  else
    orig_outputs <- py_get orig_cell "outputs" (JArr []) ;;
    trans_outputs <- py_get trans_cell "outputs" (JArr []) ;;
    orig_n <- py_len orig_outputs ;;
    if (0 <? orig_n)%nat then
      trans_n <- py_len trans_outputs ;;
      if (trans_n =? 0)%nat then Ok (missing_outputs ++ [(i, orig_n)])
      else Ok missing_outputs
    else Ok missing_outputs.

Definition validate_outputs_present : M json :=
  missing_outputs <~
    lift (ps <- zipped_cells ;; py_for outputs_body 0 ps []) ;;
  match missing_outputs with
  | _ :: _ =>
      _ <~ append_issue (MissingOutputs missing_outputs) ;;
      ret False_
  | [] => ret True_
  end.

(** [nb.get('metadata', {}).get('kernelspec', {}).get('name')] *)
Definition kernel_name (nb : json) : result json :=
  metadata <- py_get nb "metadata" (JObj []) ;;
  kernelspec <- py_get metadata "kernelspec" (JObj []) ;;
  py_get kernelspec "name" JNull.

(** The method has no [return] statement: it hands back [None]. *)
Definition validate_metadata : M json :=
  orig_kernel <~ lift (kernel_name original) ;;
  trans_kernel <~ lift (kernel_name translated) ;;
  if py_truthy orig_kernel && py_truthy trans_kernel
     && negb (py_eq orig_kernel trans_kernel) then
    _ <~ append_issue (KernelMismatch orig_kernel trans_kernel) ;;
    ret JNull
  else ret JNull.

Definition validations : list (str * M json) :=
  [ ("Cell count", validate_cell_count);
    ("Cell types", validate_cell_types);
    ("Code cells", validate_code_cells);
    ("Markdown translation", validate_markdown_translated);
    ("Outputs present", validate_outputs_present);
    ("Metadata", validate_metadata) ].

(** The [try]/[except Exception] around one call. *)
Definition try_validation (name : str) (validation_func : M json)
    (results : dict) (issues : list issue) : dict * list issue :=
  match validation_func issues with
  | (Ok v, issues') => (dict_set name v results, issues')
  | (Raise e, issues') =>
      (dict_set name False_ results, issues' ++ [ValidationError name e])
  end.

Fixpoint run_validations (vs : list (str * M json)) (results : dict)
    (issues : list issue) : dict * list issue :=
  match vs with
  | [] => (results, issues)
  | (name, validation_func) :: vs' =>
      let r := try_validation name validation_func results issues in
      run_validations vs' (fst r) (snd r)
  end.

(** [run_all_validations], from the state [self.issues] is in; it returns
    [results] and leaves the second component in [self.issues]. *)
Definition run_all_validations (issues : list issue) : dict * list issue :=
  run_validations validations [] issues.

End NotebookValidator.

(** ** The status line of [main] *)

Inductive status := PASS | ISSUES.

(** [all(results.values())] *)
Definition all_passed (results : dict) : bool :=
  forallb py_truthy (dict_values results).

(** What [main] prints for one pair: a fresh validator starts with no
    issues. *)
Definition file_status (original translated : json) : status :=
  let r := run_all_validations original translated [] in
  let results := fst r in
  let issues := snd r in
  if all_passed results && match issues with [] => true | _ => false end
  then PASS else ISSUES.

End Validate.

(* ===================================================================== *)
(** * What the checks look at *)
(* ===================================================================== *)

(** Readings of a pair of aligned cells in which the properties of the
    checks are stated, and two notions about methods: extending
    [self.issues] without reading it, and the outcome of a method run on
    its own behind the [try]/[except] of [run_all_validations]. *)
Module Checks.
Import Py Notebook Validate.

(** Both cells have a source that joins to a string, and the two strings
    are equal. *)
Definition same_source (p : json * json) : bool :=
  match cell_source (fst p), cell_source (snd p) with
  | Ok a, Ok b => str_eqb a b
  | _, _ => false
  end.

(** Both cells have a source that joins to a string, and the two strings
    differ. *)
Definition differing_source (p : json * json) : bool :=
  match cell_source (fst p), cell_source (snd p) with
  | Ok a, Ok b => negb (str_eqb a b)
  | _, _ => false
  end.

(** The source of the cell is empty once stripped. *)
Definition blank_source (cell : json) : bool :=
  match cell_source cell with
  | Ok s => negb (py_truthy (JStr (strip s)))
  | Raise _ => false
  end.

(** [len(cell.get('outputs', []))] *)
Definition results_len (cell : json) : result nat :=
  outputs <- py_get cell "outputs" (JArr []) ;;
  py_len outputs.

(** The original has one or more results and the translated cell none. *)
Definition lacks_results (p : json * json) : bool :=
  match results_len (fst p), results_len (snd p) with
  | Ok (S _), Ok 0 => true
  | _, _ => false
  end.

(** The original cells of markdown kind among the aligned pairs. *)
Definition markdown_pairs (ps : list (json * json)) : list (json * json) :=
  List.filter (fun p => is_markdown (fst p)) ps.

(** The indices the code check names in its issue. *)
Fixpoint flagged_code (lines : list code_line) : list nat :=
  match lines with
  | [] => []
  | CodeDiffers i :: lines' => i :: flagged_code lines'
  | _ :: lines' => flagged_code lines'
  end.

(** The lines [validate_code_cells] collects at index [i]. *)
Definition code_lines (i : nat) (p : json * json) : list code_line :=
  if is_code (fst p) then
    match cell_source (fst p), cell_source (snd p) with
    | Ok a, Ok b =>
        if str_eqb a b then []
        else CodeDiffers i ::
             (if (str_len a <? 100)%nat then
                [OriginalExcerpt (slice_to 100 a);
                 TranslatedExcerpt (slice_to 100 b)]
              else [])
    | _, _ => []
    end
  else [].

(** The entry [validate_outputs_present] collects at index [i]. *)
Definition missing_line (i : nat) (p : json * json) : list (nat * nat) :=
  if is_code (fst p) then
    match results_len (fst p), results_len (snd p) with
    | Ok (S n), Ok 0 => [(i, S n)]
    | _, _ => []
    end
  else [].

(** Index [i] holds an original code cell whose source differs from that
    of the cell facing it. *)
Definition code_differs_at (orig_cells trans_cells : list json) (i : nat)
  : Prop :=
  exists orig_cell trans_cell,
    orig_cells !! i = Some orig_cell /\ trans_cells !! i = Some trans_cell
    /\ is_code orig_cell = true
    /\ differing_source (orig_cell, trans_cell) = true.

(** Index [i] holds an original code cell with [n] results, [n] positive,
    facing a cell with none. *)
Definition results_missing_at (orig_cells trans_cells : list json)
    (i n : nat) : Prop :=
  exists orig_cell trans_cell,
    orig_cells !! i = Some orig_cell /\ trans_cells !! i = Some trans_cell
    /\ is_code orig_cell = true
    /\ results_len orig_cell = Ok n /\ 0 < n
    /\ results_len trans_cell = Ok 0.

(** ** The checks as the specification words them *)

(** The source of the cell joins to a string other than the empty one. *)
Definition nonempty_source (cell : json) : bool :=
  match cell_source cell with
  | Ok s => negb (str_eqb s "")
  | Raise _ => false
  end.

(** The translation-coverage check as the specification has it: it looks
    at the aligned pairs where both cells are markdown and the original
    source is not empty, and is [False] exactly when there is such a pair
    and all of them have the same source on both sides. *)
Definition coverage_as_specified (original translated : json) : result json :=
  ps <- zipped_cells original translated ;;
  let considered :=
    List.filter (fun p => is_markdown (fst p) && is_markdown (snd p)
                          && nonempty_source (fst p)) ps in
  Ok (JBool (negb (match considered with [] => false | _ => true end
                   && forallb same_source considered))).

(** The code-identity check as the specification has it: it fails when the
    sources differ at a pair where both cells are code cells. *)
Definition code_identity_as_specified (original translated : json)
  : result json :=
  ps <- zipped_cells original translated ;;
  Ok (JBool (negb (existsb (fun p => is_code (fst p) && is_code (snd p)
                                     && differing_source p) ps))).

(** The outputs-presence check as the specification has it: it fails when
    results are missing at a pair where both cells are code cells. *)
Definition outputs_presence_as_specified (original translated : json)
  : result json :=
  ps <- zipped_cells original translated ;;
  Ok (JBool (negb (existsb (fun p => is_code (fst p) && is_code (snd p)
                                     && lacks_results p) ps))).

(** ** Methods and [self.issues] *)

(** The method leaves the issues it finds in place and adds its own at the
    end, the same ones whatever it finds. *)
Definition appends_only {A} (m : M A) : Prop :=
  forall issues, m issues = (fst (m []), issues ++ snd (m [])).

(** The outcome of one validation run on its own, from an empty issue
    list, behind a [try]/[except] of its own: the value stored in [results]
    and the issues recorded. *)
Definition guarded (name : str) (validation_func : M json)
  : json * list issue :=
  match validation_func [] with
  | (Ok v, issues) => (v, issues)
  | (Raise e, issues) => (False_, issues ++ [ValidationError name e])
  end.

End Checks.

(* ===================================================================== *)
(** * Sample notebooks *)
(* ===================================================================== *)

Module Examples.
Import Py.

Definition code_cell (source : list str) (outputs : list json)
    (execution_count : json) : json :=
  JObj [("cell_type", JStr "code");
        ("execution_count", execution_count);
        ("metadata", JObj []);
        ("outputs", JArr outputs);
        ("source", JArr (map JStr source))].

Definition markdown_cell (source : list str) : json :=
  JObj [("cell_type", JStr "markdown");
        ("metadata", JObj []);
        ("source", JArr (map JStr source))].

Definition notebook (cells : list json) : json :=
  JObj [("cells", JArr cells);
        ("metadata", JObj [("kernelspec", JObj [("name", JStr "python3")])]);
        ("nbformat", JInt 4)].

Definition stream (text : str) : json :=
  JObj [("output_type", JStr "stream"); ("text", JArr [JStr text])].

(** A code cell with two results, a markdown cell and a code cell without
    results; the translation has no results yet and keeps a stale result
    and counter on its last cell. *)
Definition original_a : json :=
  notebook [code_cell ["x = 1"; "print(x)"] [stream "1"; stream "done"] (JInt 1);
            markdown_cell ["# Title"];
            code_cell ["y = 2"] [] JNull].

Definition translated_a : json :=
  notebook [code_cell ["x = 1"; "print(x)"] [] JNull;
            markdown_cell ["# Titre"];
            code_cell ["y = 2"] [stream "old"] (JInt 7)].

Definition synced_a : json :=
  notebook [code_cell ["x = 1"; "print(x)"] [stream "1"; stream "done"] (JInt 1);
            markdown_cell ["# Titre"];
            code_cell ["y = 2"] [stream "old"] JNull].

(** Five cells against four. *)
Definition original_b : json :=
  notebook [markdown_cell ["# One"];
            code_cell ["a = 1"] [stream "1"] (JInt 1);
            markdown_cell ["two"];
            code_cell ["b = 2"] [] (JInt 2);
            code_cell ["c = 3"] [stream "3"] (JInt 3)].

Definition translated_b : json :=
  notebook [markdown_cell ["# Un"];
            code_cell ["a = 1"] [] JNull;
            markdown_cell ["deux"];
            code_cell ["b = 2"] [] JNull].

(** A notebook whose ['metadata'] is a number. *)
Definition bad_metadata : json :=
  JObj [("cells", JArr [markdown_cell ["# Title"]]); ("metadata", JInt 5)].

Definition translated_bad_metadata : json :=
  notebook [markdown_cell ["# Titre"]].

(** A code cell whose ['source'] holds a number, with one result, and a
    markdown cell; the translation has no result and the same markdown. *)
Definition bad_source : json :=
  notebook [JObj [("cell_type", JStr "code");
                  ("outputs", JArr [stream "1"]);
                  ("source", JArr [JInt 1])];
            markdown_cell ["# Title"]].

Definition translated_bad_source : json :=
  notebook [code_cell ["x = 1"] [] JNull; markdown_cell ["# Title"]].

(** A markdown cell facing a code cell with the same text. *)
Definition original_kind : json := notebook [markdown_cell ["Hello"]].
Definition translated_kind : json := notebook [code_cell ["Hello"] [] JNull].

(** Nothing translated, and one markdown cell without text. *)
Definition original_blank : json :=
  notebook [markdown_cell []; markdown_cell ["Hello"]].
Definition translated_blank : json :=
  notebook [markdown_cell []; markdown_cell ["Hello"]].

(** A code cell with a result facing a markdown cell. *)
Definition original_mismatch : json :=
  notebook [code_cell ["x = 1"] [stream "1"] (JInt 1)].
Definition translated_mismatch : json :=
  notebook [markdown_cell ["x = 2"]].

(** A translation with one cell more than the original. *)
Definition original_short : json :=
  notebook [code_cell ["a = 1"] [stream "1"] (JInt 1)].
Definition translated_long : json :=
  notebook [code_cell ["a = 1"] [] JNull;
            code_cell ["b = 2"] [stream "keep"] (JInt 9)].
Definition translated_cut : json :=
  notebook [code_cell ["a = 1"] [] JNull].
Definition synced_long : json :=
  notebook [code_cell ["a = 1"] [stream "1"] (JInt 1);
            code_cell ["b = 2"] [stream "keep"] (JInt 9)].

(** A translation one of whose strings holds a surrogate on its own, as
    [json.load] makes of the escape for it. *)
Definition translated_surrogate : json :=
  notebook [code_cell ["a = 1"] [] JNull;
            markdown_cell [Str [35; 32; 55357]%N]].

End Examples.

(* ===================================================================== *)
(** * The two [main] functions *)
(* ===================================================================== *)

(** Both drivers walk [sorted(notebooks_dir.glob(pattern))] for the two
    patterns and look each name up in the [translated] directory.  The
    walk is modelled from the list of entries the two globs yield, in
    order; listing and sorting the directory is not.  A directory maps a
    name to a file, and a file is either read by [open] and [json.load] as
    a value or makes them raise; a file that [json.dump] left unfinished is
    of the second sort. *)
Module Batch.
Import Py Notebook Sync Validate.

Inductive file :=
| Readable (nb : json)
| Unreadable.

Definition directory := list (str * file).

(** [(dir / name).exists()] and the file found. *)
Fixpoint dir_lookup (name : str) (d : directory) : option file :=
  match d with
  | [] => None
  | (name', f) :: d' => if str_eqb name name' then Some f else dir_lookup name d'
  end.

(** The directory with [f] as the file of that name. *)
Fixpoint dir_write (name : str) (f : file) (d : directory) : directory :=
  match d with
  | [] => [(name, f)]
  | (name', f') :: d' =>
      if str_eqb name name' then (name, f) :: d'
      else (name', f') :: dir_write name f d'
  end.

(** What stops the work on one pair: a file that cannot be read, or an
    exception of the computation. *)
Inductive failure :=
| LoadFailed
| Raised (e : exn).

(** ** [sync_outputs.py] *)

(** The lines the script prints, with what they interpolate. *)
Inductive sync_line :=
| Warning (name : str) (orig_len trans_len : nat)
| Synchronized (name : str) (outputs_copied : nat)
| Skipping (name : str)
| Error (name : str) (f : failure)
| Summary (files_processed total_outputs : nat).

(** The warning [sync_notebook_outputs] prints before its loop. *)
Definition warning_lines (name : str) (original_nb translated_nb : json)
  : list sync_line :=
  match cells_len original_nb, cells_len translated_nb with
  | Ok orig_len, Ok trans_len =>
      if negb (orig_len =? trans_len)%nat
      then [Warning name orig_len trans_len] else []
  | _, _ => []
  end.

(** [sync_notebook_outputs(original_path, translated_path)] on the two
    files: what it prints, what it puts at [translated_path] if it gets to
    [open(translated_path, 'w')], and either the count it returns or the
    failure it ends with.  [open] empties the file, and [json.dump] either
    writes the whole notebook or raises and leaves an unfinished
    document. *)
Definition sync_paths (name : str) (original translated : file)
  : list sync_line * option file * (failure + nat) :=
  match original, translated with
  | Readable original_nb, Readable translated_nb =>
      let warned := warning_lines name original_nb translated_nb in
      match sync_cells original_nb translated_nb with
      | Ok (translated_nb', outputs_copied) =>
          match py_dump translated_nb' with
          | Ok _ =>
              (warned ++ [Synchronized name outputs_copied],
               Some (Readable translated_nb'), inr outputs_copied)
          | Raise e => (warned, Some Unreadable, inl (Raised e))
          end
      | Raise e => (warned, None, inl (Raised e))
      end
  | _, _ => ([], None, inl LoadFailed)
  end.

(** The directory once a call has put [written] under [name], if it wrote
    at all. *)
Definition dir_after (name : str) (written : option file) (d : directory)
  : directory :=
  match written with
  | Some f => dir_write name f d
  | None => d
  end.

Record sync_run := {
  translated_dir : directory;
  printed : list sync_line;
  total_outputs : nat;
  files_processed : nat
}.

(** One turn of the loop of [main] over the original [name]. *)
Definition sync_entry (run : sync_run) (entry : str * file) : sync_run :=
  let name := fst entry in
  match dir_lookup name (translated_dir run) with
  | None =>
      {| translated_dir := translated_dir run;
         printed := printed run ++ [Skipping name];
         total_outputs := total_outputs run;
         files_processed := files_processed run |}
  | Some translated =>
      match sync_paths name (snd entry) translated with
      | (lines, written, inr outputs) =>
          {| translated_dir := dir_after name written (translated_dir run);
             printed := printed run ++ lines;
             total_outputs := total_outputs run + outputs;
             files_processed := files_processed run + 1 |}
      | (lines, written, inl f) =>
          {| translated_dir := dir_after name written (translated_dir run);
             printed := printed run ++ lines ++ [Error name f];
             total_outputs := total_outputs run;
             files_processed := files_processed run |}
      end
  end.

Definition sync_start (translated : directory) : sync_run :=
  {| translated_dir := translated; printed := [];
     total_outputs := 0; files_processed := 0 |}.

(** [main] of [sync_outputs.py] over the originals the globs yield and the
    [translated] directory: the directory it leaves and all it printed. *)
Definition sync_main (originals : list (str * file))
    (translated : directory) : sync_run :=
  let run := foldl sync_entry (sync_start translated) originals in
  {| translated_dir := translated_dir run;
     printed := printed run
                ++ [Summary (files_processed run) (total_outputs run)];
     total_outputs := total_outputs run;
     files_processed := files_processed run |}.

(** ** [validate_translation.py] *)

Inductive report_line :=
| NoTranslation (name : str)
| Status (st : status) (name : str)
| IssueLine (i : issue)
| FailedChecks (names : list str)
| Totals (total_files files_with_issues passed : nat)
| AllPassed
| NeedAttention (files_with_issues : nat).

(** [[name for name, passed in results.items() if not passed]] *)
Definition failed_checks (results : dict) : list str :=
  map fst (List.filter (fun item => negb (py_truthy (snd item))) results).

(** What [main] prints for one loaded pair. *)
Definition report_pair (name : str) (original translated : json)
  : list report_line :=
  let r := run_all_validations original translated [] in
  let results := fst r in
  let issues := snd r in
  [Status (file_status original translated) name]
  ++ map IssueLine issues
  ++ (match failed_checks results, issues with
      | _ :: _, [] => [FailedChecks (failed_checks results)]
      | _, _ => []
      end).

Record validate_run := {
  report : list report_line;
  total_files : nat;
  files_with_issues : nat
}.

(** The loop of [main]: [NotebookValidator(...)] is built outside any
    [try], so a file that cannot be read ends the run there. *)
Fixpoint validate_loop (originals : list (str * file))
    (translated : directory) (run : validate_run)
  : validate_run * option failure :=
  match originals with
  | [] => (run, None)
  | (name, original) :: rest =>
      match dir_lookup name translated with
      | None =>
          validate_loop rest translated
            {| report := report run ++ [NoTranslation name];
               total_files := total_files run;
               files_with_issues := files_with_issues run |}
      | Some translated_file =>
          match original, translated_file with
          | Readable original_nb, Readable translated_nb =>
              let issues :=
                snd (run_all_validations original_nb translated_nb []) in
              validate_loop rest translated
                {| report := report run
                             ++ report_pair name original_nb translated_nb;
                   total_files := total_files run + 1;
                   files_with_issues :=
                     files_with_issues run
                     + (match issues with [] => 0 | _ => 1 end) |}
          | _, _ =>
              ({| report := report run;
                  total_files := total_files run + 1;
                  files_with_issues := files_with_issues run |},
               Some LoadFailed)
          end
      end
  end.

(** [main] of [validate_translation.py]: the report up to the summary, or
    up to the failure that ends the run. *)
Definition validate_main (originals : list (str * file))
    (translated : directory) : validate_run * option failure :=
  match validate_loop originals translated
          {| report := []; total_files := 0; files_with_issues := 0 |} with
  | (run, None) =>
      ({| report :=
            report run
            ++ [Totals (total_files run) (files_with_issues run)
                  (total_files run - files_with_issues run)]
            ++ (if (files_with_issues run =? 0)%nat then [AllPassed]
                else [NeedAttention (files_with_issues run)]);
          total_files := total_files run;
          files_with_issues := files_with_issues run |}, None)
  | (run, Some f) => (run, Some f)
  end.

End Batch.

(** What one entry of a batch gives when it is handled from a given
    [translated] directory, in which the properties of the two [main]
    functions are stated. *)
Module BatchReadings.
Import Py Notebook Sync Validate Batch.

(** The run of [sync_notebook_outputs] on the pair of the entry, when the
    translated file exists. *)
Definition pair_result (d : directory) (entry : str * file)
  : option (list sync_line * option file * (failure + nat)) :=
  match dir_lookup (fst entry) d with
  | Some translated => Some (sync_paths (fst entry) (snd entry) translated)
  | None => None
  end.

(** The count the pair adds to [total_outputs]. *)
Definition pair_count (d : directory) (entry : str * file) : nat :=
  match pair_result d entry with
  | Some (_, _, inr outputs) => outputs
  | _ => 0
  end.

(** The pair is counted in [files_processed]. *)
Definition pair_done (d : directory) (entry : str * file) : bool :=
  match pair_result d entry with
  | Some (_, _, inr _) => true
  | _ => false
  end.

(** The lines printed for the pair. *)
Definition pair_lines (d : directory) (entry : str * file)
  : list sync_line :=
  match pair_result d entry with
  | None => [Skipping (fst entry)]
  | Some (lines, _, inr _) => lines
  | Some (lines, _, inl f) => lines ++ [Error (fst entry) f]
  end.

(** The directory once the pair is handled. *)
Definition pair_write (d : directory) (entry : str * file) : directory :=
  match pair_result d entry with
  | Some (_, written, _) => dir_after (fst entry) written d
  | None => d
  end.

(** The file the pair of two notebooks leaves at the translated path: the
    notebook the loop made of it once written in full, an unfinished
    document when [json.dump] raised, and the file as it was when the loop
    raised. *)
Definition left_by (original_nb translated_nb : json) : file :=
  match sync_cells original_nb translated_nb with
  | Ok (translated_nb', _) =>
      if writable translated_nb' then Readable translated_nb' else Unreadable
  | Raise _ => Readable translated_nb
  end.

(** The file [sync_notebook_outputs] leaves at the translated path. *)
Definition left_at (original translated : file) : file :=
  match original, translated with
  | Readable original_nb, Readable translated_nb =>
      left_by original_nb translated_nb
  | _, _ => translated
  end.

(** Writing the notebook of the pair failed. *)
Definition write_failed (d : directory) (entry : str * file) : bool :=
  match pair_result d entry with
  | Some (_, Some Unreadable, _) => true
  | _ => false
  end.

(** The lines printed for the pair on a second run: the same, but for a
    pair whose write failed, which now fails when its translated file is
    loaded. *)
Definition lines_again (d : directory) (entry : str * file)
  : list sync_line :=
  if write_failed d entry then [Error (fst entry) LoadFailed]
  else pair_lines d entry.

(** The entry has no translation, or both its files can be read. *)
Definition loadable (d : directory) (entry : str * file) : bool :=
  match dir_lookup (fst entry) d with
  | Some translated =>
      match snd entry, translated with
      | Readable _, Readable _ => true
      | _, _ => false
      end
  | None => true
  end.

(** The issues the validator records for the pair of the entry, when the
    pair can be loaded. *)
Definition pair_issues (d : directory) (entry : str * file)
  : option (list issue) :=
  match dir_lookup (fst entry) d with
  | Some (Readable translated_nb) =>
      match snd entry with
      | Readable original_nb =>
          Some (snd (run_all_validations original_nb translated_nb []))
      | Unreadable => None
      end
  | _ => None
  end.

(** The entry has a translation. *)
Definition has_translation (d : directory) (entry : str * file) : bool :=
  match dir_lookup (fst entry) d with
  | Some _ => true
  | None => false
  end.

(** The validator records an issue for the pair of the entry. *)
Definition has_issues (d : directory) (entry : str * file) : bool :=
  match pair_issues d entry with
  | Some (_ :: _) => true
  | _ => false
  end.

(** The lines [main] of [validate_translation.py] prints for the entry. *)
Definition entry_report (d : directory) (entry : str * file)
  : list report_line :=
  match dir_lookup (fst entry) d with
  | None => [NoTranslation (fst entry)]
  | Some (Readable translated_nb) =>
      match snd entry with
      | Readable original_nb =>
          report_pair (fst entry) original_nb translated_nb
      | Unreadable => []
      end
  | Some Unreadable => []
  end.

(** The issue a boolean validation leaves: none when it is [True]. *)
Definition recorded (passed : bool) (x : issue) : list issue :=
  if passed then [] else [x].

End BatchReadings.

(* ===================================================================== *)
(** * Further readings of cells and pairs *)
(* ===================================================================== *)

Module Readings.
Import Py Notebook Sync Validate Checks.

(** The pairs of cells on which the body of the loop of
    [sync_notebook_outputs] ends normally: the original cell is a dict;
    if it is a code cell, the translated cell is a dict; and if both are
    code cells, the ['outputs'] of the original, when present, has a
    length. *)
Definition syncable (orig_cell trans_cell : json) : bool :=
  match orig_cell with
  | JObj od =>
      if is_code orig_cell then
        match trans_cell with
        | JObj _ =>
            if is_code trans_cell then
              match dict_get "outputs" od with
              | Some v =>
                  match py_len v with Ok _ => true | Raise _ => false end
              | None => true
              end
            else true
        | _ => false
        end
      else true
  | _ => false
  end.

(** The translated cell as the body of the loop leaves it: facing a code
    cell, a code cell takes the copied fields, and every other cell stays
    as it is. *)
Definition synced (orig_cell trans_cell : json) : json :=
  match orig_cell, trans_cell with
  | JObj od, JObj td =>
      if is_code orig_cell && is_code trans_cell
      then JObj (synced_fields od td) else trans_cell
  | _, _ => trans_cell
  end.

(** The translated cells after [k] turns of the loop. *)
Fixpoint synced_upto (k : nat) (orig_cells trans_cells : list json)
  : list json :=
  match k, orig_cells, trans_cells with
  | S k', orig_cell :: orig_cells', trans_cell :: trans_cells' =>
      synced orig_cell trans_cell :: synced_upto k' orig_cells' trans_cells'
  | _, _, _ => trans_cells
  end.

(** The translated cells once the loop is over: the aligned ones as the
    body leaves them, those beyond the shorter length as they were. *)
Fixpoint synced_cells (orig_cells trans_cells : list json) : list json :=
  match orig_cells, trans_cells with
  | orig_cell :: orig_cells', trans_cell :: trans_cells' =>
      synced orig_cell trans_cell :: synced_cells orig_cells' trans_cells'
  | _, _ => trans_cells
  end.

(** The notebook with [cells] as its ['cells']. *)
Definition with_cells (nb : json) (cells : list json) : json :=
  match nb with
  | JObj d => JObj (dict_set "cells" (JArr cells) d)
  | _ => nb
  end.

(** [cell.get('cell_type')], when the cell is a dict. *)
Definition kind_of (cell : json) : result json :=
  py_get cell "cell_type" JNull.

(** Index [i] holds two cells whose kinds [a] and [b] are not equal. *)
Definition kinds_differ_at (orig_cells trans_cells : list json)
    (i : nat) (a b : json) : Prop :=
  exists orig_cell trans_cell,
    orig_cells !! i = Some orig_cell /\ trans_cells !! i = Some trans_cell
    /\ kind_of orig_cell = Ok a /\ kind_of trans_cell = Ok b
    /\ py_eq a b = false.

(** The entry [validate_cell_types] collects at index [i]. *)
Definition type_line (i : nat) (p : json * json) : list (nat * json * json) :=
  match kind_of (fst p), kind_of (snd p) with
  | Ok a, Ok b => if py_eq a b then [] else [(i, a, b)]
  | _, _ => []
  end.

(** The five validations that end in [return True] or [return False]. *)
Definition boolean_checks : list str :=
  ["Cell count"; "Cell types"; "Code cells"; "Markdown translation";
   "Outputs present"].

(** A validation that ends in [return True] or [return False] yields, run
    on its own, [True] and no issue, or [False] and one issue. *)
Definition boolean_outcome (name : str) (m : M json) : Prop :=
  guarded name m = (True_, []) \/ exists x, guarded name m = (False_, [x]).

End Readings.

(** A batch: five originals, one of which cannot be read and one of which
    has no translation, and a directory with one file more; the last
    translation cannot be written back. *)
Module BatchExamples.
Import Py Batch Examples.

Definition batch_originals : list (str * file) :=
  [("10_intro.ipynb", Readable original_a);
   ("10_plots.ipynb", Unreadable);
   ("13_more.ipynb", Readable original_short);
   ("13_none.ipynb", Readable original_b);
   ("13_text.ipynb", Readable original_short)].

Definition batch_translated : directory :=
  [("10_intro.ipynb", Readable translated_a);
   ("10_plots.ipynb", Readable translated_b);
   ("13_more.ipynb", Readable translated_long);
   ("13_text.ipynb", Readable translated_surrogate);
   ("notes.ipynb", Readable translated_kind)].

(** The same batch without the file that cannot be read. *)
Definition clean_originals : list (str * file) :=
  [("10_intro.ipynb", Readable original_a);
   ("13_more.ipynb", Readable original_short);
   ("13_none.ipynb", Readable original_b)].

Definition clean_translated : directory :=
  [("10_intro.ipynb", Readable synced_a);
   ("13_more.ipynb", Readable original_short)].

End BatchExamples.

(* ===================================================================== *)
(** * Facts about the Python primitives *)
(* ===================================================================== *)

Module PyFacts.
Import Py.

(** Case analysis on every test the cell body makes, leaving values
    themselves alone. *)
Ltac split_on x :=
  tryif is_var x then fail else
  lazymatch x with
  | context [match _ with _ => _ end] => fail
  | context [bind _ _] => fail
  | _ => destruct x eqn:?
  end.

Ltac crunch_step :=
  match goal with
  | H : context [match ?x with _ => _ end] |- _ => split_on x
  | H : context [bind ?x _] |- _ => split_on x
  | |- context [match ?x with _ => _ end] => split_on x
  | |- context [bind ?x _] => split_on x
  end.

Ltac crunch :=
  repeat (first [progress simplify_eq/= | crunch_step]); try done.

Lemma bind_ok {A B} (r : result A) (k : A -> result B) (b : B) :
  bind r k = Ok b -> exists a, r = Ok a /\ k a = Ok b.
Proof. destruct r as [a|e]; simpl; [eauto | discriminate]. Qed.

Lemma codes_eqb_eq a b : codes_eqb a b = true <-> a = b.
Proof.
  revert b. induction a as [|x a IH]; intros [|y b]; simpl; try done.
  rewrite andb_true_iff, N.eqb_eq, IH. split; [by intros [-> ->] | by intros [= -> ->]].
Qed.

Lemma str_eqb_eq a b : str_eqb a b = true <-> a = b.
Proof.
  destruct a as [a], b as [b]. unfold str_eqb. simpl. rewrite codes_eqb_eq.
  split; [by intros -> | by intros [= ->]].
Qed.

Lemma str_eqb_refl a : str_eqb a a = true.
Proof. by apply str_eqb_eq. Qed.

Lemma str_eqb_neq a b : str_eqb a b = false <-> a <> b.
Proof.
  destruct (str_eqb a b) eqn:E.
  - apply str_eqb_eq in E. by split.
  - split; [|done]. intros _ Heq. apply str_eqb_eq in Heq. congruence.
Qed.

Lemma str_eqb_sym a b : str_eqb a b = str_eqb b a.
Proof.
  destruct (str_eqb b a) eqn:E.
  - apply str_eqb_eq in E. subst. apply str_eqb_refl.
  - apply str_eqb_neq. apply str_eqb_neq in E. congruence.
Qed.

Lemma str_eq_dec (a b : str) : {a = b} + {a <> b}.
Proof.
  destruct (str_eqb a b) eqn:E.
  - left. by apply str_eqb_eq.
  - right. by apply str_eqb_neq.
Qed.

Lemma dict_get_set_eq k v d : dict_get k (dict_set k v d) = Some v.
Proof.
  induction d as [|[k' v'] d IH]; simpl.
  - by rewrite str_eqb_refl.
  - destruct (str_eqb k k') eqn:E; simpl; rewrite ?str_eqb_refl, ?E; done.
Qed.

Lemma dict_get_set_ne k k' v d :
  k <> k' -> dict_get k' (dict_set k v d) = dict_get k' d.
Proof.
  intros Hne. induction d as [|[k0 v0] d IH]; simpl.
  - apply str_eqb_neq in Hne. rewrite str_eqb_sym in Hne. by rewrite Hne.
  - destruct (str_eqb k k0) eqn:E; simpl.
    + apply str_eqb_eq in E. subst k0.
      apply str_eqb_neq in Hne. rewrite str_eqb_sym in Hne.
      by rewrite Hne.
    + by rewrite IH.
Qed.

Lemma dict_set_id k v d : dict_get k d = Some v -> dict_set k v d = d.
Proof.
  induction d as [|[k' v'] d IH]; simpl; [done|].
  destruct (str_eqb k k') eqn:E.
  - apply str_eqb_eq in E. by intros [= ->]; subst.
  - intros H. by rewrite IH.
Qed.

Lemma dict_set_twice k v w d : dict_set k v (dict_set k w d) = dict_set k v d.
Proof.
  induction d as [|[k' v'] d IH]; simpl.
  - by rewrite str_eqb_refl.
  - destruct (str_eqb k k') eqn:E; simpl.
    + by rewrite str_eqb_refl.
    + by rewrite E, IH.
Qed.

Lemma py_eq_str v s : py_eq v (JStr s) = true <-> v = JStr s.
Proof.
  destruct v; simpl; try (split; [discriminate|intros [=]]).
  rewrite str_eqb_eq. split; [by intros -> | by intros [= ->]].
Qed.

(** The loop over a concatenation is the loop over the first part followed
    by the loop over the second. *)
Lemma py_for_app {S P} (body : nat -> P -> S -> result S) l1 l2 i s :
  py_for body i (l1 ++ l2) s =
  (s' <- py_for body i l1 s ;; py_for body (i + length l1) l2 s').
Proof.
  revert i s. induction l1 as [|p l1 IH]; intros i s; simpl.
  - by rewrite Nat.add_0_r.
  - destruct (body i p s) as [s'|e]; simpl; [|done].
    rewrite IH. by rewrite Nat.add_succ_r.
Qed.

(** Loop invariants: [I] holds of the pairs seen so far and the state. *)
Lemma py_for_invariant {S P} (I : list P -> S -> Prop)
    (body : nat -> P -> S -> result S) ps s0 s :
  I [] s0 ->
  (forall pre p s1 s2,
      I pre s1 -> body (length pre) p s1 = Ok s2 -> I (pre ++ [p]) s2) ->
  py_for body 0 ps s0 = Ok s ->
  I ps s.
Proof.
  intros H0 Hstep.
  assert (G : forall post pre s1,
             I pre s1 -> py_for body (length pre) post s1 = Ok s ->
             I (pre ++ post) s).
  { induction post as [|p post IH]; intros pre s1 HI Hrun; simpl in Hrun.
    - rewrite app_nil_r. congruence.
    - apply bind_ok in Hrun as (s2 & Hb & Hrun).
      specialize (IH (pre ++ [p]) s2 (Hstep _ _ _ _ HI Hb)).
      rewrite length_app, <- app_assoc in IH. simpl in IH.
      rewrite Nat.add_1_r in IH. by apply IH. }
  intros Hrun. by apply (G ps [] s0).
Qed.

(** A loop that raises nowhere runs to the end. *)
Lemma py_for_total {S P} (I : list P -> S -> Prop)
    (body : nat -> P -> S -> result S) ps s0 :
  I [] s0 ->
  (forall pre p s1,
      I pre s1 -> exists s2, body (length pre) p s1 = Ok s2 /\ I (pre ++ [p]) s2) ->
  exists s, py_for body 0 ps s0 = Ok s /\ I ps s.
Proof.
  intros H0 Hstep.
  assert (G : forall post pre s1,
             I pre s1 ->
             exists s, py_for body (length pre) post s1 = Ok s /\ I (pre ++ post) s).
  { induction post as [|p post IH]; intros pre s1 HI; simpl.
    - exists s1. by rewrite app_nil_r.
    - destruct (Hstep pre p s1 HI) as (s2 & Hb & HI2). rewrite Hb. simpl.
      destruct (IH (pre ++ [p]) s2 HI2) as (s & Hrun & HI3).
      rewrite length_app, <- app_assoc in *. simpl in *.
      rewrite Nat.add_1_r in Hrun. eauto. }
  by apply (G ps [] s0).
Qed.

Lemma py_range_S {S} (body : nat -> S -> result S) n s :
  py_range body (Datatypes.S n) s = (s' <- py_range body n s ;; body n s').
Proof.
  unfold py_range. rewrite seq_S, py_for_app, length_seq. simpl.
  destruct (py_for _ 0 (seq 0 n) s) as [s'|e]; simpl; [|done].
  by destruct (body n s').
Qed.

(** Loop invariants for [for i in range(n)]. *)
Lemma py_range_invariant {S} (I : nat -> S -> Prop)
    (body : nat -> S -> result S) n s0 s :
  I 0 s0 ->
  (forall k s1 s2, k < n -> I k s1 -> body k s1 = Ok s2 -> I (Datatypes.S k) s2) ->
  py_range body n s0 = Ok s ->
  I n s.
Proof.
  intros H0. revert s. induction n as [|n IH]; intros s Hstep Hrun.
  - unfold py_range in Hrun. simpl in Hrun. congruence.
  - rewrite py_range_S in Hrun. apply bind_ok in Hrun as (s1 & Hrun & Hb).
    apply (Hstep n s1 s); [lia| |done].
    apply IH; [|done]. intros k a b Hk. apply Hstep. lia.
Qed.

(** A loop whose every turn ends normally runs to the end. *)
Lemma py_range_total {S} (I : nat -> S -> Prop)
    (body : nat -> S -> result S) n s0 :
  I 0 s0 ->
  (forall k s1, k < n -> I k s1 ->
                exists s2, body k s1 = Ok s2 /\ I (Datatypes.S k) s2) ->
  exists s, py_range body n s0 = Ok s /\ I n s.
Proof.
  intros H0. induction n as [|n IH]; intros Hstep.
  - by exists s0.
  - destruct IH as (s1 & Hrun & HI).
    { intros k a Hk. apply Hstep. lia. }
    destruct (Hstep n s1) as (s2 & Hb & HI2); [lia|done|].
    exists s2. rewrite py_range_S, Hrun. by simpl.
Qed.

End PyFacts.

(* ===================================================================== *)
(** * Properties of the synchroniser *)
(* ===================================================================== *)

Module SyncFacts.
Import Py Notebook Sync SyncLoop PyFacts.

Ltac unfold_cell :=
  unfold sync_cell, is_code, is_markdown, has_kind, has_results, field,
    py_get, py_in, py_getitem, py_setitem in *.

(** ** One pair of cells *)

(** The count goes up exactly when both cells are code cells and the
    original has results. *)
Lemma sync_cell_count oc tc r :
  sync_cell oc tc = Ok r ->
  snd r = if is_code oc && is_code tc && has_results oc then 1 else 0.
Proof.
  intros H. destruct oc, tc; unfold_cell; crunch.
Qed.

(** The body hands back the translated cell itself or, when that cell is a
    dict, a dict. *)
Lemma sync_cell_shape oc tc r :
  sync_cell oc tc = Ok r ->
  fst r = tc \/ (exists td td', tc = JObj td /\ fst r = JObj td').
Proof.
  intros H. destruct oc, tc; unfold_cell; crunch; eauto.
Qed.

(** The two ways the body can end. *)
Lemma sync_cell_inv oc tc r :
  sync_cell oc tc = Ok r ->
  (is_code oc && is_code tc = false /\ r = (tc, 0))
  \/ (exists od td,
        oc = JObj od /\ tc = JObj td /\
        is_code oc = true /\ is_code tc = true /\
        (forall v, dict_get "outputs" od = Some v -> exists n, py_len v = Ok n) /\
        r = (JObj (synced_fields od td), if has_results oc then 1 else 0)).
Proof.
  intros H. unfold synced_fields, copy_field.
  destruct oc, tc; unfold_cell; crunch; (by left) || right;
    do 2 eexists; do 2 (split; [reflexivity|]); simpl;
    repeat match goal with
           | E : ?x = _ |- context [?x] => rewrite E; simpl
           end;
    repeat split; try done; intros; simplify_eq; eauto.
Qed.

(** Two code cells, the original with results of a length that can be
    taken: the body ends normally. *)
Lemma sync_cell_code od td :
  is_code (JObj od) = true -> is_code (JObj td) = true ->
  (forall v, dict_get "outputs" od = Some v -> exists n, py_len v = Ok n) ->
  sync_cell (JObj od) (JObj td) =
  Ok (JObj (synced_fields od td), if has_results (JObj od) then 1 else 0).
Proof.
  intros Ho Ht Hlen. unfold synced_fields, copy_field.
  unfold_cell.
  destruct (dict_get "cell_type" od); simpl in *; rewrite Ho; [|done].
  destruct (dict_get "cell_type" td); simpl in *; rewrite Ht; [|done].
  destruct (dict_get "outputs" od) as [v|] eqn:Ev; simpl.
  - destruct (Hlen v eq_refl) as [n Hn]. rewrite Hn. simpl.
    destruct (0 <? n)%nat; simpl;
      by destruct (dict_get "execution_count" od).
  - by destruct (dict_get "execution_count" od).
Qed.

Lemma is_code_synced od td :
  is_code (JObj (synced_fields od td)) = is_code (JObj td).
Proof.
  unfold synced_fields, copy_field, is_code, has_kind.
  repeat case_match; rewrite ?dict_get_set_ne by done; done.
Qed.

Lemma synced_fields_idempotent od td :
  synced_fields od (synced_fields od td) = synced_fields od td.
Proof.
  unfold synced_fields, copy_field.
  destruct (has_results (JObj od));
    destruct (dict_get "execution_count" od) as [c|];
    destruct (dict_get "outputs" od) as [v|];
    rewrite ?(dict_set_id "outputs" v) by
      (rewrite ?dict_get_set_ne by done; apply dict_get_set_eq);
    rewrite ?dict_set_twice; done.
Qed.

(** Running the body again on its own result changes nothing. *)
Lemma sync_cell_idempotent oc tc r :
  sync_cell oc tc = Ok r -> sync_cell oc (fst r) = Ok r.
Proof.
  intros H.
  destruct (sync_cell_inv _ _ _ H)
    as [[_ ->]|(od & td & -> & -> & Ho & Ht & Hlen & ->)]; [done|].
  simpl fst. rewrite sync_cell_code; [|done|by rewrite is_code_synced|done].
  by rewrite synced_fields_idempotent.
Qed.

(** No copy of results: the ['outputs'] field is as it was. *)
Lemma sync_cell_keeps_outputs oc tc r :
  sync_cell oc tc = Ok r ->
  has_results oc = false ->
  field "outputs" (fst r) = field "outputs" tc.
Proof.
  intros H Hno. destruct oc, tc; unfold_cell; crunch;
    rewrite ?dict_get_set_ne by done; done.
Qed.


(** The ['outputs'] field after the body, for two code cells. *)
Lemma sync_cell_outputs oc tc r :
  sync_cell oc tc = Ok r ->
  is_code oc = true -> is_code tc = true ->
  field "outputs" (fst r) =
  if has_results oc then field "outputs" oc else field "outputs" tc.
Proof.
  intros H Ho Ht. destruct oc, tc; unfold_cell; crunch;
    rewrite ?dict_get_set_ne by done; rewrite ?dict_get_set_eq; done.
Qed.

(** Every field other than the two copied ones is as it was. *)
Lemma sync_cell_frame oc tc r k :
  sync_cell oc tc = Ok r ->
  k <> "outputs" -> k <> "execution_count" ->
  field k (fst r) = field k tc.
Proof.
  intros H H1 H2. destruct oc, tc; unfold_cell; crunch;
    rewrite ?dict_get_set_ne by done; done.
Qed.

(** Cells that are not both code cells are left alone. *)
Lemma sync_cell_skips oc tc r :
  sync_cell oc tc = Ok r ->
  is_code oc && is_code tc = false ->
  r = (tc, 0).
Proof.
  intros H Hk. destruct oc, tc; unfold_cell; crunch.
Qed.

(** ** Writing a cell back *)

Lemma cells_len_store nb i c : cells_len (store_cell nb i c) = cells_len nb.
Proof.
  unfold cells_len, store_cell, py_getitem.
  destruct nb; try done.
  destruct (dict_get "cells" fields) as [[]|] eqn:E; cbn;
    rewrite ?dict_get_set_eq, ?E; simpl; try done.
  by rewrite length_insert.
Qed.

Lemma cell_at_store_ne nb i j c :
  i <> j -> cell_at (store_cell nb i c) j = cell_at nb j.
Proof.
  intros Hne. unfold cell_at, store_cell, py_getitem.
  destruct nb; try done.
  destruct (dict_get "cells" fields) as [[]|] eqn:E; cbn;
    rewrite ?dict_get_set_eq, ?E; simpl; try done.
  by rewrite list_lookup_insert_ne.
Qed.

Lemma cell_at_store_eq nb i tc c :
  cell_at nb i = Some tc ->
  c = tc \/ (exists td td', tc = JObj td /\ c = JObj td') ->
  cell_at (store_cell nb i c) i = Some c.
Proof.
  unfold cell_at, store_cell, py_getitem.
  destruct nb; try done.
  destruct (dict_get "cells" fields) as [[]|] eqn:E; try done; simpl.
  - destruct (codes s !! i) eqn:G; [|done].
    intros [= <-] [->|(? & ? & [=] & _)]. by rewrite E; simpl; rewrite G.
  - destruct (items !! i) eqn:G; [|done]. intros _ _.
    rewrite dict_get_set_eq. simpl.
    rewrite list_lookup_insert_eq; [done|]. by eapply lookup_lt_Some.
Qed.

(** Writing back the cell that is already there changes nothing. *)
Lemma store_cell_same nb i c : cell_at nb i = Some c -> store_cell nb i c = nb.
Proof.
  unfold cell_at, store_cell, py_getitem.
  destruct nb; try done.
  destruct (dict_get "cells" fields) as [[]|] eqn:E; try done; simpl.
  destruct (items !! i) eqn:G; [|done]. intros [= ->].
  rewrite list_insert_id by done. by rewrite dict_set_id.
Qed.

(** ** One turn of the loop *)

Lemma sync_iteration_inv o i tk ck st :
  sync_iteration o i (tk, ck) = Ok st ->
  exists oc tc r,
    cell_at o i = Some oc /\ cell_at tk i = Some tc /\
    sync_cell oc tc = Ok r /\
    st = (store_cell tk i (fst r), ck + snd r).
Proof.
  unfold sync_iteration, cell_at. simpl. intros H.
  destruct (py_getitem o "cells") as [oc_all|]; simpl in *; [|done].
  destruct (py_index oc_all i) as [oc|]; simpl in *; [|done].
  destruct (py_getitem tk "cells") as [tc_all|]; simpl in *; [|done].
  destruct (py_index tc_all i) as [tc|]; simpl in *; [|done].
  destruct (sync_cell oc tc) as [r|] eqn:Hr; simpl in *; [|done].
  exists oc, tc, r. by simplify_eq.
Qed.

Lemma sync_iteration_ok o i tk ck oc tc r :
  cell_at o i = Some oc -> cell_at tk i = Some tc ->
  sync_cell oc tc = Ok r ->
  sync_iteration o i (tk, ck) = Ok (store_cell tk i (fst r), ck + snd r).
Proof.
  unfold sync_iteration, cell_at. simpl. intros Ho Ht Hr.
  destruct (py_getitem o "cells") as [oc_all|]; simpl in *; [|done].
  destruct (py_index oc_all i); simpl in *; [|done].
  destruct (py_getitem tk "cells") as [tc_all|]; simpl in *; [|done].
  destruct (py_index tc_all i); simpl in *; [|done].
  simplify_eq. by rewrite Hr.
Qed.

(** ** The number of cells walked *)

Lemma min_cells_inv o t m :
  min_cells o t = Ok m ->
  m = cell_count o `min` cell_count t /\
  cells_len o = Ok (cell_count o) /\ cells_len t = Ok (cell_count t).
Proof.
  unfold min_cells, cell_count, cells_len. intros H.
  destruct (py_getitem o "cells") as [oc|]; simpl in *; [|done].
  destruct (py_len oc) as [lo|]; simpl in *; [|done].
  destruct (py_getitem t "cells") as [tc|]; simpl in *; [|done].
  destruct (py_len tc) as [lt|]; simpl in *; [|done].
  destruct (lo =? lt)%nat eqn:E; simpl in H; simplify_eq.
  - apply Nat.eqb_eq in E. subst. by rewrite Nat.min_id.
  - done.
Qed.

Lemma min_cells_cells_len o t t' :
  cells_len t' = cells_len t -> min_cells o t' = min_cells o t.
Proof.
  unfold min_cells, cells_len. intros H.
  destruct (py_getitem o "cells") as [oc|]; simpl; [|done].
  destruct (py_len oc) as [lo|]; simpl; [|done].
  destruct (py_getitem t "cells") as [tc|], (py_getitem t' "cells") as [tc'|];
    simpl in *.
  - by rewrite H.
  - by rewrite <- H.
  - by rewrite H.
  - congruence.
Qed.

(** ** The whole loop *)

Lemma count_seq_S (f : nat -> bool) k :
  length (List.filter f (seq 0 (S k))) =
  length (List.filter f (seq 0 k)) + (if f k then 1 else 0).
Proof.
  rewrite seq_S, List.filter_app, length_app. simpl.
  by destruct (f k).
Qed.

Lemma copies_at_cells o t i oc tc :
  cell_at o i = Some oc -> cell_at t i = Some tc ->
  copies_at o t i = is_code oc && is_code tc && has_results oc.
Proof. unfold copies_at. by intros -> ->. Qed.

Lemma sync_loop_spec o t m st :
  py_range (sync_iteration o) m (t, 0) = Ok st -> after_turns o t m st.
Proof.
  apply (py_range_invariant (after_turns o t)).
  - repeat split; simpl; try done. intros i Hi. lia.
  - intros k [tk ck] st2 Hk (Hc & Hlen & Hrest & Hdone) Hstep.
    cbn [fst snd] in *.
    apply sync_iteration_inv in Hstep as (oc & tc & r & Ho & Ht & Hr & ->).
    rewrite Hrest in Ht by lia.
    repeat split; cbn [fst snd].
    + rewrite count_seq_S, Hc, (copies_at_cells o t k oc tc) by done.
      by rewrite (sync_cell_count oc tc r).
    + by rewrite cells_len_store.
    + intros i Hi. rewrite cell_at_store_ne by lia. apply Hrest. lia.
    + intros i Hi. destruct (decide (i = k)) as [->|Hne].
      * exists oc, tc, r. repeat split; try done.
        apply (cell_at_store_eq _ _ tc); [by rewrite Hrest by lia|].
        by apply (sync_cell_shape oc).
      * destruct (Hdone i) as (oc' & tc' & r' & ? & ? & ? & ?); [lia|].
        exists oc', tc', r'. repeat split; try done.
        by rewrite cell_at_store_ne by lia.
Qed.

(** [sync_notebook_outputs] returns what its loop left, once that is
    written. *)
Lemma sync_inv o t t' n :
  sync_notebook_outputs o t = Ok (t', n) <->
  sync_cells o t = Ok (t', n) /\ writable t' = true.
Proof.
  unfold sync_notebook_outputs, py_dump.
  destruct (sync_cells o t) as [[t1 n1]|e]; cbn [bind fst].
  - destruct (writable t1) eqn:Hw; cbn [bind].
    + split; [by intros [= <- <-]|by intros [[= <- <-] _]].
    + split; [done|]. intros [[= <- <-] Hw']. congruence.
  - split; [done|by intros [? _]].
Qed.

Lemma sync_cells_spec o t t' n :
  sync_cells o t = Ok (t', n) ->
  after_turns o t (cell_count o `min` cell_count t) (t', n).
Proof.
  unfold sync_cells. intros H.
  apply bind_ok in H as (m & Hm & Hrun).
  apply min_cells_inv in Hm as (-> & _ & _).
  by apply sync_loop_spec.
Qed.

Lemma sync_spec o t t' n :
  sync_notebook_outputs o t = Ok (t', n) ->
  after_turns o t (cell_count o `min` cell_count t) (t', n).
Proof. intros H. apply sync_inv in H as [H _]. by apply sync_cells_spec. Qed.

(** Started again from where it ended, the loop leaves the notebook as it
    is and counts the same indices. *)
Lemma sync_loop_again o t m t' n k :
  after_turns o t m (t', n) -> k <= m ->
  py_range (sync_iteration o) k (t', 0) =
  Ok (t', length (List.filter (copies_at o t) (seq 0 k))).
Proof.
  intros (_ & _ & _ & Hdone). cbn [fst snd] in Hdone.
  induction k as [|k IH]; intros Hk; [done|].
  rewrite py_range_S, IH by lia. cbn [bind].
  destruct (Hdone k) as (oc & tc & r & Ho & Ht & Hr & Ht'); [lia|].
  rewrite (sync_iteration_ok o k t' _ oc (fst r) r);
    [|done|done|by apply (sync_cell_idempotent oc tc)].
  rewrite store_cell_same by done.
  rewrite count_seq_S, (copies_at_cells o t k oc tc) by done.
  by rewrite (sync_cell_count oc tc r).
Qed.

(** The loop run again on what it left changes nothing and counts the
    same. *)
Lemma sync_cells_again o t t' n :
  sync_cells o t = Ok (t', n) ->
  sync_cells o t' = Ok (t', n) /\ cells_len t' = cells_len t.
Proof.
  intros Hsync.
  pose proof (sync_cells_spec _ _ _ _ Hsync) as (_ & Hlen & _).
  cbn [fst] in Hlen.
  split; [|done]. unfold sync_cells in *.
  apply bind_ok in Hsync as (m & Hm & Hrun).
  rewrite (min_cells_cells_len o t t') by done.
  rewrite Hm. cbn [bind].
  pose proof (sync_loop_spec _ _ _ _ Hrun) as Hafter.
  rewrite (sync_loop_again o t m t' n m) by done.
  destruct Hafter as (Hc & _). cbn [snd] in Hc. by rewrite Hc.
Qed.

End SyncFacts.

(* ===================================================================== *)
(** * The synchroniser: count, frame and idempotence *)
(* ===================================================================== *)

Module SyncProperties.
Import Py Notebook Sync SyncLoop PyFacts SyncFacts Examples.

Lemma string_get_lt i s c : codes s !! i = Some c -> i < str_len s.
Proof. unfold str_len. apply lookup_lt_Some. Qed.

(** A cell that can be read sits below the number of cells. *)
Lemma cell_at_lt nb i c : cell_at nb i = Some c -> i < cell_count nb.
Proof.
  unfold cell_at, cell_count, cells_len, py_getitem.
  destruct nb; try done.
  destruct (dict_get "cells" fields) as [[]|]; simpl; try done.
  - destruct (codes s !! i) eqn:G; [|done]. intros _.
    by eapply string_get_lt.
  - destruct (items !! i) eqn:G; [|done]. intros _.
    by eapply lookup_lt_Some.
Qed.

(** Where an aligned cell stands after a run. *)
Lemma synced_cell o t t' n i oc tc :
  sync_notebook_outputs o t = Ok (t', n) ->
  cell_at o i = Some oc -> cell_at t i = Some tc ->
  exists r, sync_cell oc tc = Ok r /\ cell_at t' i = Some (fst r).
Proof.
  intros Hsync Ho Ht.
  destruct (sync_spec _ _ _ _ Hsync) as (_ & _ & _ & Hdone).
  destruct (Hdone i) as (oc' & tc' & r & Ho' & Ht' & Hr & Hi).
  { apply cell_at_lt in Ho, Ht. lia. }
  exists r. by simplify_eq.
Qed.

(** ** The run ends normally on notebooks of dicts *)

Lemma sync_cell_dicts od td :
  (forall v, dict_get "outputs" od = Some v -> exists n, py_len v = Ok n) ->
  exists r td', sync_cell (JObj od) (JObj td) = Ok r /\ fst r = JObj td'.
Proof.
  intros Hlen.
  destruct (is_code (JObj od) && is_code (JObj td)) eqn:E.
  - apply andb_true_iff in E as [Ho Ht].
    rewrite sync_cell_code by done. by eexists _, _.
  - exists (JObj td, 0), td. split; [|done].
    unfold sync_cell, is_code, has_kind, py_get in *.
    destruct (dict_get "cell_type" od) as [x|]; simpl in *;
      [destruct (py_eq x (JStr "code"))|]; simpl in *; try done;
      (destruct (dict_get "cell_type" td) as [y|]; simpl in *;
       [destruct (py_eq y (JStr "code"))|]; simpl in *; done).
Qed.

Lemma notebook_cells_store nb l i c :
  notebook_cells nb = Some l ->
  notebook_cells (store_cell nb i c) = Some (<[i:=c]> l).
Proof.
  unfold notebook_cells, store_cell.
  destruct nb; try done.
  destruct (dict_get "cells" fields) as [[]|] eqn:E; try done.
  intros [= ->]. by rewrite dict_get_set_eq.
Qed.

Lemma cell_at_list nb l i : notebook_cells nb = Some l -> cell_at nb i = l !! i.
Proof.
  unfold notebook_cells, cell_at, py_getitem.
  destruct nb; try done.
  destruct (dict_get "cells" fields) as [[]|] eqn:E; try done.
  intros [= ->]. simpl. by destruct (l !! i).
Qed.

Lemma min_cells_lists o t co ct :
  notebook_cells o = Some co -> notebook_cells t = Some ct ->
  min_cells o t = Ok (length co `min` length ct).
Proof.
  unfold notebook_cells, min_cells, py_getitem. intros Ho Ht.
  destruct o; try done. destruct (dict_get "cells" fields) as [[]|]; try done.
  destruct t; try done. destruct (dict_get "cells" fields0) as [[]|]; try done.
  simplify_eq. simpl.
  destruct (length co =? length ct)%nat eqn:E; simpl; [|done].
  apply Nat.eqb_eq in E. rewrite E. by rewrite Nat.min_id.
Qed.

(** On two notebooks whose cells are lists of dicts, the ['outputs'] of the
    original cells having a length, the loop of [sync_notebook_outputs]
    ends normally. *)
Lemma sync_cells_on_notebooks o t co ct :
  notebook_cells o = Some co -> notebook_cells t = Some ct ->
  Forall sized_cell co -> Forall dict_cell ct ->
  exists t' n, sync_cells o t = Ok (t', n).
Proof.
  intros Ho Ht Hco Hct. unfold sync_cells.
  rewrite (min_cells_lists _ _ _ _ Ho Ht). cbn [bind].
  destruct (py_range_total
              (fun _ st => exists l, notebook_cells (fst st) = Some l
                                     /\ length l = length ct
                                     /\ Forall dict_cell l)
              (sync_iteration o) (length co `min` length ct) (t, 0))
    as ([t' n] & Hrun & _).
  - by exists ct.
  - intros k [tk ck] Hk (l & Hl & Hlen & Hdict). cbn [fst] in *.
    destruct (lookup_lt_is_Some_2 co k) as [oc Hoc]; [lia|].
    destruct (lookup_lt_is_Some_2 l k) as [tc Htc]; [lia|].
    rewrite Forall_forall in Hco. 
    destruct (Hco oc) as (od & -> & Hsized);
      [by eapply list_elem_of_lookup_2|].
    rewrite Forall_forall in Hdict.
    destruct (Hdict tc) as (td & ->);
      [by eapply list_elem_of_lookup_2|].
    destruct (sync_cell_dicts od td Hsized) as (r & td' & Hr & Hfst).
    eexists. split.
    + apply (sync_iteration_ok o k tk ck (JObj od) (JObj td) r); [| |done].
      * by rewrite (cell_at_list _ _ _ Ho).
      * by rewrite (cell_at_list _ _ _ Hl).
    + cbn [fst]. exists (<[k:=fst r]> l). split; [|split].
      * by apply notebook_cells_store.
      * by rewrite length_insert.
      * apply Forall_insert; [by apply Forall_forall|]. by exists td'.
  - by exists t', n.
Qed.



(** C6. At an aligned index where both cells are code cells and the
    original cell has no ['outputs'] field, or has one of length zero, the
    ['outputs'] field of the translated cell is after the run what it was
    before it. *)
Theorem sync_keeps_results original translated translated' n i
    orig_cell trans_cell
    (Hsync : sync_notebook_outputs original translated = Ok (translated', n))
    (Ho : cell_at original i = Some orig_cell)
    (Ht : cell_at translated i = Some trans_cell)
    (Hocode : is_code orig_cell = true)
    (Htcode : is_code trans_cell = true)
    (Hnone : field "outputs" orig_cell = None
             \/ exists v, field "outputs" orig_cell = Some v /\ py_len v = Ok 0) :
  exists trans_cell',
    cell_at translated' i = Some trans_cell'
    /\ field "outputs" trans_cell' = field "outputs" trans_cell.
Proof.
  destruct (synced_cell _ _ _ _ _ _ _ Hsync Ho Ht) as (r & Hr & Hi).
  exists (fst r). split; [done|].
  apply (sync_cell_keeps_outputs orig_cell); [done|].
  unfold has_results. destruct Hnone as [->|(v & -> & ->)]; done.
Qed.

Lemma sync_keeps_results_witness :
  exists trans_cell',
    cell_at synced_a 2 = Some trans_cell'
    /\ field "outputs" trans_cell' = Some (JArr [stream "old"]).
Proof.
  apply (sync_keeps_results original_a translated_a synced_a 1 2
           (code_cell ["y = 2"] [] JNull)
           (code_cell ["y = 2"] [stream "old"] (JInt 7))).
  - vm_compute; reflexivity.
  - vm_compute; reflexivity.
  - vm_compute; reflexivity.
  - vm_compute; reflexivity.
  - vm_compute; reflexivity.
  - right. exists (JArr []). split; vm_compute; reflexivity.
Defined.

(** C7. A second run on the same original and the translated notebook the
    first run produced returns that translated notebook unchanged, so every
    ['outputs'] and ['execution_count'] in it is as after the first run, and
    it returns the same count. *)
Theorem sync_idempotent original translated translated' n
    (Hsync : sync_notebook_outputs original translated = Ok (translated', n)) :
  sync_notebook_outputs original translated' = Ok (translated', n).
Proof.
  apply sync_inv in Hsync as [Hcells Hw].
  apply sync_inv. split; [|done].
  by apply (sync_cells_again original translated).
Qed.

Lemma sync_idempotent_witness :
  sync_notebook_outputs original_a translated_a = Ok (synced_a, 1)
  /\ sync_notebook_outputs original_a synced_a = Ok (synced_a, 1).
Proof.
  split; [vm_compute; reflexivity|].
  apply (sync_idempotent original_a translated_a synced_a 1).
  vm_compute; reflexivity.
Defined.



End SyncProperties.

(* ===================================================================== *)
(** * Facts about the validator *)
(* ===================================================================== *)

Module ValidateFacts.
Import Py Notebook Validate Checks PyFacts.

(** ** Methods only append to [self.issues] *)

Lemma appends_ret {A} (a : A) : appends_only (ret a).
Proof. intros issues. unfold ret. simpl. by rewrite app_nil_r. Qed.

Lemma appends_lift {A} (r : result A) : appends_only (lift r).
Proof. intros issues. unfold lift. simpl. by rewrite app_nil_r. Qed.

Lemma appends_append_issue x : appends_only (append_issue x).
Proof. intros issues. by unfold append_issue. Qed.

Lemma appends_mbind {A B} (m : M A) (k : A -> M B) :
  appends_only m -> (forall a, appends_only (k a)) -> appends_only (mbind m k).
Proof.
  intros Hm Hk issues. unfold mbind.
  rewrite (Hm issues).
  destruct (m []) as [[a|e] s1] eqn:E; simpl.
  - rewrite (Hk a (issues ++ s1)), (Hk a s1). simpl.
    by rewrite app_assoc.
  - done.
Qed.

Ltac appends :=
  repeat first
    [ apply appends_mbind
    | apply appends_lift
    | apply appends_ret
    | apply appends_append_issue
    | intros ?
    | case_match ].

Section Methods.
Variables original translated : json.

Lemma appends_validate_cell_count :
  appends_only (validate_cell_count original translated).
Proof. unfold validate_cell_count. appends. Qed.

Lemma appends_validate_cell_types :
  appends_only (validate_cell_types original translated).
Proof. unfold validate_cell_types. appends. Qed.

Lemma appends_validate_code_cells :
  appends_only (validate_code_cells original translated).
Proof. unfold validate_code_cells. appends. Qed.

Lemma appends_validate_markdown_translated :
  appends_only (validate_markdown_translated original translated).
Proof. unfold validate_markdown_translated. appends. Qed.

Lemma appends_validate_outputs_present :
  appends_only (validate_outputs_present original translated).
Proof. unfold validate_outputs_present. appends. Qed.

Lemma appends_validate_metadata :
  appends_only (validate_metadata original translated).
Proof. unfold validate_metadata. appends. Qed.

Lemma appends_validations :
  Forall (fun nc => appends_only (snd nc)) (validations original translated).
Proof.
  unfold validations.
  repeat constructor; simpl;
    auto using appends_validate_cell_count, appends_validate_cell_types,
      appends_validate_code_cells, appends_validate_markdown_translated,
      appends_validate_outputs_present, appends_validate_metadata.
Qed.

(** ** A method that raises has recorded nothing *)

Ltac split_goal :=
  match goal with
  | |- context [match ?x with _ => _ end] =>
      lazymatch x with
      | context [match _ with _ => _ end] => fail
      | context [bind _ _] => fail
      | _ => destruct x eqn:?
      end
  | |- context [bind ?x _] =>
      lazymatch x with
      | context [match _ with _ => _ end] => fail
      | context [bind _ _] => fail
      | _ => destruct x eqn:?
      end
  end.

Ltac raises_clean :=
  unfold mbind, lift, ret, append_issue;
  repeat (simpl in *; try done; try congruence; split_goal).

Lemma validate_cell_count_raises e :
  fst (validate_cell_count original translated []) = Raise e ->
  snd (validate_cell_count original translated []) = [].
Proof. revert e. unfold validate_cell_count. raises_clean. Qed.

Lemma validate_cell_types_raises e :
  fst (validate_cell_types original translated []) = Raise e ->
  snd (validate_cell_types original translated []) = [].
Proof. revert e. unfold validate_cell_types. raises_clean. Qed.

Lemma validate_code_cells_raises e :
  fst (validate_code_cells original translated []) = Raise e ->
  snd (validate_code_cells original translated []) = [].
Proof. revert e. unfold validate_code_cells. raises_clean. Qed.

Lemma validate_markdown_translated_raises e :
  fst (validate_markdown_translated original translated []) = Raise e ->
  snd (validate_markdown_translated original translated []) = [].
Proof. revert e. unfold validate_markdown_translated. raises_clean. Qed.

Lemma validate_outputs_present_raises e :
  fst (validate_outputs_present original translated []) = Raise e ->
  snd (validate_outputs_present original translated []) = [].
Proof. revert e. unfold validate_outputs_present. raises_clean. Qed.

Lemma validate_metadata_raises e :
  fst (validate_metadata original translated []) = Raise e ->
  snd (validate_metadata original translated []) = [].
Proof. revert e. unfold validate_metadata. raises_clean. Qed.

(** [validate_metadata] never hands back a boolean. *)
Lemma validate_metadata_value issues v :
  fst (validate_metadata original translated issues) = Ok v -> v = JNull.
Proof.
  unfold validate_metadata. raises_clean.
Qed.

End Methods.

(** ** The loop of [run_all_validations] *)

Lemma try_validation_guarded name f results issues :
  appends_only f ->
  try_validation name f results issues =
  (dict_set name (fst (guarded name f)) results,
   issues ++ snd (guarded name f)).
Proof.
  intros Hf. unfold try_validation, guarded. rewrite (Hf issues).
  destruct (f []) as [[v|e] s]; simpl; [done|].
  by rewrite app_assoc.
Qed.

(** The loop stores, name by name, what each validation yields on its own
    and records the issues of each, one validation after the other. *)
Lemma run_validations_spec vs results issues :
  Forall (fun nc => appends_only (snd nc)) vs ->
  run_validations vs results issues =
  (foldl (fun res nc => dict_set (fst nc) (fst (guarded (fst nc) (snd nc))) res)
     results vs,
   issues ++ concat (map (fun nc => snd (guarded (fst nc) (snd nc))) vs)).
Proof.
  intros Hvs. revert results issues.
  induction Hvs as [|[name f] vs Hf Hvs IH]; intros results issues; simpl.
  - by rewrite app_nil_r.
  - rewrite try_validation_guarded by done. simpl.
    rewrite IH. by rewrite app_assoc.
Qed.

Lemma dict_get_foldl_other (g : str -> M json -> json) name vs results :
  ~ In name (map fst vs) ->
  dict_get name
    (foldl (fun res nc => dict_set (fst nc) (g (fst nc) (snd nc)) res) results vs)
  = dict_get name results.
Proof.
  revert results. induction vs as [|[n f] vs IH]; intros results Hn; simpl.
  - done.
  - rewrite IH by (intros ?; apply Hn; by right).
    apply dict_get_set_ne. intros ->. apply Hn. by left.
Qed.

Lemma dict_get_foldl (g : str -> M json -> json) name f vs results :
  List.NoDup (map fst vs) -> In (name, f) vs ->
  dict_get name
    (foldl (fun res nc => dict_set (fst nc) (g (fst nc) (snd nc)) res) results vs)
  = Some (g name f).
Proof.
  revert results. induction vs as [|[n f'] vs IH]; intros results Hnd Hin.
  - done.
  - simpl in *. apply List.NoDup_cons_iff in Hnd as [Hn Hnd].
    destruct Hin as [[= -> ->]|Hin].
    + rewrite dict_get_foldl_other by done. apply dict_get_set_eq.
    + by apply IH.
Qed.

Lemma validations_names original translated :
  map fst (validations original translated) =
  ["Cell count"; "Cell types"; "Code cells"; "Markdown translation";
   "Outputs present"; "Metadata"].
Proof. done. Qed.

Lemma validations_NoDup original translated :
  List.NoDup (map fst (validations original translated)).
Proof.
  rewrite validations_names.
  repeat (apply List.NoDup_cons; [simpl; intros H; repeat destruct H as [H|H]; done|]).
  apply List.NoDup_nil.
Qed.

(** ** The loops of the checks *)

Lemma zipped_cells_lists o t co ct :
  notebook_cells o = Some co -> notebook_cells t = Some ct ->
  zipped_cells o t = Ok (zip co ct).
Proof.
  unfold notebook_cells, zipped_cells, py_getitem. intros Ho Ht.
  destruct o; try done. destruct (dict_get "cells" fields) as [[]|]; try done.
  destruct t; try done. destruct (dict_get "cells" fields0) as [[]|]; try done.
  by simplify_eq.
Qed.

Lemma in_concat_imap {A B} (f : nat -> A -> list B) l x :
  In x (concat (imap f l)) <-> exists i a, l !! i = Some a /\ In x (f i a).
Proof.
  revert f. induction l as [|a l IH]; intros f; simpl.
  - split; [done|]. by intros (i & b & ? & _).
  - rewrite in_app_iff, IH. split.
    + intros [H|(i & b & Hi & H)]; [by exists 0, a|by exists (S i), b].
    + intros ([|i] & b & Hi & H); simpl in *.
      * left. by simplify_eq.
      * right. by exists i, b.
Qed.

Lemma code_cells_body_spec i p mism mism' :
  code_cells_body i p mism = Ok mism' -> mism' = mism ++ code_lines i p.
Proof.
  destruct p as [oc tc]. unfold code_cells_body, code_lines, is_code, has_kind.
  cbn [fst snd]. intros H.
  destruct oc; unfold py_get in *; crunch;
    rewrite ?app_nil_r, <- ?app_assoc; done.
Qed.

Lemma code_loop ps mism :
  py_for code_cells_body 0 ps [] = Ok mism ->
  mism = concat (imap code_lines ps).
Proof.
  apply (py_for_invariant (fun pre m => m = concat (imap code_lines pre))).
  - done.
  - intros pre p m1 m2 -> Hb. apply code_cells_body_spec in Hb as ->.
    rewrite imap_app, concat_app. simpl.
    by rewrite Nat.add_0_r, app_nil_r.
Qed.

Lemma outputs_body_spec i p missing missing' :
  outputs_body i p missing = Ok missing' ->
  missing' = missing ++ missing_line i p.
Proof.
  destruct p as [oc tc].
  unfold outputs_body, missing_line, results_len, is_code, has_kind.
  cbn [fst snd]. intros H.
  destruct oc; unfold py_get in *; crunch;
    repeat case_match; simplify_eq/=;
    repeat match goal with
           | E : ?x = _, H : context [bind ?x _] |- _ => rewrite E in H
           end; simplify_eq/=; rewrite ?app_nil_r; try done.
Qed.

Lemma outputs_loop ps missing :
  py_for outputs_body 0 ps [] = Ok missing ->
  missing = concat (imap missing_line ps).
Proof.
  apply (py_for_invariant (fun pre m => m = concat (imap missing_line pre))).
  - done.
  - intros pre p m1 m2 -> Hb. apply outputs_body_spec in Hb as ->.
    rewrite imap_app, concat_app. simpl.
    by rewrite Nat.add_0_r, app_nil_r.
Qed.

(** What one turn of the markdown loop adds to the two counters. *)
Lemma markdown_body_spec i p st st' :
  markdown_body i p st = Ok st' ->
  st' = (fst st + (if is_markdown (fst p) && negb (blank_source (fst p))
                      && same_source p then 1 else 0),
         snd st + (if is_markdown (fst p) then 1 else 0)).
Proof.
  destruct p as [oc tc], st as [a b].
  unfold markdown_body, is_markdown, has_kind, blank_source, same_source.
  cbn [fst snd]. intros H.
  destruct oc; unfold py_get in H; crunch;
    repeat case_match; simplify_eq/=;
    repeat match goal with
           | E : ?x = _, H : context [bind ?x _] |- _ => rewrite E in H
           end; simplify_eq/=; rewrite ?Nat.add_0_r; try done.
Qed.

Lemma markdown_loop ps st :
  py_for markdown_body 0 ps (0, 0) = Ok st ->
  fst st = length (List.filter
                     (fun p => negb (blank_source (fst p)) && same_source p)
                     (markdown_pairs ps))
  /\ snd st = length (markdown_pairs ps).
Proof.
  apply (py_for_invariant
           (fun pre st =>
              fst st = length (List.filter
                                 (fun p => negb (blank_source (fst p))
                                           && same_source p)
                                 (markdown_pairs pre))
              /\ snd st = length (markdown_pairs pre))).
  - done.
  - intros pre p s1 s2 [H1 H2] Hb. apply markdown_body_spec in Hb as ->.
    unfold markdown_pairs in *. cbn [fst snd].
    rewrite !List.filter_app, !length_app, H1, H2. simpl.
    destruct (is_markdown (fst p)); simpl; [|done].
    by destruct (negb (blank_source (fst p)) && same_source p).
Qed.

(** ** How each check ends *)

Lemma validate_code_cells_inv o t issues v issues' :
  validate_code_cells o t issues = (Ok v, issues') ->
  exists ps,
    zipped_cells o t = Ok ps /\
    match concat (imap code_lines ps) with
    | [] => v = True_ /\ issues' = issues
    | lines => v = False_ /\ issues' = issues ++ [CodeCellMismatches lines]
    end.
Proof.
  unfold validate_code_cells, mbind, lift, ret, append_issue.
  destruct (zipped_cells o t) as [ps|]; simpl; [|done].
  destruct (py_for code_cells_body 0 ps []) as [lines|] eqn:E; simpl; [|done].
  apply code_loop in E as ->. intros H. exists ps. split; [done|].
  destruct (concat (imap code_lines ps)); by simplify_eq.
Qed.

Lemma validate_outputs_present_inv o t issues v issues' :
  validate_outputs_present o t issues = (Ok v, issues') ->
  exists ps,
    zipped_cells o t = Ok ps /\
    match concat (imap missing_line ps) with
    | [] => v = True_ /\ issues' = issues
    | missing => v = False_ /\ issues' = issues ++ [MissingOutputs missing]
    end.
Proof.
  unfold validate_outputs_present, mbind, lift, ret, append_issue.
  destruct (zipped_cells o t) as [ps|]; simpl; [|done].
  destruct (py_for outputs_body 0 ps []) as [missing|] eqn:E; simpl; [|done].
  apply outputs_loop in E as ->. intros H. exists ps. split; [done|].
  destruct (concat (imap missing_line ps)); by simplify_eq.
Qed.

Lemma validate_markdown_translated_inv o t issues v issues' :
  validate_markdown_translated o t issues = (Ok v, issues') ->
  exists ps,
    zipped_cells o t = Ok ps /\
    let total := length (markdown_pairs ps) in
    let identical :=
      length (List.filter
                (fun p => negb (blank_source (fst p)) && same_source p)
                (markdown_pairs ps)) in
    if (0 <? total)%nat && (identical =? total)%nat
    then v = False_ /\ issues' = issues ++ [AllMarkdownIdentical total]
    else v = True_ /\ issues' = issues.
Proof.
  unfold validate_markdown_translated, mbind, lift, ret, append_issue.
  destruct (zipped_cells o t) as [ps|]; simpl; [|done].
  destruct (py_for markdown_body 0 ps (0, 0)) as [st|] eqn:E; simpl; [|done].
  apply markdown_loop in E as [-> ->]. intros H. exists ps. split; [done|].
  cbv zeta.
  destruct ((0 <? _)%nat && (_ =? _)%nat); by simplify_eq.
Qed.

(** ** Lists *)

Lemma filter_length_all {A} (f : A -> bool) (l : list A) :
  length (List.filter f l) = length l <-> forall x, In x l -> f x = true.
Proof.
  induction l as [|a l IH]; simpl.
  - split; [by intros _ x []|done].
  - pose proof (List.filter_length_le f l) as Hle.
    destruct (f a) eqn:E; simpl.
    + split.
      * intros [= H] x [<-|Hx]; [done|]. by apply IH.
      * intros H. f_equal. apply IH. intros x Hx. apply H. by right.
    + split; [lia|]. intros H. rewrite H in E by (by left). done.
Qed.

Lemma flagged_code_in lines i :
  In i (flagged_code lines) <-> In (CodeDiffers i) lines.
Proof.
  induction lines as [|[j|s|s] lines IH]; simpl; [done| |..].
  - rewrite IH. split; intros [H|H]; auto; left; congruence.
  - rewrite IH. split; [auto|]. by intros [[=]|].
  - rewrite IH. split; [auto|]. by intros [[=]|].
Qed.

Lemma in_code_lines i j p :
  In (CodeDiffers i) (code_lines j p) <->
  i = j /\ is_code (fst p) = true /\ differing_source p = true.
Proof.
  unfold code_lines, differing_source.
  destruct (is_code (fst p)); [|by split; [|intros (_ & [=] & _)]].
  destruct (cell_source (fst p)) as [a|]; [|by split; [|intros (_ & _ & [=])]].
  destruct (cell_source (snd p)) as [b|]; [|by split; [|intros (_ & _ & [=])]].
  destruct (str_eqb a b); simpl; [by split; [|intros (_ & _ & [=])]|].
  split.
  - intros [[= ->]|H]; [done|]. by destruct (_ <? _)%nat; [destruct H as [|[|[]]]|].
  - intros (-> & _). by left.
Qed.

Lemma code_lines_nonempty j p x :
  In x (code_lines j p) -> In (CodeDiffers j) (code_lines j p).
Proof.
  unfold code_lines.
  destruct (is_code (fst p)); [|done].
  destruct (cell_source (fst p)); [|done].
  destruct (cell_source (snd p)); [|done].
  destruct (str_eqb _ _); [done|]. intros _. by left.
Qed.

Lemma in_missing_line i n j p :
  In (i, n) (missing_line j p) <->
  i = j /\ is_code (fst p) = true /\ results_len (fst p) = Ok n /\ 0 < n
  /\ results_len (snd p) = Ok 0.
Proof.
  unfold missing_line.
  destruct (is_code (fst p)); [|by split; [|intros (_ & [=] & _)]].
  destruct (results_len (fst p)) as [[|k]|];
    [split; [done|intros (_ & _ & [= <-] & ? & _); lia]| |
     by split; [|intros (_ & _ & [=] & _)]].
  destruct (results_len (snd p)) as [[|k']|]; simpl;
    [|by split; [|intros (_ & _ & _ & _ & [=])]..].
  split.
  - intros [[= -> <-]|[]]. repeat split; done || lia.
  - intros (-> & _ & [= <-] & _). by left.
Qed.

End ValidateFacts.

(* ===================================================================== *)
(** * The validator: results, errors and the status line *)
(* ===================================================================== *)

Module ValidateProperties.
Import Py Notebook Sync SyncLoop Validate Checks.
Import PyFacts SyncFacts ValidateFacts Examples.

Lemma run_all_validations_spec original translated issues :
  run_all_validations original translated issues =
  (foldl (fun res nc => dict_set (fst nc) (fst (guarded (fst nc) (snd nc))) res)
     [] (validations original translated),
   issues ++ concat (map (fun nc => snd (guarded (fst nc) (snd nc)))
                       (validations original translated))).
Proof. apply run_validations_spec, appends_validations. Qed.

Lemma guarded_raise name check e :
  fst (check []) = Raise e -> snd (check []) = [] ->
  guarded name check = (False_, [ValidationError name e]).
Proof.
  unfold guarded. destruct (check []) as [r s]. simpl. by intros -> ->.
Qed.

(** C9. When one of the six validations, [validate_cell_count],
    [validate_cell_types], [validate_code_cells],
    [validate_markdown_translated], [validate_outputs_present] or
    [validate_metadata], raises, [run_all_validations] stores [False] for
    it and records for it the one issue that carries the exception; all
    six validations are run, in that order: [results] holds under each of
    the six names the value that validation yields when run on its own, and
    the issues are those each of the six records on its own, one after the
    other. *)
Theorem validation_errors_are_isolated original translated name check e
    (Hin : In (name, check)
             [("Cell count", validate_cell_count original translated);
              ("Cell types", validate_cell_types original translated);
              ("Code cells", validate_code_cells original translated);
              ("Markdown translation",
               validate_markdown_translated original translated);
              ("Outputs present", validate_outputs_present original translated);
              ("Metadata", validate_metadata original translated)])
    (Hraise : fst (check []) = Raise e) :
  let r := run_all_validations original translated [] in
  let cell_count :=
    guarded "Cell count" (validate_cell_count original translated) in
  let cell_types :=
    guarded "Cell types" (validate_cell_types original translated) in
  let code_cells :=
    guarded "Code cells" (validate_code_cells original translated) in
  let markdown :=
    guarded "Markdown translation"
      (validate_markdown_translated original translated) in
  let outputs :=
    guarded "Outputs present" (validate_outputs_present original translated) in
  let metadata :=
    guarded "Metadata" (validate_metadata original translated) in
  guarded name check = (False_, [ValidationError name e])
  /\ fst r = [("Cell count", fst cell_count);
              ("Cell types", fst cell_types);
              ("Code cells", fst code_cells);
              ("Markdown translation", fst markdown);
              ("Outputs present", fst outputs);
              ("Metadata", fst metadata)]
  /\ snd r = snd cell_count ++ snd cell_types ++ snd code_cells
             ++ snd markdown ++ snd outputs ++ snd metadata.
Proof.
  cbv zeta. rewrite run_all_validations_spec. unfold validations.
  cbn [foldl map concat fst snd app].
  split; [|split].
  - apply guarded_raise; [done|].
    simpl in Hin.
    destruct Hin as [[= <- <-]|[[= <- <-]|[[= <- <-]|[[= <- <-]|
                    [[= <- <-]|[[= <- <-]|[]]]]]]];
      eauto using validate_cell_count_raises, validate_cell_types_raises,
        validate_code_cells_raises, validate_markdown_translated_raises,
        validate_outputs_present_raises, validate_metadata_raises.
  - reflexivity.
  - by rewrite app_nil_r.
Qed.

Lemma validation_errors_are_isolated_witness :
  run_all_validations bad_source translated_bad_source [] =
  ([("Cell count", True_); ("Cell types", True_); ("Code cells", False_);
    ("Markdown translation", False_); ("Outputs present", False_);
    ("Metadata", JNull)],
   [ValidationError "Code cells" (TypeError "join" "int");
    AllMarkdownIdentical 1;
    MissingOutputs [(0, 1)]]).
Proof.
  destruct (validation_errors_are_isolated bad_source translated_bad_source
              "Code cells" (validate_code_cells bad_source translated_bad_source)
              (TypeError "join" "int")) as (Hown & Hres & Hissues).
  - simpl. tauto.
  - vm_compute. reflexivity.
  - rewrite (surjective_pairing (run_all_validations _ _ _)), Hres, Hissues.
    vm_compute. reflexivity.
Defined.

Lemma all_passed_false results name v :
  dict_get name results = Some v -> py_truthy v = false ->
  all_passed results = false.
Proof.
  unfold all_passed, dict_values.
  induction results as [|[k x] results IH]; simpl; [done|].
  destruct (str_eqb name k).
  - intros [= ->] ->. done.
  - intros H1 H2. rewrite IH by done. apply andb_false_r.
Qed.

Lemma metadata_result original translated issues :
  dict_get "Metadata" (fst (run_all_validations original translated issues)) =
  Some (match fst (validate_metadata original translated []) with
        | Ok _ => JNull
        | Raise _ => False_
        end).
Proof.
  rewrite run_all_validations_spec. cbn [fst].
  rewrite (dict_get_foldl (fun n f => fst (guarded n f)) "Metadata"
             (validate_metadata original translated));
    [|apply validations_NoDup|simpl; tauto].
  unfold guarded.
  destruct (validate_metadata original translated []) as [[v|e] s] eqn:E;
    simpl; [|done].
  f_equal. apply (validate_metadata_value original translated []).
  by rewrite E.
Qed.

(** C5. In the mapping [run_all_validations] returns, ['Metadata'] is
    [None] when [validate_metadata] comes to its end and [False] when it
    raises, never [True]; so [all(results.values())] is false and the
    status line of the pair is never the passing one. *)
Theorem metadata_check_never_true original translated issues :
  let results := fst (run_all_validations original translated issues) in
  dict_get "Metadata" results =
    Some (match fst (validate_metadata original translated []) with
          | Ok _ => JNull
          | Raise _ => False_
          end)
  /\ dict_get "Metadata" results <> Some True_
  /\ all_passed results = false
  /\ file_status original translated = ISSUES.
Proof.
  cbv zeta.
  assert (Hfalse : forall issues0,
             all_passed (fst (run_all_validations original translated issues0))
             = false).
  { intros issues0.
    eapply all_passed_false; [apply metadata_result|].
    by destruct (fst (validate_metadata original translated [])). }
  repeat split.
  - apply metadata_result.
  - rewrite metadata_result.
    by destruct (fst (validate_metadata original translated [])).
  - apply Hfalse.
  - unfold file_status. by rewrite Hfalse.
Qed.

(** C2, at a pair that is in order.  Every other check yields [True] and
    no issue is recorded, yet ['Metadata'] is [None], not a boolean, and
    the pair is not reported as passing. *)
Lemma metadata_check_yields_none :
  run_all_validations original_a synced_a [] =
    ([("Cell count", True_); ("Cell types", True_); ("Code cells", True_);
      ("Markdown translation", True_); ("Outputs present", True_);
      ("Metadata", JNull)], [])
  /\ file_status original_a synced_a = ISSUES.
Proof. split; vm_compute; reflexivity. Qed.

(** ** Which cells the checks look at *)

Lemma lookup_zip_pair (co ct : list json) i (p : json * json) :
  zip co ct !! i = Some p <->
  co !! i = Some (fst p) /\ ct !! i = Some (snd p).
Proof.
  rewrite lookup_zip_with_Some. destruct p as [a b]. simpl. split.
  - by intros (x & y & [= -> ->] & ? & ?).
  - intros [? ?]. by exists a, b.
Qed.

Lemma flagged_code_positions co ct i :
  In i (flagged_code (concat (imap code_lines (zip co ct)))) <->
  code_differs_at co ct i.
Proof.
  rewrite flagged_code_in, in_concat_imap. unfold code_differs_at. split.
  - intros (j & p & Hp & Hin). apply in_code_lines in Hin as (-> & ? & ?).
    apply lookup_zip_pair in Hp as [? ?].
    exists (fst p), (snd p). by destruct p.
  - intros (oc & tc & ? & ? & ? & ?). exists i, (oc, tc). split.
    + by apply lookup_zip_pair.
    + by apply in_code_lines.
Qed.

Lemma missing_positions co ct i n :
  In (i, n) (concat (imap missing_line (zip co ct))) <->
  results_missing_at co ct i n.
Proof.
  rewrite in_concat_imap. unfold results_missing_at. split.
  - intros (j & p & Hp & Hin).
    apply in_missing_line in Hin as (-> & ? & ? & ? & ?).
    apply lookup_zip_pair in Hp as [? ?].
    by exists (fst p), (snd p).
  - intros (oc & tc & ? & ? & ? & ? & ? & ?). exists i, (oc, tc). split.
    + by apply lookup_zip_pair.
    + by apply in_missing_line.
Qed.

Lemma code_check_spec o t co ct issues v issues' :
  notebook_cells o = Some co -> notebook_cells t = Some ct ->
  validate_code_cells o t issues = (Ok v, issues') ->
  (v = False_ <-> exists i, code_differs_at co ct i)
  /\ exists lines,
       (forall i, In i (flagged_code lines) <-> code_differs_at co ct i)
       /\ ((v = True_ /\ lines = [] /\ issues' = issues)
           \/ (v = False_ /\ issues' = issues ++ [CodeCellMismatches lines])).
Proof.
  intros Ho Ht Hrun.
  apply validate_code_cells_inv in Hrun as (ps & Hps & Hend).
  rewrite (zipped_cells_lists _ _ _ _ Ho Ht) in Hps. simplify_eq.
  pose proof (flagged_code_positions co ct) as Hpos.
  destruct (concat (imap code_lines (zip co ct))) as [|x lines] eqn:E.
  - destruct Hend as [-> ->]. split.
    + split; [done|]. intros [i Hi]. by apply Hpos in Hi.
    + exists []. split; [done|]. by left.
  - destruct Hend as [-> ->]. split.
    + split; [|done]. intros _.
      assert (Hx : In x (concat (imap code_lines (zip co ct))))
        by (rewrite E; by left).
      apply in_concat_imap in Hx as (j & p & Hp & Hx).
      apply code_lines_nonempty in Hx.
      exists j. apply flagged_code_positions.
      rewrite flagged_code_in, in_concat_imap. by exists j, p.
    + exists (x :: lines). split; [done|]. by right.
Qed.

Lemma outputs_check_spec o t co ct issues v issues' :
  notebook_cells o = Some co -> notebook_cells t = Some ct ->
  validate_outputs_present o t issues = (Ok v, issues') ->
  (v = False_ <-> exists i n, results_missing_at co ct i n)
  /\ exists missing,
       (forall i n, In (i, n) missing <-> results_missing_at co ct i n)
       /\ ((v = True_ /\ missing = [] /\ issues' = issues)
           \/ (v = False_ /\ issues' = issues ++ [MissingOutputs missing])).
Proof.
  intros Ho Ht Hrun.
  apply validate_outputs_present_inv in Hrun as (ps & Hps & Hend).
  rewrite (zipped_cells_lists _ _ _ _ Ho Ht) in Hps. simplify_eq.
  pose proof (missing_positions co ct) as Hpos.
  destruct (concat (imap missing_line (zip co ct))) as [|[i n] missing] eqn:E.
  - destruct Hend as [-> ->]. split.
    + split; [done|]. intros (i & n & Hi). by apply Hpos in Hi.
    + exists []. split; [done|]. by left.
  - destruct Hend as [-> ->]. split.
    + split; [|done]. intros _. exists i, n. apply Hpos. by left.
    + exists ((i, n) :: missing). split; [done|]. by right.
Qed.

(** C4, as the code has it.  The code-identity check and the
    outputs-presence check look at the aligned indices where the original
    cell is a code cell; the kind of the translated cell is not consulted.
    The first fails exactly when the joined sources differ at such an
    index, the second exactly when at such an index the original has one
    or more results and the cell facing it none; each names in its issue
    exactly those indices, so an index whose original cell is not a code
    cell is never flagged. *)
Theorem code_and_outputs_checks_follow_original_kind
    original translated orig_cells trans_cells issues
    (Ho : notebook_cells original = Some orig_cells)
    (Ht : notebook_cells translated = Some trans_cells) :
  (forall v issues',
      validate_code_cells original translated issues = (Ok v, issues') ->
      (v = False_ <-> exists i, code_differs_at orig_cells trans_cells i)
      /\ exists lines,
           (forall i, In i (flagged_code lines) <->
                      code_differs_at orig_cells trans_cells i)
           /\ ((v = True_ /\ lines = [] /\ issues' = issues)
               \/ (v = False_
                   /\ issues' = issues ++ [CodeCellMismatches lines])))
  /\ (forall v issues',
        validate_outputs_present original translated issues = (Ok v, issues') ->
        (v = False_ <->
         exists i n, results_missing_at orig_cells trans_cells i n)
        /\ exists missing,
             (forall i n, In (i, n) missing <->
                          results_missing_at orig_cells trans_cells i n)
             /\ ((v = True_ /\ missing = [] /\ issues' = issues)
                 \/ (v = False_
                     /\ issues' = issues ++ [MissingOutputs missing]))).
Proof.
  split; intros v issues' Hrun.
  - by apply (code_check_spec original translated).
  - by apply (outputs_check_spec original translated).
Qed.

Lemma code_and_outputs_checks_follow_original_kind_witness :
  (exists i, code_differs_at
               [code_cell ["x = 1"] [stream "1"] (JInt 1)]
               [markdown_cell ["x = 2"]] i)
  /\ (exists i n, results_missing_at
                    [code_cell ["x = 1"] [stream "1"] (JInt 1)]
                    [markdown_cell ["x = 2"]] i n).
Proof.
  destruct (code_and_outputs_checks_follow_original_kind
              original_mismatch translated_mismatch
              [code_cell ["x = 1"] [stream "1"] (JInt 1)]
              [markdown_cell ["x = 2"]] [] eq_refl eq_refl) as [Hcode Hout].
  split.
  - apply (Hcode False_
             [CodeCellMismatches
                [CodeDiffers 0; OriginalExcerpt "x = 1";
                 TranslatedExcerpt "x = 2"]]);
      [vm_compute|]; reflexivity.
  - apply (Hout False_ [MissingOutputs [(0, 1)]]); [vm_compute|]; reflexivity.
Defined.

(** C4 as stated fails: an original code cell with one result faces a
    markdown cell with another source.  Both checks flag index 0, where
    the specification's reading of them passes. *)
Lemma code_and_outputs_checks_flag_other_kinds :
  is_code (code_cell ["x = 1"] [stream "1"] (JInt 1)) = true
  /\ is_code (markdown_cell ["x = 2"]) = false
  /\ validate_code_cells original_mismatch translated_mismatch [] =
       (Ok False_,
        [CodeCellMismatches
           [CodeDiffers 0; OriginalExcerpt "x = 1"; TranslatedExcerpt "x = 2"]])
  /\ code_identity_as_specified original_mismatch translated_mismatch
       = Ok True_
  /\ validate_outputs_present original_mismatch translated_mismatch [] =
       (Ok False_, [MissingOutputs [(0, 1)]])
  /\ outputs_presence_as_specified original_mismatch translated_mismatch
       = Ok True_.
Proof. repeat split; vm_compute; reflexivity. Qed.

(** C3, as the code has it.  The translation-coverage check looks at the
    aligned pairs whose original cell is markdown; the kind of the
    translated cell is not consulted.  When none of these original cells
    has a blank source, the check is [False] exactly when there is such a
    pair and every one of them has the same source on both sides, and it
    then records the one issue that carries their number; otherwise it is
    [True] and records nothing. *)
Theorem markdown_check_all_identical
    original translated orig_cells trans_cells issues v issues'
    (Ho : notebook_cells original = Some orig_cells)
    (Ht : notebook_cells translated = Some trans_cells)
    (Hrun : validate_markdown_translated original translated issues
            = (Ok v, issues'))
    (Hnonblank : forall p,
        In p (markdown_pairs (zip orig_cells trans_cells)) ->
        blank_source (fst p) = false) :
  let considered := markdown_pairs (zip orig_cells trans_cells) in
  (v = False_ <->
   considered <> [] /\ forall p, In p considered -> same_source p = true)
  /\ ((v = False_
       /\ issues' = issues ++ [AllMarkdownIdentical (length considered)])
      \/ (v = True_ /\ issues' = issues)).
Proof.
  cbv zeta.
  apply validate_markdown_translated_inv in Hrun as (ps & Hps & Hend).
  rewrite (zipped_cells_lists _ _ _ _ Ho Ht) in Hps. simplify_eq.
  cbv zeta in Hend.
  set (mp := markdown_pairs (zip orig_cells trans_cells)) in *.
  set (g := fun p : json * json =>
              negb (blank_source (fst p)) && same_source p) in *.
  assert (Hall : length (List.filter g mp) = length mp <->
                 forall p, In p mp -> same_source p = true).
  { rewrite filter_length_all. unfold g. split; intros H p Hp.
    - specialize (H p Hp). by apply andb_true_iff in H as [_ ?].
    - by rewrite (Hnonblank p Hp), (H p Hp). }
  destruct ((0 <? length mp)%nat && (length (List.filter g mp) =? length mp)%nat)
    eqn:E.
  - destruct Hend as [-> ->].
    apply andb_true_iff in E as [Hpos Heq].
    apply Nat.ltb_lt in Hpos. apply Nat.eqb_eq in Heq.
    split; [|by left]. split; [|done]. intros _. split.
    + intros Hnil. rewrite Hnil in Hpos. simpl in Hpos. lia.
    + by apply Hall.
  - destruct Hend as [-> ->]. split; [|by right].
    split; [done|]. intros [Hne Hsame]. exfalso.
    apply Hall in Hsame. apply Nat.eqb_eq in Hsame.
    rewrite Hsame, andb_true_r in E. apply Nat.ltb_ge in E.
    destruct mp; [done|simpl in E; lia].
Qed.

Lemma markdown_check_all_identical_witness :
  markdown_pairs (zip [markdown_cell ["Hello"]]
                      [code_cell ["Hello"] [] JNull]) <> []
  /\ forall p,
       In p (markdown_pairs (zip [markdown_cell ["Hello"]]
                                 [code_cell ["Hello"] [] JNull])) ->
       same_source p = true.
Proof.
  apply (markdown_check_all_identical original_kind translated_kind
           [markdown_cell ["Hello"]] [code_cell ["Hello"] [] JNull]
           [] False_ [AllMarkdownIdentical 1]).
  - reflexivity.
  - reflexivity.
  - vm_compute. reflexivity.
  - intros p [<-|[]]. vm_compute. reflexivity.
  - reflexivity.
Defined.

(** C3 as stated fails twice.  A markdown cell facing a code cell with the
    same text: no pair has markdown on both sides, yet the check fails.  An
    untranslated notebook with one markdown cell without text: every pair
    of markdown cells with text is identical, yet the check passes. *)
Lemma markdown_check_differs_from_specification :
  (validate_markdown_translated original_kind translated_kind [] =
     (Ok False_, [AllMarkdownIdentical 1])
   /\ coverage_as_specified original_kind translated_kind = Ok True_)
  /\ (validate_markdown_translated original_blank translated_blank [] =
        (Ok True_, [])
      /\ coverage_as_specified original_blank translated_blank = Ok False_).
Proof. repeat split; vm_compute; reflexivity. Qed.

(** ** Nothing beyond the shorter notebook *)

Lemma cell_count_list nb l : notebook_cells nb = Some l -> cell_count nb = length l.
Proof.
  unfold notebook_cells, cell_count, cells_len, py_getitem.
  destruct nb; try done.
  destruct (dict_get "cells" fields) as [[]|]; try done.
  by intros [= ->].
Qed.

Lemma zipped_cells_prefix o t co ct o2 t2 co2 ct2 :
  notebook_cells o = Some co -> notebook_cells t = Some ct ->
  notebook_cells o2 = Some co2 -> notebook_cells t2 = Some ct2 ->
  length co2 `min` length ct2 = length co `min` length ct ->
  take (length co `min` length ct) co2 = take (length co `min` length ct) co ->
  take (length co `min` length ct) ct2 = take (length co `min` length ct) ct ->
  zipped_cells o2 t2 = zipped_cells o t.
Proof.
  intros Ho Ht Ho2 Ht2 Hm Hco Hct.
  rewrite (zipped_cells_lists _ _ _ _ Ho Ht),
    (zipped_cells_lists _ _ _ _ Ho2 Ht2).
  apply (f_equal Ok).
  rewrite <- (zip_with_take_both' pair (length co `min` length ct)
                (length co `min` length ct) co ct) by lia.
  rewrite <- (zip_with_take_both' pair (length co `min` length ct)
                (length co `min` length ct) co2 ct2) by lia.
  by rewrite Hco, Hct.
Qed.

(** C8. For notebooks with lists of cells of lengths [a] and [b]: a run of
    the synchroniser leaves every translated cell at an index from
    [min a b] on as it was, and the number of cells with it; and the
    kind-alignment, code-identity, translation-coverage and
    outputs-presence checks give the same value and issues on any other
    pair of notebooks with the same shorter length and the same cells
    below it. *)
Theorem cells_beyond_shorter_length_untouched
    original translated orig_cells trans_cells
    (Ho : notebook_cells original = Some orig_cells)
    (Ht : notebook_cells translated = Some trans_cells) :
  let m := length orig_cells `min` length trans_cells in
  (forall translated' n,
      sync_notebook_outputs original translated = Ok (translated', n) ->
      cell_count translated' = cell_count translated
      /\ forall i, m <= i -> cell_at translated' i = cell_at translated i)
  /\ (forall original2 translated2 orig_cells2 trans_cells2 issues,
        notebook_cells original2 = Some orig_cells2 ->
        notebook_cells translated2 = Some trans_cells2 ->
        length orig_cells2 `min` length trans_cells2 = m ->
        take m orig_cells2 = take m orig_cells ->
        take m trans_cells2 = take m trans_cells ->
        validate_cell_types original2 translated2 issues
          = validate_cell_types original translated issues
        /\ validate_code_cells original2 translated2 issues
            = validate_code_cells original translated issues
        /\ validate_markdown_translated original2 translated2 issues
            = validate_markdown_translated original translated issues
        /\ validate_outputs_present original2 translated2 issues
            = validate_outputs_present original translated issues).
Proof.
  cbv zeta. split.
  - intros translated' n Hsync.
    destruct (sync_spec _ _ _ _ Hsync) as (_ & Hlen & Hrest & _).
    cbn [fst] in *.
    rewrite (cell_count_list _ _ Ho), (cell_count_list _ _ Ht) in Hrest.
    split; [|done]. unfold cell_count. by rewrite Hlen.
  - intros o2 t2 co2 ct2 issues Ho2 Ht2 Hm Hco Hct.
    pose proof (zipped_cells_prefix _ _ _ _ _ _ _ _ Ho Ht Ho2 Ht2 Hm Hco Hct)
      as Hz.
    unfold validate_cell_types, validate_code_cells,
      validate_markdown_translated, validate_outputs_present.
    by rewrite Hz.
Qed.

Lemma cells_beyond_shorter_length_untouched_witness :
  (cell_count synced_long = cell_count translated_long
   /\ forall i, 1 <= i -> cell_at synced_long i = cell_at translated_long i)
  /\ validate_outputs_present original_short translated_cut []
     = validate_outputs_present original_short translated_long [].
Proof.
  destruct (cells_beyond_shorter_length_untouched
              original_short translated_long
              [code_cell ["a = 1"] [stream "1"] (JInt 1)]
              [code_cell ["a = 1"] [] JNull;
               code_cell ["b = 2"] [stream "keep"] (JInt 9)]
              eq_refl eq_refl) as [Hsync Hchecks].
  split.
  - apply (Hsync synced_long 1). vm_compute. reflexivity.
  - apply (Hchecks original_short translated_cut
             [code_cell ["a = 1"] [stream "1"] (JInt 1)]
             [code_cell ["a = 1"] [] JNull] []); reflexivity.
Defined.

End ValidateProperties.

(* ===================================================================== *)
(** * Worked scenarios *)
(* ===================================================================== *)

Module Scenarios.
Import Py Notebook Sync Validate Checks Examples.

(** Three cells, the translation without any result: one copy, and only
    the first cell has results afterwards. *)
Example scenario_three_cells :
  let translated :=
    notebook [code_cell ["x = 1"; "print(x)"] [] JNull;
              markdown_cell ["# Titre"];
              code_cell ["y = 2"] [] JNull] in
  exists translated',
    sync_notebook_outputs original_a translated = Ok (translated', 1)
    /\ map (fun i => match cell_at translated' i with
                     | Some cell => has_results cell
                     | None => false
                     end) [0; 1; 2] = [true; false; false].
Proof. eexists. split; vm_compute; reflexivity. Qed.

(** Five cells against four: the count check records both numbers, the
    synchroniser walks four cells. *)
Example scenario_five_against_four :
  validate_cell_count original_b translated_b [] =
    (Ok False_, [CellCountMismatch 5 4])
  /\ min_cells original_b translated_b = Ok 4.
Proof. split; vm_compute; reflexivity. Qed.

(** Code of forty characters differing in one: the issue shows both
    sources in full. *)
Example scenario_short_code_differs :
  let a := "print('hello world, this is a test 123')" in
  let b := "print('hello world, this is a test 124')" in
  str_len a = 40
  /\ validate_code_cells (notebook [code_cell [a] [] JNull])
       (notebook [code_cell [b] [] JNull]) [] =
     (Ok False_,
      [CodeCellMismatches
         [CodeDiffers 0; OriginalExcerpt a; TranslatedExcerpt b]]).
Proof. split; vm_compute; reflexivity. Qed.

(** Differing kernels are recorded as a warning; the method still hands
    back [None]. *)
Example scenario_kernel_mismatch :
  validate_metadata
    (JObj [("cells", JArr []);
           ("metadata", JObj [("kernelspec", JObj [("name", JStr "python3")])])])
    (JObj [("cells", JArr []);
           ("metadata", JObj [("kernelspec", JObj [("name", JStr "ir")])])])
    [] =
  (Ok JNull, [KernelMismatch (JStr "python3") (JStr "ir")]).
Proof. vm_compute. reflexivity. Qed.

(** Forty-nine Hangul syllables are forty-nine characters: below the
    hundred, so both sources are shown. *)
Example scenario_hangul_excerpt :
  let a := Str (repeat 44032%N 49) in
  let b := Str (repeat 44033%N 49) in
  str_len a = 49
  /\ validate_code_cells (notebook [code_cell [a] [] JNull])
       (notebook [code_cell [b] [] JNull]) [] =
     (Ok False_,
      [CodeCellMismatches
         [CodeDiffers 0; OriginalExcerpt a; TranslatedExcerpt b]]).
Proof. split; vm_compute; reflexivity. Qed.

(** A markdown cell that holds an ideographic space only is blank for
    [strip]: it is counted, never as identical, and the check passes. *)
Example scenario_ideographic_space :
  let nb := notebook [markdown_cell [Str [12288%N]]] in
  validate_markdown_translated nb nb [] = (Ok True_, []).
Proof. vm_compute. reflexivity. Qed.

(** A no-break space or a line separator around the text is stripped as
    well. *)
Example scenario_strip :
  strip (Str [160; 8232; 72; 105; 32; 33; 12288; 133]%N) = Str [72; 105; 32; 33]%N.
Proof. vm_compute. reflexivity. Qed.

(** [NaN] is not equal to [NaN], and a list that holds it is equal to a
    list that holds it: two cells of kind [[NaN]] are of the same kind for
    [validate_cell_types], two cells of kind [NaN] are not. *)
Example scenario_nan_kinds :
  let nan := JFloat S754_nan in
  let cell kind := JObj [("cell_type", kind); ("source", JArr [])] in
  validate_cell_types (notebook [cell (JArr [nan])])
    (notebook [cell (JArr [nan])]) [] = (Ok True_, [])
  /\ validate_cell_types (notebook [cell nan]) (notebook [cell nan]) [] =
     (Ok False_, [CellTypeMismatches [(0, nan, nan)]]).
Proof. split; vm_compute; reflexivity. Qed.

(** A translation with a surrogate in a markdown cell: the loop copies one
    result, the write fails, and nothing is returned. *)
Example scenario_write_fails :
  (exists translated',
      sync_cells original_short translated_surrogate = Ok (translated', 1))
  /\ sync_notebook_outputs original_short translated_surrogate
     = Raise UnicodeEncodeError.
Proof. split; [eexists|]; vm_compute; reflexivity. Qed.

End Scenarios.

(* ===================================================================== *)
(** * More on the synchroniser *)
(* ===================================================================== *)

Module SyncMore.
Import Py Notebook Sync SyncLoop Readings.
Import PyFacts SyncFacts SyncProperties Examples.

Lemma field_store_cell k nb i c :
  k <> "cells" -> field k (store_cell nb i c) = field k nb.
Proof.
  intros Hk. unfold field, store_cell.
  destruct nb; try done.
  destruct (dict_get "cells" fields) as [[]|]; try done.
  apply dict_get_set_ne. congruence.
Qed.

(** The keys of the notebook other than ['cells'] go through the loop. *)
Lemma sync_loop_top_level o t m st k :
  k <> "cells" ->
  py_range (sync_iteration o) m (t, 0) = Ok st ->
  field k (fst st) = field k t.
Proof.
  intros Hk.
  apply (py_range_invariant (fun _ st => field k (fst st) = field k t)).
  - done.
  - intros j [tk ck] st2 _ IH Hstep. cbn [fst] in *.
    apply sync_iteration_inv in Hstep as (oc & tc & r & _ & _ & _ & ->).
    cbn [fst]. by rewrite field_store_cell.
Qed.

(** X1. At an aligned index where both cells are code cells and the
    original has an ['outputs'] field of positive length, the translated
    cell has after the run the ['outputs'] of the original. *)
Theorem sync_copies_results original translated translated' n i
    orig_cell trans_cell
    (Hsync : sync_notebook_outputs original translated = Ok (translated', n))
    (Ho : cell_at original i = Some orig_cell)
    (Ht : cell_at translated i = Some trans_cell)
    (Hocode : is_code orig_cell = true)
    (Htcode : is_code trans_cell = true)
    (Hres : has_results orig_cell = true) :
  exists trans_cell',
    cell_at translated' i = Some trans_cell'
    /\ field "outputs" trans_cell' = field "outputs" orig_cell.
Proof.
  destruct (synced_cell _ _ _ _ _ _ _ Hsync Ho Ht) as (r & Hr & Hi).
  exists (fst r). split; [done|].
  rewrite (sync_cell_outputs orig_cell trans_cell r) by done.
  by rewrite Hres.
Qed.

Lemma sync_copies_results_witness :
  exists trans_cell',
    cell_at synced_a 0 = Some trans_cell'
    /\ field "outputs" trans_cell' = Some (JArr [stream "1"; stream "done"]).
Proof.
  apply (sync_copies_results original_a translated_a synced_a 1 0
           (code_cell ["x = 1"; "print(x)"] [stream "1"; stream "done"] (JInt 1))
           (code_cell ["x = 1"; "print(x)"] [] JNull));
    vm_compute; reflexivity.
Defined.

(** X2. A run changes nothing but the ['outputs'] and ['execution_count']
    of translated code cells that face a code cell: the other keys of the
    notebook and the number of cells stay, every other field of every cell
    stays, and a cell that faces no cell, or is not one of two code cells,
    stays as a whole. *)
Theorem sync_changes_only_copied_fields original translated translated' n
    (Hsync : sync_notebook_outputs original translated = Ok (translated', n)) :
  (forall k, k <> "cells" -> field k translated' = field k translated)
  /\ cell_count translated' = cell_count translated
  /\ (forall i trans_cell,
        cell_at translated i = Some trans_cell ->
        exists trans_cell',
          cell_at translated' i = Some trans_cell'
          /\ (forall k, k <> "outputs" -> k <> "execution_count" ->
                        field k trans_cell' = field k trans_cell)
          /\ (match cell_at original i with
              | Some orig_cell =>
                  is_code orig_cell && is_code trans_cell = false
              | None => True
              end -> trans_cell' = trans_cell)).
Proof.
  pose proof (sync_spec _ _ _ _ Hsync) as (_ & Hlen & Hrest & Hdone).
  cbn [fst] in *.
  split; [|split].
  - intros k Hk. apply sync_inv in Hsync as [Hsync _].
    unfold sync_cells in Hsync.
    apply bind_ok in Hsync as (m & _ & Hrun).
    by apply (sync_loop_top_level _ _ _ _ k Hk) in Hrun.
  - unfold cell_count. by rewrite Hlen.
  - intros i tc Ht.
    destruct (decide (i < cell_count original `min` cell_count translated))
      as [Hi|Hi].
    + destruct (Hdone i Hi) as (oc & tc0 & r & Ho & Ht0 & Hr & Hi').
      simplify_eq. exists (fst r). split; [done|]. split.
      * intros k H1 H2. by apply (sync_cell_frame oc).
      * rewrite Ho. intros Hk.
        by rewrite (sync_cell_skips oc tc r Hr Hk).
    + exists tc. split; [|done].
      rewrite Hrest by lia. done.
Qed.

Lemma sync_changes_only_copied_fields_witness :
  field "nbformat" synced_a = field "nbformat" translated_a
  /\ cell_at synced_a 1 = Some (markdown_cell ["# Titre"]).
Proof.
  destruct (sync_changes_only_copied_fields original_a translated_a synced_a 1)
    as (Htop & _ & Hcells); [vm_compute; reflexivity|].
  split; [by apply Htop|].
  destruct (Hcells 1 (markdown_cell ["# Titre"])) as (tc' & -> & _ & Hsame);
    [vm_compute; reflexivity|].
  f_equal. apply Hsame. vm_compute. reflexivity.
Defined.

(** ** When the run ends normally *)

Lemma sync_cell_syncable oc tc :
  (exists r, sync_cell oc tc = Ok r) <-> syncable oc tc = true.
Proof.
  unfold syncable. split.
  - intros [r H]. destruct oc, tc; unfold_cell; crunch.
  - intros H. destruct oc as [| | | | | |od]; try done.
    destruct (is_code (JObj od)) eqn:Ho.
    + destruct tc as [| | | | | |td]; try done.
      destruct (is_code (JObj td)) eqn:Ht.
      * rewrite sync_cell_code; [by eexists|done|done|].
        intros v Hv. rewrite Hv in H. destruct (py_len v); [by eexists|done].
      * exists (JObj td, 0). unfold_cell.
        destruct (dict_get "cell_type" od) as [x|]; simpl in *;
          [destruct (py_eq x (JStr "code"))|]; simpl in *; try done.
        destruct (dict_get "cell_type" td) as [y|]; simpl in *;
          [destruct (py_eq y (JStr "code"))|]; simpl in *; done.
    + exists (tc, 0). unfold_cell.
      destruct (dict_get "cell_type" od) as [x|]; simpl in *;
        [destruct (py_eq x (JStr "code"))|]; simpl in *; done.
Qed.

(** On two notebooks whose cells are lists, the loop ends normally exactly
    when its body can handle every aligned pair. *)
Lemma sync_cells_returns_iff original translated orig_cells trans_cells :
  notebook_cells original = Some orig_cells ->
  notebook_cells translated = Some trans_cells ->
  (exists translated' n, sync_cells original translated = Ok (translated', n))
  <-> (forall i orig_cell trans_cell,
          orig_cells !! i = Some orig_cell ->
          trans_cells !! i = Some trans_cell ->
          syncable orig_cell trans_cell = true).
Proof.
  intros Ho Ht. split.
  - intros (t' & n & Hsync) i oc tc Hoc Htc.
    apply sync_cell_syncable.
    destruct (sync_cells_spec _ _ _ _ Hsync) as (_ & _ & _ & Hdone).
    destruct (Hdone i) as (oc' & tc' & r & Ho' & Ht' & Hr & _).
    { rewrite <- (cell_at_list _ _ _ Ho) in Hoc.
      rewrite <- (cell_at_list _ _ _ Ht) in Htc.
      apply cell_at_lt in Hoc, Htc. lia. }
    rewrite (cell_at_list _ _ _ Ho) in Ho'.
    rewrite (cell_at_list _ _ _ Ht) in Ht'.
    exists r. by simplify_eq.
  - intros Hall. unfold sync_cells.
    rewrite (min_cells_lists _ _ _ _ Ho Ht). cbn [bind].
    destruct (py_range_total
                (fun k st => exists l, notebook_cells (fst st) = Some l
                                       /\ length l = length trans_cells
                                       /\ forall i, k <= i ->
                                                     l !! i = trans_cells !! i)
                (sync_iteration original)
                (length orig_cells `min` length trans_cells) (translated, 0))
      as ([t' n] & Hrun & _).
    + by exists trans_cells.
    + intros k [tk ck] Hk (l & Hl & Hlen & Hrest). cbn [fst] in *.
      destruct (lookup_lt_is_Some_2 orig_cells k) as [oc Hoc]; [lia|].
      destruct (lookup_lt_is_Some_2 trans_cells k) as [tc Htc]; [lia|].
      destruct (proj2 (sync_cell_syncable oc tc) (Hall k oc tc Hoc Htc))
        as [r Hr].
      eexists. split.
      * apply (sync_iteration_ok original k tk ck oc tc r); [| |done].
        -- by rewrite (cell_at_list _ _ _ Ho).
        -- rewrite (cell_at_list _ _ _ Hl). rewrite Hrest by lia. done.
      * cbn [fst]. exists (<[k:=fst r]> l). split; [|split].
        -- by apply notebook_cells_store.
        -- by rewrite length_insert.
        -- intros i Hi. rewrite list_lookup_insert_ne by lia.
           apply Hrest. lia.
    + by exists t', n.
Qed.

(** ** The notebook the run writes *)

Lemma sync_cell_synced oc tc r : sync_cell oc tc = Ok r -> fst r = synced oc tc.
Proof.
  intros Hr. unfold synced.
  destruct (sync_cell_inv _ _ _ Hr)
    as [[Hk ->]|(od & td & -> & -> & Ho & Ht & _ & ->)].
  - cbn [fst]. destruct oc; try done. destruct tc; try done. by rewrite Hk.
  - cbn [fst]. by rewrite Ho, Ht.
Qed.

Lemma synced_upto_0 ocs tcs : synced_upto 0 ocs tcs = tcs.
Proof. by destruct ocs, tcs. Qed.

Lemma synced_upto_lookup k ocs tcs i :
  k <= i -> synced_upto k ocs tcs !! i = tcs !! i.
Proof.
  revert ocs tcs i. induction k as [|k IH]; intros ocs tcs i Hi.
  - by rewrite synced_upto_0.
  - destruct ocs as [|oc ocs], tcs as [|tc tcs]; try done.
    destruct i as [|i]; [lia|]. simpl. apply IH. lia.
Qed.

Lemma synced_upto_S k ocs tcs oc tc :
  ocs !! k = Some oc -> tcs !! k = Some tc ->
  <[k:=synced oc tc]> (synced_upto k ocs tcs) = synced_upto (S k) ocs tcs.
Proof.
  revert ocs tcs. induction k as [|k IH]; intros ocs tcs Ho Ht.
  - destruct ocs, tcs; simplify_eq/=. done.
  - destruct ocs as [|oc0 ocs], tcs as [|tc0 tcs]; try done.
    change (synced_upto (S (S k)) (oc0 :: ocs) (tc0 :: tcs))
      with (synced oc0 tc0 :: synced_upto (S k) ocs tcs).
    rewrite <- (IH ocs tcs) by done. done.
Qed.

Lemma synced_upto_all k ocs tcs :
  length ocs `min` length tcs <= k -> synced_upto k ocs tcs = synced_cells ocs tcs.
Proof.
  revert ocs tcs. induction k as [|k IH]; intros ocs tcs Hk.
  - rewrite synced_upto_0. destruct ocs, tcs; try done. simpl in Hk. lia.
  - destruct ocs as [|oc ocs], tcs as [|tc tcs]; try done.
    simpl. f_equal. apply IH. simpl in Hk. lia.
Qed.

Lemma with_cells_same nb l : notebook_cells nb = Some l -> with_cells nb l = nb.
Proof.
  unfold notebook_cells, with_cells. destruct nb; try done.
  destruct (dict_get "cells" fields) as [[]|] eqn:E; try done.
  intros [= ->]. by rewrite dict_set_id.
Qed.

Lemma store_with_cells nb l l0 i c :
  notebook_cells nb = Some l0 ->
  store_cell (with_cells nb l) i c = with_cells nb (<[i:=c]> l).
Proof.
  unfold notebook_cells, with_cells, store_cell. destruct nb; try done.
  destruct (dict_get "cells" fields) as [[]|] eqn:E; try done.
  intros _. by rewrite dict_get_set_eq, dict_set_twice.
Qed.

Lemma notebook_cells_with nb l l0 :
  notebook_cells nb = Some l0 -> notebook_cells (with_cells nb l) = Some l.
Proof.
  unfold notebook_cells, with_cells. destruct nb; try done.
  destruct (dict_get "cells" fields) as [[]|] eqn:E; try done.
  intros _. by rewrite dict_get_set_eq.
Qed.

(** On two notebooks whose cells are lists, the notebook the loop leaves
    is the translated one with every aligned cell as the body leaves it. *)
Lemma sync_cells_closed original translated orig_cells trans_cells t' n :
  notebook_cells original = Some orig_cells ->
  notebook_cells translated = Some trans_cells ->
  sync_cells original translated = Ok (t', n) ->
  t' = with_cells translated (synced_cells orig_cells trans_cells).
Proof.
  intros Ho Ht Hsync. unfold sync_cells in Hsync.
  rewrite (min_cells_lists _ _ _ _ Ho Ht) in Hsync. cbn [bind] in Hsync.
  apply (py_range_invariant
           (fun k st => fst st = with_cells translated
                                   (synced_upto k orig_cells trans_cells)))
    in Hsync.
  - cbn [fst] in Hsync. by rewrite synced_upto_all in Hsync.
  - cbn [fst]. by rewrite synced_upto_0, with_cells_same.
  - intros k [tk ck] st2 Hk IH Hstep. cbn [fst] in *.
    apply sync_iteration_inv in Hstep as (oc & tc & r & Hoc & Htc & Hr & ->).
    cbn [fst]. subst tk.
    rewrite (cell_at_list _ _ _ Ho) in Hoc.
    rewrite (cell_at_list _ _ _ (notebook_cells_with _ _ _ Ht)) in Htc.
    rewrite synced_upto_lookup in Htc by done.
    rewrite (store_with_cells _ _ _ _ _ Ht).
    rewrite (sync_cell_synced _ _ _ Hr).
    by rewrite synced_upto_S.
Qed.

(** X3. On two notebooks whose cells are lists, [sync_notebook_outputs]
    returns exactly when two things hold.  Every aligned pair of cells is
    one its loop body can handle: the original cell is a dict, the
    translated cell facing an original code cell is a dict, and where both
    are code cells the ['outputs'] of the original, if present, has a
    length.  And the notebook it then writes, the translated one with each
    aligned cell as the body leaves it, holds no string, key or value, with
    a surrogate code point, which [json.dump] cannot encode. *)
Theorem sync_returns_iff original translated orig_cells trans_cells
    (Ho : notebook_cells original = Some orig_cells)
    (Ht : notebook_cells translated = Some trans_cells) :
  (exists translated' n,
      sync_notebook_outputs original translated = Ok (translated', n))
  <-> ((forall i orig_cell trans_cell,
           orig_cells !! i = Some orig_cell ->
           trans_cells !! i = Some trans_cell ->
           syncable orig_cell trans_cell = true)
       /\ writable (with_cells translated
                      (synced_cells orig_cells trans_cells)) = true).
Proof.
  split.
  - intros (t' & n & Hsync). apply sync_inv in Hsync as [Hcells Hw].
    split.
    + apply (sync_cells_returns_iff original translated); [done|done|].
      by exists t', n.
    + by rewrite <- (sync_cells_closed _ _ _ _ _ _ Ho Ht Hcells).
  - intros [Hall Hw].
    destruct (proj2 (sync_cells_returns_iff _ _ _ _ Ho Ht) Hall)
      as (t' & n & Hcells).
    exists t', n. apply sync_inv. split; [done|].
    by rewrite (sync_cells_closed _ _ _ _ _ _ Ho Ht Hcells).
Qed.

Lemma sync_returns_iff_witness :
  (exists translated' n,
      sync_notebook_outputs original_a translated_a = Ok (translated', n))
  <-> ((forall i orig_cell trans_cell,
           [code_cell ["x = 1"; "print(x)"] [stream "1"; stream "done"] (JInt 1);
            markdown_cell ["# Title"];
            code_cell ["y = 2"] [] JNull] !! i = Some orig_cell ->
           [code_cell ["x = 1"; "print(x)"] [] JNull;
            markdown_cell ["# Titre"];
            code_cell ["y = 2"] [stream "old"] (JInt 7)] !! i = Some trans_cell ->
           syncable orig_cell trans_cell = true)
       /\ writable synced_a = true).
Proof.
  apply (sync_returns_iff original_a translated_a); reflexivity.
Defined.

End SyncMore.

(* ===================================================================== *)
(** * More on the validator *)
(* ===================================================================== *)

Module ValidateMore.
Import Py Notebook Validate Checks Readings.
Import PyFacts ValidateFacts ValidateProperties Examples.

(** ** The kind-alignment check *)

Lemma cell_types_body_spec i p mism mism' :
  cell_types_body i p mism = Ok mism' -> mism' = mism ++ type_line i p.
Proof.
  destruct p as [oc tc]. unfold cell_types_body, type_line, kind_of.
  cbn [fst snd]. intros H.
  destruct (py_get oc "cell_type" JNull) as [a|]; simpl in *; [|done].
  destruct (py_get tc "cell_type" JNull) as [b|]; simpl in *; [|done].
  destruct (py_eq a b); simpl in *; simplify_eq; by rewrite ?app_nil_r.
Qed.

Lemma cell_types_loop ps mism :
  py_for cell_types_body 0 ps [] = Ok mism ->
  mism = concat (imap type_line ps).
Proof.
  apply (py_for_invariant (fun pre m => m = concat (imap type_line pre))).
  - done.
  - intros pre p m1 m2 -> Hb. apply cell_types_body_spec in Hb as ->.
    rewrite imap_app, concat_app. simpl.
    by rewrite Nat.add_0_r, app_nil_r.
Qed.

Lemma in_type_line i a b j p :
  In (i, a, b) (type_line j p) <->
  i = j /\ kind_of (fst p) = Ok a /\ kind_of (snd p) = Ok b
  /\ py_eq a b = false.
Proof.
  unfold type_line.
  destruct (kind_of (fst p)) as [x|]; [|by split; [|intros (_ & [=] & _)]].
  destruct (kind_of (snd p)) as [y|]; [|by split; [|intros (_ & _ & [=] & _)]].
  destruct (py_eq x y) eqn:E; simpl.
  - split; [done|]. intros (_ & [= <-] & [= <-] & ?). congruence.
  - split.
    + by intros [[= <- <- <-]|[]].
    + intros (-> & [= ->] & [= ->] & _). by left.
Qed.

Lemma type_positions co ct i a b :
  In (i, a, b) (concat (imap type_line (zip co ct))) <->
  kinds_differ_at co ct i a b.
Proof.
  rewrite in_concat_imap. unfold kinds_differ_at. split.
  - intros (j & p & Hp & Hin).
    apply in_type_line in Hin as (-> & ? & ? & ?).
    apply lookup_zip_pair in Hp as [? ?].
    by exists (fst p), (snd p).
  - intros (oc & tc & ? & ? & ? & ? & ?). exists i, (oc, tc). split.
    + by apply lookup_zip_pair.
    + by apply in_type_line.
Qed.

(** X4. On two notebooks whose cells are lists, the kind-alignment check,
    when it returns, is [False] exactly when at some aligned index the two
    ['cell_type'] values are not equal; its one issue then lists exactly
    those indices, each with both kinds; otherwise it is [True] and records
    nothing. *)
Theorem cell_types_check_spec
    original translated orig_cells trans_cells issues v issues'
    (Ho : notebook_cells original = Some orig_cells)
    (Ht : notebook_cells translated = Some trans_cells)
    (Hrun : validate_cell_types original translated issues = (Ok v, issues')) :
  (v = False_ <-> exists i a b, kinds_differ_at orig_cells trans_cells i a b)
  /\ exists mismatches,
       (forall i a b, In (i, a, b) mismatches <->
                      kinds_differ_at orig_cells trans_cells i a b)
       /\ ((v = True_ /\ mismatches = [] /\ issues' = issues)
           \/ (v = False_
               /\ issues' = issues ++ [CellTypeMismatches mismatches])).
Proof.
  unfold validate_cell_types, mbind, lift, ret, append_issue in Hrun.
  rewrite (zipped_cells_lists _ _ _ _ Ho Ht) in Hrun. simpl in Hrun.
  destruct (py_for cell_types_body 0 (zip orig_cells trans_cells) [])
    as [mism|] eqn:E; simpl in Hrun; [|done].
  apply cell_types_loop in E as ->.
  pose proof (type_positions orig_cells trans_cells) as Hpos.
  destruct (concat (imap type_line (zip orig_cells trans_cells)))
    as [|[[i a] b] mism] eqn:E; simplify_eq.
  - split.
    + split; [done|]. intros (i & a & b & Hi). by apply Hpos in Hi.
    + exists []. split; [done|]. by left.
  - split.
    + split; [|done]. intros _. exists i, a, b. apply Hpos. by left.
    + exists ((i, a, b) :: mism). split; [done|]. by right.
Qed.

Lemma cell_types_check_spec_witness :
  False_ = False_ <->
  exists i a b,
    kinds_differ_at [code_cell ["x = 1"] [stream "1"] (JInt 1)]
      [markdown_cell ["x = 2"]] i a b.
Proof.
  apply (cell_types_check_spec original_mismatch translated_mismatch
           [code_cell ["x = 1"] [stream "1"] (JInt 1)]
           [markdown_cell ["x = 2"]] [] False_
           [CellTypeMismatches [(0, JStr "code", JStr "markdown")]]).
  - reflexivity.
  - reflexivity.
  - vm_compute. reflexivity.
Defined.

(** ** Booleans and issues *)

Ltac split_test :=
  match goal with
  | |- context [match ?x with _ => _ end] =>
      lazymatch x with
      | context [match _ with _ => _ end] => fail
      | context [bind _ _] => fail
      | _ => destruct x eqn:?
      end
  | |- context [bind ?x _] =>
      lazymatch x with
      | context [match _ with _ => _ end] => fail
      | context [bind _ _] => fail
      | _ => destruct x eqn:?
      end
  end.

Ltac outcome :=
  unfold guarded, mbind, lift, ret, append_issue;
  repeat (simpl; try (left; reflexivity); try (right; eexists; reflexivity);
          split_test).

Section Outcomes.
Variables original translated : json.

Lemma outcome_cell_count name :
  boolean_outcome name (validate_cell_count original translated).
Proof. unfold boolean_outcome, validate_cell_count. outcome. Qed.

Lemma outcome_cell_types name :
  boolean_outcome name (validate_cell_types original translated).
Proof. unfold boolean_outcome, validate_cell_types. outcome. Qed.

Lemma outcome_code_cells name :
  boolean_outcome name (validate_code_cells original translated).
Proof. unfold boolean_outcome, validate_code_cells. outcome. Qed.

Lemma outcome_markdown_translated name :
  boolean_outcome name (validate_markdown_translated original translated).
Proof. unfold boolean_outcome, validate_markdown_translated. outcome. Qed.

Lemma outcome_outputs_present name :
  boolean_outcome name (validate_outputs_present original translated).
Proof. unfold boolean_outcome, validate_outputs_present. outcome. Qed.

(** [validate_metadata] on its own: [None] with at most the kernel warning,
    or [False] with the exception it raised. *)
Lemma outcome_metadata :
  guarded "Metadata" (validate_metadata original translated) = (JNull, [])
  \/ (exists a b, guarded "Metadata" (validate_metadata original translated)
                  = (JNull, [KernelMismatch a b]))
  \/ (exists e, guarded "Metadata" (validate_metadata original translated)
                = (False_, [ValidationError "Metadata" e])).
Proof.
  unfold validate_metadata, guarded, mbind, lift, ret, append_issue.
  repeat (simpl; try (left; reflexivity);
          try (right; left; do 2 eexists; reflexivity);
          try (right; right; eexists; reflexivity);
          split_test).
Qed.

End Outcomes.

(** X5. Whatever the pair, [run_all_validations] on a fresh validator
    returns a mapping with exactly the six names, in order, and the five
    validations that return booleans do get [True] or [False].  The
    booleans and [self.issues] agree: if no issue is recorded, the five are
    [True]; and if the five are [True], the issues are at most the one
    kernel warning or the one error of the metadata check. *)
Theorem results_and_issues_agree original translated :
  let r := run_all_validations original translated [] in
  dict_keys (fst r) =
    ["Cell count"; "Cell types"; "Code cells"; "Markdown translation";
     "Outputs present"; "Metadata"]
  /\ (forall name, In name boolean_checks ->
         dict_get name (fst r) = Some True_
         \/ dict_get name (fst r) = Some False_)
  /\ (snd r = [] ->
      forall name, In name boolean_checks ->
                   dict_get name (fst r) = Some True_)
  /\ ((forall name, In name boolean_checks ->
                    dict_get name (fst r) = Some True_) ->
      snd r = []
      \/ (exists a b, snd r = [KernelMismatch a b])
      \/ (exists e, snd r = [ValidationError "Metadata" e])).
Proof.
  cbv zeta. rewrite run_all_validations_spec.
  unfold validations, boolean_checks. cbn [foldl map concat fst snd app].
  destruct (outcome_cell_count original translated "Cell count")
    as [->|[x1 ->]];
  destruct (outcome_cell_types original translated "Cell types")
    as [->|[x2 ->]];
  destruct (outcome_code_cells original translated "Code cells")
    as [->|[x3 ->]];
  destruct (outcome_markdown_translated original translated
              "Markdown translation") as [->|[x4 ->]];
  destruct (outcome_outputs_present original translated "Outputs present")
    as [->|[x5 ->]];
  destruct (outcome_metadata original translated)
    as [->|[(a & b & ->)|(e & ->)]];
  cbn;
  (split; [reflexivity|]);
  (split; [intros name [<-|[<-|[<-|[<-|[<-|[]]]]]]; cbn; auto|]);
  (split; [intros Hnil; try discriminate Hnil;
           intros name [<-|[<-|[<-|[<-|[<-|[]]]]]]; reflexivity|]);
  intros Hall;
  try (left; reflexivity);
  try (right; left; do 2 eexists; reflexivity);
  try (right; right; eexists; reflexivity);
  exfalso;
  first
    [ by specialize (Hall "Cell count" ltac:(cbn; tauto))
    | by specialize (Hall "Cell types" ltac:(cbn; tauto))
    | by specialize (Hall "Code cells" ltac:(cbn; tauto))
    | by specialize (Hall "Markdown translation" ltac:(cbn; tauto))
    | by specialize (Hall "Outputs present" ltac:(cbn; tauto)) ].
Qed.

(** ** The excerpts of the code check *)

Lemma slice_to_all n s : str_len s <= n -> slice_to n s = s.
Proof.
  destruct s as [l]. unfold slice_to, str_len. simpl. intros H.
  by rewrite take_ge.
Qed.

Lemma in_code_lines_original s j p :
  In (OriginalExcerpt s) (code_lines j p) <->
  is_code (fst p) = true /\ differing_source p = true
  /\ cell_source (fst p) = Ok s /\ str_len s < 100.
Proof.
  unfold code_lines, differing_source.
  destruct (is_code (fst p)); [|by split; [|intros ([=] & _)]].
  destruct (cell_source (fst p)) as [a|]; [|by split; [|intros (_ & [=] & _)]].
  destruct (cell_source (snd p)) as [b|]; [|by split; [|intros (_ & [=] & _)]].
  destruct (str_eqb a b); simpl; [by split; [|intros (_ & [=] & _)]|].
  destruct (str_len a <? 100)%nat eqn:E.
  - apply Nat.ltb_lt in E. rewrite (slice_to_all 100 a) by lia. split.
    + intros [[=]|[[= <-]|[[=]|[]]]]. done.
    + intros (_ & _ & [= ->] & _). right. by left.
  - apply Nat.ltb_ge in E. split.
    + by intros [[=]|[]].
    + intros (_ & _ & [= ->] & ?). lia.
Qed.

Lemma in_code_lines_translated s j p :
  In (TranslatedExcerpt s) (code_lines j p) <->
  is_code (fst p) = true /\ differing_source p = true
  /\ exists a b, cell_source (fst p) = Ok a /\ cell_source (snd p) = Ok b
                /\ str_len a < 100 /\ s = slice_to 100 b.
Proof.
  unfold code_lines, differing_source.
  destruct (is_code (fst p)); [|by split; [|intros ([=] & _)]].
  destruct (cell_source (fst p)) as [a|];
    [|by split; [|intros (_ & _ & ? & ? & [=] & _)]].
  destruct (cell_source (snd p)) as [b|];
    [|by split; [|intros (_ & _ & ? & ? & _ & [=] & _)]].
  destruct (str_eqb a b); simpl; [by split; [|intros (_ & [=] & _)]|].
  destruct (str_len a <? 100)%nat eqn:E.
  - apply Nat.ltb_lt in E. split.
    + intros [[=]|[[=]|[[= <-]|[]]]]. repeat split. by exists a, b.
    + intros (_ & _ & a' & b' & [= <-] & [= <-] & _ & ->). right. right. by left.
  - apply Nat.ltb_ge in E. split.
    + by intros [[=]|[]].
    + intros (_ & _ & a' & b' & [= <-] & _ & ? & _). lia.
Qed.

(** X6. In the issue of a failed code-identity check, the original
    excerpts are exactly the sources, in full, of the flagged original code
    cells with fewer than 100 characters, and the translated excerpts are
    the first 100 characters of the sources facing them: the slice never
    shortens the original, and a flagged cell of 100 characters or more
    gets no excerpt. *)
Theorem code_excerpts_are_whole
    original translated orig_cells trans_cells issues lines
    (Ho : notebook_cells original = Some orig_cells)
    (Ht : notebook_cells translated = Some trans_cells)
    (Hrun : validate_code_cells original translated issues
            = (Ok False_, issues ++ [CodeCellMismatches lines])) :
  (forall s, In (OriginalExcerpt s) lines <->
             exists i orig_cell,
               orig_cells !! i = Some orig_cell
               /\ code_differs_at orig_cells trans_cells i
               /\ cell_source orig_cell = Ok s /\ str_len s < 100)
  /\ (forall s, In (TranslatedExcerpt s) lines <->
                exists i orig_cell trans_cell a b,
                  orig_cells !! i = Some orig_cell
                  /\ trans_cells !! i = Some trans_cell
                  /\ code_differs_at orig_cells trans_cells i
                  /\ cell_source orig_cell = Ok a
                  /\ cell_source trans_cell = Ok b
                  /\ str_len a < 100 /\ s = slice_to 100 b).
Proof.
  apply validate_code_cells_inv in Hrun as (ps & Hps & Hend).
  rewrite (zipped_cells_lists _ _ _ _ Ho Ht) in Hps. simplify_eq.
  destruct (concat (imap code_lines (zip orig_cells trans_cells)))
    as [|x l] eqn:E; [by destruct Hend|].
  destruct Hend as [_ Hl]. apply app_inv_head in Hl. simplify_eq.
  rewrite <- E. clear E. split; intros s; rewrite in_concat_imap.
  - split.
    + intros (i & [oc tc] & Hp & Hin).
      apply in_code_lines_original in Hin as (? & ? & ? & ?).
      apply lookup_zip_pair in Hp as [? ?]. simpl in *.
      exists i, oc. repeat split; try done. by exists oc, tc.
    + intros (i & oc & Hoc & (oc' & tc & ? & ? & ? & ?) & ? & ?).
      simplify_eq. exists i, (oc, tc). split.
      * by apply lookup_zip_pair.
      * by apply in_code_lines_original.
  - split.
    + intros (i & [oc tc] & Hp & Hin).
      apply in_code_lines_translated
        in Hin as (? & ? & a & b & ? & ? & ? & ?).
      apply lookup_zip_pair in Hp as [? ?]. simpl in *.
      exists i, oc, tc, a, b. repeat split; try done. by exists oc, tc.
    + intros (i & oc & tc & a & b & Hoc & Htc
              & (oc' & tc' & ? & ? & ? & ?) & ? & ? & ? & ?).
      simplify_eq. exists i, (oc, tc). split.
      * by apply lookup_zip_pair.
      * apply in_code_lines_translated. repeat split; try done.
        by exists a, b.
Qed.

Lemma code_excerpts_are_whole_witness :
  In (OriginalExcerpt "x = 1")
     [CodeDiffers 0; OriginalExcerpt "x = 1"; TranslatedExcerpt "x = 2"] <->
  exists i orig_cell,
    [code_cell ["x = 1"] [stream "1"] (JInt 1)] !! i = Some orig_cell
    /\ code_differs_at [code_cell ["x = 1"] [stream "1"] (JInt 1)]
         [markdown_cell ["x = 2"]] i
    /\ cell_source orig_cell = Ok "x = 1" /\ str_len "x = 1" < 100.
Proof.
  apply (code_excerpts_are_whole original_mismatch translated_mismatch
           [code_cell ["x = 1"] [stream "1"] (JInt 1)]
           [markdown_cell ["x = 2"]] []
           [CodeDiffers 0; OriginalExcerpt "x = 1"; TranslatedExcerpt "x = 2"]).
  - reflexivity.
  - reflexivity.
  - vm_compute. reflexivity.
Defined.

(** ** The translation-coverage check, blank cells included *)

(** X14. On two notebooks whose cells are lists, the translation-coverage
    check, when it returns, is [False] exactly when some original cell is
    markdown and every original markdown cell has a source that is not
    blank and equals the source of the cell facing it; it then records the
    one issue with the number of original markdown cells.  In particular
    it is [True] as soon as one original markdown cell is blank, whatever
    the other cells are. *)
Theorem markdown_check_with_blank_cells
    original translated orig_cells trans_cells issues v issues'
    (Ho : notebook_cells original = Some orig_cells)
    (Ht : notebook_cells translated = Some trans_cells)
    (Hrun : validate_markdown_translated original translated issues
            = (Ok v, issues')) :
  let considered := markdown_pairs (zip orig_cells trans_cells) in
  (v = False_ <->
   considered <> []
   /\ forall p, In p considered ->
                blank_source (fst p) = false /\ same_source p = true)
  /\ ((v = False_
       /\ issues' = issues ++ [AllMarkdownIdentical (length considered)])
      \/ (v = True_ /\ issues' = issues))
  /\ ((exists p, In p considered /\ blank_source (fst p) = true) ->
      v = True_).
Proof.
  cbv zeta.
  apply validate_markdown_translated_inv in Hrun as (ps & Hps & Hend).
  rewrite (zipped_cells_lists _ _ _ _ Ho Ht) in Hps. simplify_eq.
  cbv zeta in Hend.
  set (mp := markdown_pairs (zip orig_cells trans_cells)) in *.
  set (g := fun p : json * json =>
              negb (blank_source (fst p)) && same_source p) in *.
  assert (Hall : length (List.filter g mp) = length mp <->
                 forall p, In p mp ->
                           blank_source (fst p) = false /\ same_source p = true).
  { rewrite filter_length_all. unfold g. split; intros H p Hp.
    - specialize (H p Hp). apply andb_true_iff in H as [H1 H2].
      by apply negb_true_iff in H1.
    - destruct (H p Hp) as [-> ->]. done. }
  destruct ((0 <? length mp)%nat && (length (List.filter g mp) =? length mp)%nat)
    eqn:E.
  - destruct Hend as [-> ->].
    apply andb_true_iff in E as [Hpos Heq].
    apply Nat.ltb_lt in Hpos. apply Nat.eqb_eq in Heq.
    split; [|split; [by left|]].
    + split; [|done]. intros _. split.
      * intros Hnil. rewrite Hnil in Hpos. simpl in Hpos. lia.
      * by apply Hall.
    + intros (p & Hp & Hblank).
      destruct (proj1 Hall Heq p Hp) as [Hnb _]. congruence.
  - destruct Hend as [-> ->]. split; [|split; [by right|done]].
    split; [done|]. intros [Hne Hsame]. exfalso.
    apply Hall in Hsame. apply Nat.eqb_eq in Hsame.
    rewrite Hsame, andb_true_r in E. apply Nat.ltb_ge in E.
    destruct mp; [done|simpl in E; lia].
Qed.

Lemma markdown_check_with_blank_cells_witness :
  (True_ = False_ /\ [] = [] ++ [AllMarkdownIdentical 2])
  \/ (True_ = True_ /\ @nil issue = []).
Proof.
  apply (markdown_check_with_blank_cells original_blank translated_blank
           [markdown_cell []; markdown_cell ["Hello"]]
           [markdown_cell []; markdown_cell ["Hello"]] [] True_ []).
  - reflexivity.
  - reflexivity.
  - vm_compute. reflexivity.
Defined.

End ValidateMore.

(* ===================================================================== *)
(** * Synchronising, then validating *)
(* ===================================================================== *)

Module SyncThenValidate.
Import Py Notebook Sync SyncLoop Validate Checks Readings.
Import PyFacts SyncFacts SyncProperties ValidateFacts ValidateProperties.
Import SyncMore Examples.

Lemma py_for_ext {S P} (body : nat -> P -> S -> result S) k ps ps' s :
  length ps = length ps' ->
  (forall i p p' s0, ps !! i = Some p -> ps' !! i = Some p' ->
                     body (k + i) p s0 = body (k + i) p' s0) ->
  py_for body k ps s = py_for body k ps' s.
Proof.
  revert ps' k s. induction ps as [|p ps IH]; intros [|p' ps'] k s Hlen Hext;
    simpl in *; try done.
  pose proof (Hext 0 p p' s eq_refl eq_refl) as H0.
  rewrite Nat.add_0_r in H0. rewrite <- H0.
  destruct (body k p s) as [s1|]; simpl; [|done].
  apply IH; [lia|]. intros i q q' s0 Hq Hq'.
  replace (Datatypes.S k + i) with (k + Datatypes.S i) by lia. by apply Hext.
Qed.

Lemma py_for_fixed {S P} (body : nat -> P -> S -> result S) k ps s :
  (forall i p, ps !! i = Some p -> body (k + i) p s = Ok s) ->
  py_for body k ps s = Ok s.
Proof.
  revert k. induction ps as [|p ps IH]; intros k Hfix; simpl; [done|].
  pose proof (Hfix 0 p eq_refl) as H0.
  rewrite Nat.add_0_r in H0. rewrite H0. simpl.
  apply IH. intros i q Hq.
  replace (Datatypes.S k + i) with (k + Datatypes.S i) by lia. by apply Hfix.
Qed.

(** The cells of the translated notebook after a run, for notebooks whose
    cells are lists. *)
Lemma sync_lists o t co ct t' n :
  notebook_cells o = Some co -> notebook_cells t = Some ct ->
  sync_notebook_outputs o t = Ok (t', n) ->
  exists ct',
    notebook_cells t' = Some ct' /\ length ct' = length ct
    /\ forall i oc tc tc',
         co !! i = Some oc -> ct !! i = Some tc -> ct' !! i = Some tc' ->
         exists r, sync_cell oc tc = Ok r /\ tc' = fst r.
Proof.
  intros Ho Ht Hsync.
  assert (Hl : exists ct', notebook_cells t' = Some ct').
  { pose proof (proj1 (sync_inv _ _ _ _) Hsync) as [Hcells _].
    unfold sync_cells in Hcells.
    apply bind_ok in Hcells as (m & _ & Hrun).
    apply (py_range_invariant
             (fun _ st => exists l, notebook_cells (fst st) = Some l))
      in Hrun; [done|by exists ct|].
    intros k [tk ck] st2 _ [l Hl] Hstep. cbn [fst] in *.
    apply sync_iteration_inv in Hstep as (oc & tc & r & _ & _ & _ & ->).
    exists (<[k:=fst r]> l). by apply notebook_cells_store. }
  destruct Hl as [ct' Hct']. exists ct'. split; [done|].
  pose proof (sync_spec _ _ _ _ Hsync) as (_ & Hlen & _). cbn [fst] in Hlen.
  split.
  - rewrite <- (cell_count_list _ _ Hct'), <- (cell_count_list _ _ Ht).
    unfold cell_count. by rewrite Hlen.
  - intros i oc tc tc' Hoc Htc Htc'.
    destruct (synced_cell o t t' n i oc tc) as (r & Hr & Hi);
      [done|by rewrite (cell_at_list _ _ _ Ho)
           |by rewrite (cell_at_list _ _ _ Ht)|].
    exists r. split; [done|].
    rewrite (cell_at_list _ _ _ Hct') in Hi. congruence.
Qed.

(** A synchronised cell answers [get] as before for every key that is not
    copied. *)
Lemma sync_cell_py_get oc tc r k d :
  sync_cell oc tc = Ok r ->
  k <> "outputs" -> k <> "execution_count" ->
  py_get (fst r) k d = py_get tc k d.
Proof.
  intros Hr H1 H2.
  pose proof (sync_cell_frame oc tc r k Hr H1 H2) as Hf.
  destruct (sync_cell_shape oc tc r Hr) as [->|(td & td' & -> & Htd')];
    [done|].
  rewrite Htd' in *. unfold py_get. simpl in Hf. by rewrite Hf.
Qed.

Lemma sync_cell_source oc tc r :
  sync_cell oc tc = Ok r -> cell_source (fst r) = cell_source tc.
Proof.
  intros Hr. unfold cell_source. by rewrite (sync_cell_py_get oc tc r).
Qed.

Section AfterSync.
Variables (original translated translated' : json) (n : nat).
Variables orig_cells trans_cells : list json.
Hypothesis Ho : notebook_cells original = Some orig_cells.
Hypothesis Ht : notebook_cells translated = Some trans_cells.
Hypothesis Hsync :
  sync_notebook_outputs original translated = Ok (translated', n).

(** The loop of a check ends the same way on the synchronised notebook
    when its body reads the translated cell through keys that are not
    copied. *)
Lemma loop_after_sync {S} (body : nat -> json * json -> S -> result S) s :
  (forall i oc tc r s0,
      sync_cell oc tc = Ok r ->
      body i (oc, fst r) s0 = body i (oc, tc) s0) ->
  (ps <- zipped_cells original translated' ;; py_for body 0 ps s) =
  (ps <- zipped_cells original translated ;; py_for body 0 ps s).
Proof.
  intros Hbody.
  destruct (sync_lists _ _ _ _ _ _ Ho Ht Hsync) as (ct' & Hct' & Hlen & Hrel).
  rewrite (zipped_cells_lists _ _ _ _ Ho Hct'),
    (zipped_cells_lists _ _ _ _ Ho Ht). simpl.
  apply py_for_ext.
  - by rewrite !length_zip_with, Hlen.
  - intros i [oc tc'] [oc2 tc] s0 Hp Hp'.
    apply lookup_zip_pair in Hp as [Hoc Htc'].
    apply lookup_zip_pair in Hp' as [Hoc2 Htc]. simpl in *.
    assert (oc2 = oc) as -> by congruence.
    destruct (Hrel i oc tc tc' Hoc Htc Htc') as (r & Hr & ->).
    by apply Hbody.
Qed.

Lemma top_level_after_sync k d :
  k <> "cells" -> py_get translated' k d = py_get translated k d.
Proof.
  intros Hk.
  destruct (sync_lists _ _ _ _ _ _ Ho Ht Hsync) as (ct' & Hct' & _).
  assert (Hf : field k translated' = field k translated).
  { pose proof (proj1 (sync_inv _ _ _ _) Hsync) as [Hcells _].
    unfold sync_cells in Hcells.
    apply bind_ok in Hcells as (m & _ & Hrun).
    by apply (sync_loop_top_level _ _ _ _ k Hk) in Hrun. }
  unfold notebook_cells in Ht, Hct'.
  destruct translated; try done. destruct translated'; try done.
  simpl in *. by rewrite Hf.
Qed.

End AfterSync.

(** X7. Synchronising does not change what the other five checks say: on
    notebooks whose cells are lists, the count, kind-alignment,
    code-identity, translation-coverage and metadata checks give on the
    original and the synchronised translation the value, the issues and
    the exception they give on the original and the translation before the
    run. *)
Theorem sync_keeps_other_checks
    original translated translated' n orig_cells trans_cells issues
    (Ho : notebook_cells original = Some orig_cells)
    (Ht : notebook_cells translated = Some trans_cells)
    (Hsync : sync_notebook_outputs original translated = Ok (translated', n)) :
  validate_cell_count original translated' issues
    = validate_cell_count original translated issues
  /\ validate_cell_types original translated' issues
     = validate_cell_types original translated issues
  /\ validate_code_cells original translated' issues
     = validate_code_cells original translated issues
  /\ validate_markdown_translated original translated' issues
     = validate_markdown_translated original translated issues
  /\ validate_metadata original translated' issues
     = validate_metadata original translated issues.
Proof.
  pose proof (sync_spec _ _ _ _ Hsync) as (_ & Hlen & _). cbn [fst] in Hlen.
  unfold cells_len in Hlen.
  repeat split.
  - unfold validate_cell_count. by rewrite Hlen.
  - unfold validate_cell_types.
    rewrite (loop_after_sync original translated translated' n
               orig_cells trans_cells Ho Ht Hsync); [done|].
    intros i oc tc r s0 Hr. unfold cell_types_body. cbn [fst snd].
    by rewrite (sync_cell_py_get oc tc r).
  - unfold validate_code_cells.
    rewrite (loop_after_sync original translated translated' n
               orig_cells trans_cells Ho Ht Hsync); [done|].
    intros i oc tc r s0 Hr. unfold code_cells_body. cbn [fst snd].
    by rewrite (sync_cell_source oc tc r).
  - unfold validate_markdown_translated.
    rewrite (loop_after_sync original translated translated' n
               orig_cells trans_cells Ho Ht Hsync); [done|].
    intros i oc tc r s0 Hr. unfold markdown_body. cbn [fst snd].
    by rewrite (sync_cell_source oc tc r).
  - unfold validate_metadata, kernel_name.
    by rewrite (top_level_after_sync original translated translated' n
                  orig_cells trans_cells Ho Ht Hsync).
Qed.

Lemma sync_keeps_other_checks_witness :
  validate_markdown_translated original_a synced_a []
  = validate_markdown_translated original_a translated_a [].
Proof.
  apply (sync_keeps_other_checks original_a translated_a synced_a 1
           [code_cell ["x = 1"; "print(x)"] [stream "1"; stream "done"] (JInt 1);
            markdown_cell ["# Title"];
            code_cell ["y = 2"] [] JNull]
           [code_cell ["x = 1"; "print(x)"] [] JNull;
            markdown_cell ["# Titre"];
            code_cell ["y = 2"] [stream "old"] (JInt 7)] []).
  - reflexivity.
  - reflexivity.
  - vm_compute. reflexivity.
Defined.

Lemma dict_get_synced_outputs od td v n :
  dict_get "outputs" od = Some v -> py_len v = Ok (Datatypes.S n) ->
  dict_get "outputs" (synced_fields od td) = Some v.
Proof.
  intros Hv Hn. unfold synced_fields, copy_field, has_results, field.
  rewrite Hv, Hn. simpl.
  destruct (dict_get "execution_count" od);
    rewrite ?dict_get_set_ne by done; apply dict_get_set_eq.
Qed.

(** The outputs check finds nothing to record at a synchronised pair whose
    original code cell faces a code cell. *)
Lemma outputs_body_after_sync i oc tc r missing :
  sync_cell oc tc = Ok r ->
  (is_code oc = true -> is_code tc = true) ->
  outputs_body i (oc, fst r) missing = Ok missing.
Proof.
  intros Hr Hkind.
  destruct (sync_cell_inv oc tc r Hr)
    as [[Hk ->]|(od & td & -> & -> & Hoc & Htc & Hlen & ->)].
  - assert (Hnot : is_code oc = false).
    { destruct (is_code oc); [|done]. by rewrite Hkind in Hk. }
    assert (Hdict : syncable oc tc = true) by (apply sync_cell_syncable; eauto).
    unfold syncable in Hdict. destruct oc as [| | | | | |od]; try done.
    unfold outputs_body, is_code, has_kind, py_get in *. cbn [fst snd].
    destruct (dict_get "cell_type" od); simpl in *; [by rewrite Hnot|done].
  - unfold outputs_body. cbn [fst snd].
    assert (Hget : py_get (JObj od) "cell_type" JNull
                   = Ok (default JNull (dict_get "cell_type" od))).
    { unfold py_get. by destruct (dict_get "cell_type" od). }
    rewrite Hget. cbn [bind]. unfold is_code, has_kind in Hoc.
    rewrite Hoc. cbn [negb]. unfold py_get.
    destruct (dict_get "outputs" od) as [v|] eqn:Ev; cbn [bind].
    + destruct (Hlen v eq_refl) as [[|k] Hk].
      * destruct (dict_get "outputs" (synced_fields od td));
          cbn [bind]; by rewrite Hk.
      * rewrite (dict_get_synced_outputs od td v k Ev Hk). cbn [bind].
        by rewrite Hk.
    + by destruct (dict_get "outputs" (synced_fields od td)).
Qed.

(** X8. After a run on two notebooks whose cells are lists and in which
    every original code cell faces a code cell, the outputs-presence check
    on the original and the synchronised translation returns [True] and
    records nothing. *)
Theorem outputs_present_after_sync
    original translated translated' n orig_cells trans_cells issues
    (Ho : notebook_cells original = Some orig_cells)
    (Ht : notebook_cells translated = Some trans_cells)
    (Hsync : sync_notebook_outputs original translated = Ok (translated', n))
    (Hkinds : forall i orig_cell trans_cell,
        orig_cells !! i = Some orig_cell ->
        trans_cells !! i = Some trans_cell ->
        is_code orig_cell = true -> is_code trans_cell = true) :
  validate_outputs_present original translated' issues = (Ok True_, issues).
Proof.
  destruct (sync_lists _ _ _ _ _ _ Ho Ht Hsync) as (ct' & Hct' & Hlen & Hrel).
  unfold validate_outputs_present, mbind, lift, ret.
  rewrite (zipped_cells_lists _ _ _ _ Ho Hct'). cbn [bind].
  rewrite py_for_fixed; [done|].
  intros i [oc tc'] Hp. apply lookup_zip_pair in Hp as [Hoc Htc'].
  simpl in Hoc, Htc'.
  destruct (lookup_lt_is_Some_2 trans_cells i) as [tc Htc].
  { rewrite <- Hlen. by eapply lookup_lt_Some. }
  destruct (Hrel i oc tc tc' Hoc Htc Htc') as (r & Hr & ->).
  apply (outputs_body_after_sync _ oc tc r); [done|].
  by apply (Hkinds i).
Qed.

Lemma outputs_present_after_sync_witness :
  validate_outputs_present original_a translated_a [] =
    (Ok False_, [MissingOutputs [(0, 2)]])
  /\ validate_outputs_present original_a synced_a [] = (Ok True_, []).
Proof.
  split; [vm_compute; reflexivity|].
  apply (outputs_present_after_sync original_a translated_a synced_a 1
           [code_cell ["x = 1"; "print(x)"] [stream "1"; stream "done"] (JInt 1);
            markdown_cell ["# Title"];
            code_cell ["y = 2"] [] JNull]
           [code_cell ["x = 1"; "print(x)"] [] JNull;
            markdown_cell ["# Titre"];
            code_cell ["y = 2"] [stream "old"] (JInt 7)] []).
  - reflexivity.
  - reflexivity.
  - vm_compute. reflexivity.
  - intros [|[|[|i]]] oc tc Hoc Htc Hcode; simpl in Hoc, Htc; simplify_eq;
      vm_compute; try reflexivity; vm_compute in Hcode; done.
Defined.

End SyncThenValidate.

(* ===================================================================== *)
(** * The batch drivers *)
(* ===================================================================== *)

Module BatchFacts.
Import Py Notebook Sync SyncLoop Validate Checks Readings Batch BatchReadings.
Import PyFacts SyncFacts ValidateFacts ValidateProperties ValidateMore.
Import Examples BatchExamples.

Ltac distinct_names :=
  repeat (apply List.NoDup_cons;
          [simpl; intros H; repeat destruct H as [H|H]; discriminate H || done|]);
  apply List.NoDup_nil.

(** ** Directories *)

Lemma dir_lookup_write_eq name f d : dir_lookup name (dir_write name f d) = Some f.
Proof.
  induction d as [|[k x] d IH]; simpl.
  - by rewrite str_eqb_refl.
  - destruct (str_eqb name k) eqn:E; simpl; rewrite ?str_eqb_refl, ?E; done.
Qed.

Lemma dir_lookup_write_ne name name' f d :
  name <> name' -> dir_lookup name' (dir_write name f d) = dir_lookup name' d.
Proof.
  intros Hne. induction d as [|[k x] d IH]; simpl.
  - apply str_eqb_neq in Hne. rewrite str_eqb_sym in Hne. by rewrite Hne.
  - destruct (str_eqb name k) eqn:E; simpl.
    + apply str_eqb_eq in E. subst k.
      apply str_eqb_neq in Hne. rewrite str_eqb_sym in Hne.
      by rewrite Hne.
    + by rewrite IH.
Qed.

Lemma dir_write_same name f d : dir_lookup name d = Some f -> dir_write name f d = d.
Proof.
  induction d as [|[k x] d IH]; simpl; [done|].
  destruct (str_eqb name k) eqn:E.
  - apply str_eqb_eq in E. by intros [= ->]; subst.
  - intros H. by rewrite IH.
Qed.

(** ** One entry of [sync_outputs.py] *)

Lemma sync_entry_spec run e :
  sync_entry run e =
  {| translated_dir := pair_write (translated_dir run) e;
     printed := printed run ++ pair_lines (translated_dir run) e;
     total_outputs := total_outputs run + pair_count (translated_dir run) e;
     files_processed :=
       files_processed run
       + (if pair_done (translated_dir run) e then 1 else 0) |}.
Proof.
  unfold sync_entry, pair_write, pair_lines, pair_count, pair_done, pair_result.
  destruct (dir_lookup (fst e) (translated_dir run)) as [tf|]; simpl.
  - destruct (sync_paths (fst e) (snd e) tf) as [[lines written] [f|k]]; simpl.
    + by rewrite !Nat.add_0_r.
    + done.
  - by rewrite !Nat.add_0_r.
Qed.

(** The call returns what [sync_notebook_outputs] returns on the loaded
    notebooks, and fails with what it raises. *)
Lemma sync_paths_result name o t :
  snd (sync_paths name (Readable o) (Readable t)) =
  match sync_notebook_outputs o t with
  | Ok (_, n) => inr n
  | Raise e => inl (Raised e)
  end.
Proof.
  unfold sync_paths, sync_notebook_outputs, py_dump.
  destruct (sync_cells o t) as [[t' n]|e]; [|done]. cbn [bind fst].
  by destruct (writable t').
Qed.

Lemma dir_after_lookup name written d f :
  dir_lookup name d = Some f ->
  dir_lookup name (dir_after name written d) = Some (default f written).
Proof.
  destruct written as [w|]; simpl; [|done]. intros _.
  apply dir_lookup_write_eq.
Qed.

Lemma dir_after_ne name name' written d :
  name <> name' ->
  dir_lookup name' (dir_after name written d) = dir_lookup name' d.
Proof.
  destruct written as [w|]; simpl; [|done]. apply dir_lookup_write_ne.
Qed.

(** The file a call leaves: what it wrote, or the file as it was. *)
Lemma sync_paths_left name ofile tf :
  default tf (snd (fst (sync_paths name ofile tf))) = left_at ofile tf.
Proof.
  unfold sync_paths, left_at, left_by, py_dump.
  destruct ofile as [o|], tf as [t|]; try done.
  destruct (sync_cells o t) as [[t' k]|e]; [|done].
  by destruct (writable t').
Qed.

(** What an entry gives depends on the directory through its own file
    only. *)
Lemma pair_result_lookup d1 d2 e :
  dir_lookup (fst e) d1 = dir_lookup (fst e) d2 ->
  pair_result d1 e = pair_result d2 e.
Proof. unfold pair_result. by intros ->. Qed.

Lemma lookup_pair_write_ne d e name :
  name <> fst e -> dir_lookup name (pair_write d e) = dir_lookup name d.
Proof.
  intros Hne. unfold pair_write.
  destruct (pair_result d e) as [[[lines written] res]|]; [|done].
  apply dir_after_ne. congruence.
Qed.

Lemma lookup_pair_write_none d e name :
  dir_lookup name d = None -> dir_lookup name (pair_write d e) = None.
Proof.
  intros Hnone. destruct (str_eq_dec name (fst e)) as [->|Hne].
  - unfold pair_write, pair_result. by rewrite Hnone.
  - by rewrite lookup_pair_write_ne.
Qed.

Lemma lookup_pair_write_own d e :
  dir_lookup (fst e) (pair_write d e) =
  match dir_lookup (fst e) d with
  | Some tf => Some (left_at (snd e) tf)
  | None => None
  end.
Proof.
  unfold pair_write, pair_result.
  destruct (dir_lookup (fst e) d) as [tf|] eqn:El; [|done].
  rewrite <- sync_paths_left with (name := fst e).
  destruct (sync_paths (fst e) (snd e) tf) as [[lines written] res].
  cbn [fst snd]. by apply dir_after_lookup.
Qed.

Lemma pair_result_after d e e' :
  fst e' <> fst e -> pair_result (pair_write d e) e' = pair_result d e'.
Proof.
  intros Hne. apply pair_result_lookup. by apply lookup_pair_write_ne.
Qed.

(** ** The loop of [sync_outputs.py] *)

Lemma lookup_fold_other es d name :
  ~ In name (map fst es) ->
  dir_lookup name (foldl pair_write d es) = dir_lookup name d.
Proof.
  revert d. induction es as [|e es IH]; intros d Hn; simpl; [done|].
  rewrite IH by (intros ?; apply Hn; by right).
  apply lookup_pair_write_ne. intros ->. apply Hn. by left.
Qed.

Lemma lookup_fold_own es d e :
  List.NoDup (map fst es) -> In e es ->
  dir_lookup (fst e) (foldl pair_write d es) =
  dir_lookup (fst e) (pair_write d e).
Proof.
  revert d. induction es as [|e0 es IH]; intros d Hnd Hin; [done|].
  simpl in *. apply List.NoDup_cons_iff in Hnd as [Hn Hnd].
  destruct Hin as [->|Hin].
  - by apply lookup_fold_other.
  - assert (Hne : fst e <> fst e0).
    { intros Heq. apply Hn. rewrite <- Heq. by apply in_map. }
    rewrite IH by done.
    rewrite !lookup_pair_write_own.
    by rewrite lookup_pair_write_ne.
Qed.

Lemma sync_fold es run :
  List.NoDup (map fst es) ->
  foldl sync_entry run es =
  {| translated_dir := foldl pair_write (translated_dir run) es;
     printed := printed run ++ concat (map (pair_lines (translated_dir run)) es);
     total_outputs :=
       total_outputs run + sum_list (map (pair_count (translated_dir run)) es);
     files_processed :=
       files_processed run
       + length (List.filter (pair_done (translated_dir run)) es) |}.
Proof.
  revert run. induction es as [|e es IH]; intros run Hnd.
  - destruct run. simpl. by rewrite app_nil_r, !Nat.add_0_r.
  - simpl in Hnd. apply List.NoDup_cons_iff in Hnd as [Hn Hnd].
    cbn [foldl]. rewrite IH by done. rewrite sync_entry_spec.
    cbn [translated_dir printed total_outputs files_processed].
    assert (Hres : forall e', In e' es ->
               pair_result (pair_write (translated_dir run) e) e'
               = pair_result (translated_dir run) e').
    { intros e' He'. apply pair_result_after. intros Heq.
      apply Hn. rewrite <- Heq. by apply in_map. }
    rewrite (List.map_ext_in _ (pair_lines (translated_dir run)))
      by (intros e' He'; unfold pair_lines; by rewrite Hres).
    rewrite (List.map_ext_in _ (pair_count (translated_dir run)))
      by (intros e' He'; unfold pair_count; by rewrite Hres).
    rewrite (List.filter_ext_in _ (pair_done (translated_dir run)))
      by (intros e' He'; unfold pair_done; by rewrite Hres).
    cbn [map concat sum_list List.filter].
    f_equal.
    + by rewrite app_assoc.
    + simpl. lia.
    + destruct (pair_done (translated_dir run) e); simpl; lia.
Qed.

(** X9. When the names of the originals are distinct, [main] of
    [sync_outputs.py] handles every pair as if it were alone: the lines,
    the total and the number of files processed are those each pair gives
    on the directory as [main] found it, and the pairs after a failure are
    still handled.  A translated file whose pair was synchronised holds the
    notebook the loop made of it.  One whose pair failed before the write,
    by a file that cannot be read or by an exception of the loop, is left
    as it was.  One whose write failed, [json.dump] meeting a string it
    cannot encode, is left unfinished and cannot be read any more.  No
    other file of the directory changes. *)
Theorem sync_main_handles_pairs_apart originals translated
    (Hnames : List.NoDup (map fst originals)) :
  let run := sync_main originals translated in
  printed run = concat (map (pair_lines translated) originals)
                ++ [Summary (files_processed run) (total_outputs run)]
  /\ total_outputs run = sum_list (map (pair_count translated) originals)
  /\ files_processed run
     = length (List.filter (pair_done translated) originals)
  /\ (forall name original_file translated_file,
        In (name, original_file) originals ->
        dir_lookup name translated = Some translated_file ->
        dir_lookup name (translated_dir run) =
        Some (match original_file, translated_file with
              | Readable original_nb, Readable translated_nb =>
                  match sync_cells original_nb translated_nb with
                  | Ok (translated_nb', _) =>
                      if writable translated_nb'
                      then Readable translated_nb' else Unreadable
                  | Raise _ => translated_file
                  end
              | _, _ => translated_file
              end))
  /\ (forall name,
        ~ In name (map fst originals) \/ dir_lookup name translated = None ->
        dir_lookup name (translated_dir run) = dir_lookup name translated).
Proof.
  cbv zeta. unfold sync_main. rewrite sync_fold by done.
  cbn [translated_dir printed total_outputs files_processed sync_start app].
  repeat split.
  - intros name ofile tf Hin Hl.
    pose proof (lookup_fold_own originals translated (name, ofile) Hnames Hin)
      as Hown.
    rewrite lookup_pair_write_own in Hown.
    cbn [fst snd] in Hown. rewrite Hown, Hl.
    unfold left_at, left_by.
    destruct ofile as [o|], tf as [t|]; try done.
  - intros name [Hn|Hnone].
    + by apply lookup_fold_other.
    + destruct (in_dec str_eq_dec name (map fst originals)) as [Hin|Hn];
        [|by apply lookup_fold_other].
      apply in_map_iff in Hin as (e & <- & He).
      rewrite (lookup_fold_own originals translated e) by done.
      rewrite Hnone. by apply lookup_pair_write_none.
Qed.

Lemma sync_main_handles_pairs_apart_witness :
  total_outputs (sync_main batch_originals batch_translated) = 2
  /\ files_processed (sync_main batch_originals batch_translated) = 2
  /\ dir_lookup "10_plots.ipynb"
       (translated_dir (sync_main batch_originals batch_translated))
     = Some (Readable translated_b)
  /\ dir_lookup "13_more.ipynb"
       (translated_dir (sync_main batch_originals batch_translated))
     = Some (Readable synced_long)
  /\ dir_lookup "13_text.ipynb"
       (translated_dir (sync_main batch_originals batch_translated))
     = Some Unreadable.
Proof.
  destruct (sync_main_handles_pairs_apart batch_originals batch_translated)
    as (_ & Htotal & Hdone & Hfiles & _); [simpl; distinct_names|].
  split; [by rewrite Htotal|]. split; [by rewrite Hdone|].
  split; [|split].
  - rewrite (Hfiles "10_plots.ipynb" Unreadable (Readable translated_b));
      [done|simpl; tauto|done].
  - rewrite (Hfiles "13_more.ipynb" (Readable original_short)
               (Readable translated_long)); [done|simpl; tauto|done].
  - rewrite (Hfiles "13_text.ipynb" (Readable original_short)
               (Readable translated_surrogate)); [done|simpl; tauto|done].
Defined.

(** ** Running [sync_outputs.py] again *)

Lemma sync_run_again o t t' n :
  sync_notebook_outputs o t = Ok (t', n) ->
  sync_notebook_outputs o t' = Ok (t', n) /\ cells_len t' = cells_len t.
Proof.
  intros Hsync. apply sync_inv in Hsync as [Hcells Hw].
  destruct (sync_cells_again _ _ _ _ Hcells) as [Hagain Hlen].
  split; [|done]. by apply sync_inv.
Qed.

(** A pair found as its own run left it changes nothing more, counts the
    same and prints the same lines, unless its write failed: then its
    translated file cannot be loaded. *)
Lemma pair_stable d e D :
  dir_lookup (fst e) D = dir_lookup (fst e) (pair_write d e) ->
  pair_lines D e = lines_again d e /\ pair_count D e = pair_count d e
  /\ pair_done D e = pair_done d e /\ pair_write D e = D.
Proof.
  rewrite lookup_pair_write_own.
  unfold lines_again, write_failed, pair_lines, pair_count, pair_done,
    pair_write, pair_result.
  destruct (dir_lookup (fst e) d) as [tf|] eqn:El; [|by intros ->].
  intros HD. rewrite HD.
  unfold left_at, left_by in *.
  destruct (snd e) as [o|]; [|by destruct tf].
  destruct tf as [t|]; [|done].
  unfold sync_paths, py_dump.
  destruct (sync_cells o t) as [[t' k]|err] eqn:Es.
  - destruct (writable t') eqn:Hw.
    + destruct (sync_cells_again _ _ _ _ Es) as [Hagain Hlen].
      rewrite Hagain, Hw. unfold warning_lines. rewrite Hlen.
      repeat split. simpl. by apply dir_write_same.
    + done.
  - by rewrite Es.
Qed.

Lemma fold_stable es D :
  (forall e, In e es -> pair_write D e = D) -> foldl pair_write D es = D.
Proof.
  induction es as [|e es IH]; intros H; simpl; [done|].
  rewrite (H e) by (by left). apply IH. intros e' He'. apply H. by right.
Qed.

(** X10. When the names of the originals are distinct, running [main] of
    [sync_outputs.py] again on the directory it left changes no file and
    gives the same totals.  It prints the same lines, with one exception:
    a pair whose write failed in the first run left a translated file that
    cannot be read, and the second run prints for it the error of the load
    in place of the lines of the first run. *)
Theorem sync_main_idempotent originals translated
    (Hnames : List.NoDup (map fst originals)) :
  let first := sync_main originals translated in
  let second := sync_main originals (translated_dir first) in
  translated_dir second = translated_dir first
  /\ total_outputs second = total_outputs first
  /\ files_processed second = files_processed first
  /\ printed second
     = concat (map (lines_again translated) originals)
       ++ [Summary (files_processed first) (total_outputs first)]
  /\ ((forall e, In e originals -> write_failed translated e = false) ->
      second = first).
Proof.
  cbv zeta. unfold sync_main. rewrite !sync_fold by done.
  cbn [translated_dir printed total_outputs files_processed sync_start app].
  set (D := foldl pair_write translated originals).
  assert (Hst : forall e, In e originals ->
            pair_lines D e = lines_again translated e
            /\ pair_count D e = pair_count translated e
            /\ pair_done D e = pair_done translated e
            /\ pair_write D e = D).
  { intros e He. apply pair_stable. by apply lookup_fold_own. }
  rewrite (fold_stable originals D) by (intros e He; by apply Hst).
  rewrite (List.map_ext_in (pair_lines D) (lines_again translated))
    by (intros e He; by apply Hst).
  rewrite (List.map_ext_in (pair_count D) (pair_count translated))
    by (intros e He; by apply Hst).
  rewrite (List.filter_ext_in (pair_done D) (pair_done translated))
    by (intros e He; by apply Hst).
  repeat split.
  intros Hok.
  rewrite (List.map_ext_in (lines_again translated) (pair_lines translated));
    [done|].
  intros e He. unfold lines_again. by rewrite Hok.
Qed.

Lemma sync_main_idempotent_witness :
  let first := sync_main batch_originals batch_translated in
  let second := sync_main batch_originals (translated_dir first) in
  translated_dir second = translated_dir first
  /\ total_outputs second = 2
  /\ files_processed second = 2
  /\ In (Error "13_text.ipynb" (Raised UnicodeEncodeError)) (printed first)
  /\ In (Error "13_text.ipynb" LoadFailed) (printed second).
Proof.
  destruct (sync_main_idempotent batch_originals batch_translated)
    as (Hdir & Htotal & Hdone & Hlines & _); [simpl; distinct_names|].
  cbv zeta. split; [done|]. split; [by rewrite Htotal|].
  split; [by rewrite Hdone|]. split.
  - vm_compute. tauto.
  - rewrite Hlines. vm_compute. tauto.
Defined.

(** ** One pair of [validate_translation.py] *)

(** The shape of what [run_all_validations] returns on a fresh validator. *)
Lemma run_all_shape original translated :
  exists b1 b2 b3 b4 b5 x1 x2 x3 x4 x5 m ml,
    run_all_validations original translated [] =
      ([("Cell count", JBool b1); ("Cell types", JBool b2);
        ("Code cells", JBool b3); ("Markdown translation", JBool b4);
        ("Outputs present", JBool b5); ("Metadata", m)],
       recorded b1 x1 ++ recorded b2 x2 ++ recorded b3 x3 ++ recorded b4 x4
       ++ recorded b5 x5 ++ ml)
    /\ ((m = JNull /\ ml = [])
        \/ (m = JNull /\ exists a b, ml = [KernelMismatch a b])
        \/ (m = False_ /\ exists e, ml = [ValidationError "Metadata" e])).
Proof.
  rewrite run_all_validations_spec.
  unfold validations. cbn [foldl map concat fst snd app].
  pose (x0 := AllMarkdownIdentical 0).
  destruct (outcome_cell_count original translated "Cell count")
    as [->|[x1 ->]]; [exists true|exists false];
  (destruct (outcome_cell_types original translated "Cell types")
     as [->|[x2 ->]]; [exists true|exists false]);
  (destruct (outcome_code_cells original translated "Code cells")
     as [->|[x3 ->]]; [exists true|exists false]);
  (destruct (outcome_markdown_translated original translated
               "Markdown translation") as [->|[x4 ->]];
   [exists true|exists false]);
  (destruct (outcome_outputs_present original translated "Outputs present")
     as [->|[x5 ->]]; [exists true|exists false]);
  try (exists x1) || exists x0; try (exists x2) || exists x0;
  try (exists x3) || exists x0; try (exists x4) || exists x0;
  try (exists x5) || exists x0;
  (destruct (outcome_metadata original translated)
     as [->|[(a & b & ->)|(e & ->)]];
   [exists JNull, []|exists JNull, [KernelMismatch a b]
   |exists False_, [ValidationError "Metadata" e]]);
  (split; [reflexivity|]); eauto 6.
Qed.

(** X11. For every pair, [main] of [validate_translation.py] prints the
    status that is not the passing one; when the validator recorded
    issues it prints them after it, and when it recorded none it prints
    the line of failed checks, which names ['Metadata'] alone. *)
Theorem report_pair_spec name original translated :
  report_pair name original translated =
  Status ISSUES name ::
  match snd (run_all_validations original translated []) with
  | [] => [FailedChecks ["Metadata"]]
  | issues => map IssueLine issues
  end.
Proof.
  unfold report_pair, file_status.
  destruct (run_all_shape original translated)
    as (b1 & b2 & b3 & b4 & b5 & x1 & x2 & x3 & x4 & x5 & m & ml & -> & Hm).
  destruct Hm as [[-> ->]|[[-> (a & b & ->)]|[-> (e & ->)]]];
    destruct b1, b2, b3, b4, b5; reflexivity.
Qed.

(** ** The loop of [validate_translation.py] *)

Lemma validate_loop_spec es d run :
  validate_loop es d run =
  if forallb (loadable d) es then
    ({| report := report run ++ concat (map (entry_report d) es);
        total_files :=
          total_files run + length (List.filter (has_translation d) es);
        files_with_issues :=
          files_with_issues run + length (List.filter (has_issues d) es) |},
     None)
  else (fst (validate_loop es d run), Some LoadFailed).
Proof.
  revert run. induction es as [|[name ofile] es IH]; intros run.
  - destruct run. simpl. by rewrite app_nil_r, !Nat.add_0_r.
  - cbn [validate_loop forallb map concat List.filter].
    unfold loadable at 1, has_translation at 1, has_issues at 1,
      entry_report at 1, pair_issues at 1.
    cbn [fst snd].
    destruct (dir_lookup name d) as [[t|]|] eqn:El; cbn [andb].
    + destruct ofile as [o|]; cbn [andb]; [|done].
      rewrite IH. cbn [report total_files files_with_issues].
      destruct (forallb (loadable d) es); [|done].
      f_equal; f_equal;
        first [ by rewrite app_assoc
              | cbn [length]; lia
              | destruct (snd (run_all_validations o t [])); cbn [length]; lia ].
    + by destruct ofile.
    + rewrite IH. cbn [report total_files files_with_issues].
      destruct (forallb (loadable d) es); [|done].
      f_equal; f_equal; first [by rewrite <- app_assoc | lia].
Qed.


Lemma filter_length_none {A} (f : A -> bool) (l : list A) :
  length (List.filter f l) = 0 <-> forall x, In x l -> f x = false.
Proof.
  induction l as [|a l IH]; simpl.
  - split; [by intros _ x []|done].
  - destruct (f a) eqn:E; simpl.
    + split; [done|]. intros H. rewrite H in E by (by left). done.
    + rewrite IH. split.
      * intros H x [<-|Hx]; [done|by apply H].
      * intros H x Hx. apply H. by right.
Qed.

Lemma filter_length_le_implied {A} (f g : A -> bool) (l : list A) :
  (forall x, f x = true -> g x = true) ->
  length (List.filter f l) <= length (List.filter g l).
Proof.
  intros Himp. induction l as [|a l IH]; simpl; [done|].
  destruct (f a) eqn:E.
  - rewrite (Himp a E). simpl. lia.
  - destruct (g a); simpl; lia.
Qed.

Lemma in_entry_report d e line :
  In line (entry_report d e) ->
  line = NoTranslation (fst e) \/ line = Status ISSUES (fst e)
  \/ line = FailedChecks ["Metadata"] \/ exists i, line = IssueLine i.
Proof.
  unfold entry_report.
  destruct (dir_lookup (fst e) d) as [[t|]|]; [| |].
  - destruct (snd e) as [o|]; [|done]. rewrite report_pair_spec.
    intros [<-|Hin]; [tauto|].
    destruct (snd (run_all_validations o t [])) as [|x l].
    + destruct Hin as [<-|[]]. tauto.
    + apply in_map_iff in Hin as (i & <- & _). eauto.
  - done.
  - intros [<-|[]]. tauto.
Qed.

(** X13. When [main] of [validate_translation.py] comes to its summary,
    the number of files is that of the originals with a translation, the
    number of files with issues is that of the pairs for which an issue
    was recorded, and it is at most the number of files; the line that all
    notebooks passed is printed exactly when no pair has an issue; and yet
    every status line of the report is the one that is not passing, and
    every line of failed checks names ['Metadata'] alone. *)
Theorem validate_main_summary originals translated
    (Hdone : snd (validate_main originals translated) = None) :
  let run := fst (validate_main originals translated) in
  total_files run
    = length (List.filter (has_translation translated) originals)
  /\ files_with_issues run
     = length (List.filter (has_issues translated) originals)
  /\ files_with_issues run <= total_files run
  /\ (In AllPassed (report run) <->
      forall entry, In entry originals -> has_issues translated entry = false)
  /\ (forall st name, In (Status st name) (report run) -> st = ISSUES)
  /\ (forall names, In (FailedChecks names) (report run) ->
                    names = ["Metadata"]).
Proof.
  cbv zeta. revert Hdone. unfold validate_main.
  rewrite validate_loop_spec.
  destruct (forallb (loadable translated) originals); [|discriminate].
  intros _. cbn [fst report total_files files_with_issues plus app].
  set (k := length (List.filter (has_issues translated) originals)).
  assert (Hle : k <= length (List.filter (has_translation translated) originals)).
  { unfold k. apply filter_length_le_implied. intros e.
    unfold has_issues, has_translation, pair_issues.
    by destruct (dir_lookup (fst e) translated) as [[t|]|]. }
  assert (Hlines : forall line,
             In line (concat (map (entry_report translated) originals)) ->
             (exists name, line = NoTranslation name)
             \/ (exists name, line = Status ISSUES name)
             \/ line = FailedChecks ["Metadata"]
             \/ exists i, line = IssueLine i).
  { intros line Hin. apply in_concat in Hin as (l & Hl & Hin).
    apply in_map_iff in Hl as (e & <- & _).
    apply in_entry_report in Hin as [->|[->|[->|[i ->]]]]; eauto. }
  repeat split.
  - done.
  - intros Hin. apply filter_length_none. fold k.
    apply in_app_iff in Hin as [Hin|Hin].
    + apply Hlines in Hin as [[? [=]]|[[? [=]]|[[=]|[? [=]]]]].
    + destruct Hin as [[=]|Hin].
      destruct (k =? 0)%nat eqn:E; [by apply Nat.eqb_eq|].
      by destruct Hin as [[=]|[]].
  - intros Hnone. apply filter_length_none in Hnone. fold k in Hnone.
    rewrite Hnone. apply in_app_iff. right. right. by left.
  - intros st name Hin. apply in_app_iff in Hin as [Hin|Hin].
    + apply Hlines in Hin as [[? [=]]|[[? [= -> _]]|[[=]|[? [=]]]]]. done.
    + destruct Hin as [[=]|Hin].
      by destruct (k =? 0)%nat; destruct Hin as [[=]|[]].
  - intros names Hin. apply in_app_iff in Hin as [Hin|Hin].
    + apply Hlines in Hin as [[? [=]]|[[? [=]]|[[= ->]|[? [=]]]]]. done.
    + destruct Hin as [[=]|Hin].
      by destruct (k =? 0)%nat; destruct Hin as [[=]|[]].
Qed.

Lemma validate_main_summary_witness :
  In AllPassed (report (fst (validate_main clean_originals clean_translated)))
  /\ forall st name,
       In (Status st name)
          (report (fst (validate_main clean_originals clean_translated))) ->
       st = ISSUES.
Proof.
  destruct (validate_main_summary clean_originals clean_translated)
    as (_ & _ & _ & Hall & Hst & _); [vm_compute; reflexivity|].
  split; [|exact Hst].
  apply Hall. intros e [<-|[<-|[<-|[]]]]; vm_compute; reflexivity.
Defined.

End BatchFacts.
